(** * Trial-balance pipeline of af-relatorio: value conversion, structural
    parsing and hierarchy validation

    A shallow embedding of
      - backend/parsers/value_converter.py
      - backend/parsers/header_extractor.py
      - backend/parsers/balancete_parser.py
      - backend/validators/hierarchy_validator.py
        ([validate_hierarchy], [validate_balance_sheet])
    followed by the properties of the specification that concern them,
    and of the code around them:
      - backend/validators/hierarchy_validator.py
        ([validate_level_classification])
      - backend/routers/upload.py (the file name check and the
        validation stage of [upload_file])
      - backend/classifier/default_mapping.py,
        backend/classifier/depara_manager.py ([classify_accounts],
        [_get_level4_prefix]), backend/classifier/ai_classifier.py
        ([_infer_grupo_df])
      - backend/sheets/dre_builder.py ([_col_letter],
        [_period_to_header])
    with the properties that the code itself shows.

    Conventions of the embedding.
      - A Python [str] is a [string]: the bytes of its UTF-8 encoding.  The
        character classes of the code ([str.strip], [str.upper],
        [str.lower], the classes [\s] and [\d] of regular expressions) are
        taken on the ASCII range: a byte above 127 is neither blank nor
        digit, and has no other case (the accented letters of the three
        header patterns apart).
      - A Python [float] is a binary64 number, [PrimFloat.float]; [float],
        [repr], [round] and [int] on floats are defined from the IEEE
        description of a number ([Prim2SF], [SF2Prim]).
      - A Python [int] is a [Z].
      - An exception is a value of [exn]; a call that may raise returns a
        [result].
      - A worksheet is the list of its rows, a row the list of its cells. *)

From Stdlib Require Import ZArith NArith List String Ascii Bool Lia.
From Stdlib Require Import DecimalString.
From Stdlib Require Import Floats.
From Stdlib Require DecimalPos.
Import ListNotations.

Open Scope string_scope.
Open Scope Z_scope.

(* ================================================================== *)
(** ** Exceptions and results *)

(** What a [ValueError] of the code reports.  The constructors carry the
    data that the message text is formatted from. *)
Inductive value_error : Type :=
| UnsupportedFormat (ext : string)
    (* "Formato de arquivo não suportado: '{ext}'. Use .xls ou .xlsx." *)
| HeaderTooShort (n : nat)
    (* "Arquivo tem apenas {len(rows)} linhas. Esperado pelo menos 2 linhas
       de cabeçalho." *)
| MissingEmpresa
    (* "Campo 'empresa' não encontrado na linha 0, coluna 0." *)
| BadPeriodo (periodo_str : string)
    (* "Não foi possível extrair o período da linha 0, coluna 5:
       '{periodo_str}'" *)
| BadCNPJ (cnpj_str : string)
    (* "Não foi possível extrair o CNPJ da linha 1, coluna 0: '{cnpj_str}'" *)
| BadEmissao (emissao_str : string)
    (* "Não foi possível extrair a emissão da linha 1, coluna 5:
       '{emissao_str}'" *)
| BadDate (text : string)
    (* raised by [datetime.strptime] on a date that does not exist *)
| NoDataRows
    (* "Nenhuma linha de dados encontrada no balancete." *)
| EmptyAccountCode
    (* "Código de conta vazio." *)
| UnknownAccountGroup (codigo : string) (first_char : ascii)
    (* "Grupo contábil desconhecido para conta '{codigo}'. Primeiro
       caractere '{first_char}' não está no mapa: [...]" *)
| InvalidGroup (account_group : Z)
    (* "Grupo contábil inválido: {account_group}. Esperado: 1, 2, 3 ou 4." *)
| MissingColumns (missing present : list string).
    (* "Colunas obrigatórias ausentes no DataFrame: {missing}. Colunas
       presentes: {list(df.columns)}" *)

Inductive exn : Type :=
| FileNotFoundError (filepath : string)
    (* "Arquivo não encontrado: {filepath}" *)
| ValueError (why : value_error)
| OverflowError
    (* raised by the built-in conversions [float(int)] and [int(float)] *)
| IndexError.
    (* raised by [row[0]] on a row without cells *)

Inductive result (A : Type) : Type :=
| Ok (a : A)
| Raise (e : exn).

Arguments Ok {A} a.
Arguments Raise {A} e.

Definition bind {A B} (r : result A) (k : A -> result B) : result B :=
  match r with
  | Ok a => k a
  | Raise e => Raise e
  end.

Declare Scope py_scope.
Delimit Scope py_scope with py.
Notation "x <- c1 ;; c2" := (bind c1 (fun x => c2))
  (at level 61, c1 at next level, right associativity) : py_scope.
Notation "' pat <- c1 ;; c2" := (bind c1 (fun x => match x with pat => c2 end))
  (at level 61, pat pattern, c1 at next level, right associativity) : py_scope.

Definition is_ok {A} (r : result A) : bool :=
  match r with Ok _ => true | Raise _ => false end.

(* ================================================================== *)
(** ** Python strings *)

Module Str.

Definition code (c : ascii) : N := N_of_ascii c.

Definition in_range (lo hi : N) (c : ascii) : bool :=
  ((lo <=? code c) && (code c <=? hi))%N.

(** [str.isspace] on the ASCII range: TAB, LF, VT, FF, CR, FS, GS, RS, US
    and the blank. *)
Definition is_space (c : ascii) : bool :=
  in_range 9 13 c || in_range 28 32 c.

(** The class [\d]. *)
Definition is_digit (c : ascii) : bool := in_range 48 57 c.

Definition upper_char (c : ascii) : ascii :=
  if in_range 97 122 c then ascii_of_N (code c - 32) else c.

Definition lower_char (c : ascii) : ascii :=
  if in_range 65 90 c then ascii_of_N (code c + 32) else c.

Fixpoint map (f : ascii -> ascii) (s : string) : string :=
  match s with
  | EmptyString => EmptyString
  | String c s' => String (f c) (map f s')
  end.

Definition upper : string -> string := map upper_char.
Definition lower : string -> string := map lower_char.

Definition is_empty (s : string) : bool :=
  match s with EmptyString => true | _ => false end.

(** Removal of the characters of a class at both ends. *)
Fixpoint lstrip_by (blank : ascii -> bool) (s : string) : string :=
  match s with
  | EmptyString => EmptyString
  | String c s' => if blank c then lstrip_by blank s' else s
  end.

Fixpoint rstrip_by (blank : ascii -> bool) (s : string) : string :=
  match s with
  | EmptyString => EmptyString
  | String c s' =>
      let r := rstrip_by blank s' in
      if blank c && is_empty r then EmptyString else String c r
  end.

Definition strip_by (blank : ascii -> bool) (s : string) : string :=
  rstrip_by blank (lstrip_by blank s).

(** [s.lstrip()], [s.rstrip()] and [s.strip()] *)
Definition lstrip : string -> string := lstrip_by is_space.
Definition rstrip : string -> string := rstrip_by is_space.
Definition strip : string -> string := strip_by is_space.

(** [s.startswith(p)] *)
Definition startswith (s p : string) : bool := String.prefix p s.

(** [s.endswith(suf)] *)
Fixpoint endswith (s suf : string) : bool :=
  (s =? suf)%string ||
  match s with
  | EmptyString => false
  | String _ s' => endswith s' suf
  end.

(** [needle in hay] *)
Fixpoint contains (needle hay : string) : bool :=
  String.prefix needle hay ||
  match hay with
  | EmptyString => false
  | String _ hay' => contains needle hay'
  end.

(** [s[:-1]] *)
Fixpoint drop_last (s : string) : string :=
  match s with
  | EmptyString => EmptyString
  | String c s' => if is_empty s' then EmptyString else String c (drop_last s')
  end.

(** [s.replace(old, new)] for a one-character [old]. *)
Fixpoint replace (old : ascii) (new : string) (s : string) : string :=
  match s with
  | EmptyString => EmptyString
  | String c s' =>
      if (c =? old)%char then new ++ replace old new s'
      else String c (replace old new s')
  end.

Fixpoint filter (keep : ascii -> bool) (s : string) : string :=
  match s with
  | EmptyString => EmptyString
  | String c s' => if keep c then String c (filter keep s') else filter keep s'
  end.

(** [s[n:]] *)
Fixpoint drop (n : nat) (s : string) : string :=
  match n, s with
  | S n', String _ t => drop n' t
  | _, _ => s
  end.

(** [s[:n]] *)
Fixpoint take (n : nat) (s : string) : string :=
  match n, s with
  | S n', String c t => String c (take n' t)
  | _, _ => EmptyString
  end.

(** ["0" * n] *)
Fixpoint zeros (n : nat) : string :=
  match n with O => EmptyString | S n' => String "0" (zeros n') end.

Fixpoint forallb (p : ascii -> bool) (s : string) : bool :=
  match s with
  | EmptyString => true
  | String c s' => p c && forallb p s'
  end.

(** [s.split(sep)] for a one-character [sep]: never the empty list. *)
Fixpoint split (sep : ascii) (s : string) : list string :=
  match s with
  | EmptyString => [EmptyString]
  | String c s' =>
      if (c =? sep)%char then EmptyString :: split sep s'
      else match split sep s' with
           | h :: t => String c h :: t
           | [] => [String c EmptyString]
           end
  end.

(** [str(n)] for an [int]. *)
Definition of_Z (z : Z) : string := NilZero.string_of_int (Z.to_int z).

End Str.

(* ================================================================== *)
(** ** Python numbers *)

Module Num.

(** Rounding to the nearest integer, ties to even, of [x / d]. *)
Definition round_half_even (x d : Z) : Z :=
  let q := x / d in
  let r := x mod d in
  if 2 * r <? d then q
  else if 2 * r >? d then q + 1
  else if Z.even q then q else q + 1.

(** A ratio is counted in units of 2^-1074, the smallest positive
    float. *)
Definition units (num : Z) : Z := num * 2 ^ 1074.

(** The power of two that leaves 53 bits to the quotient, when it can. *)
Definition shift_of (x den : Z) : Z :=
  let s0 := Z.max (Z.log2 x - Z.log2 den - 53) 0 in
  if x / (den * 2 ^ s0) >=? 2 ^ 53 then s0 + 1 else s0.

(** The binary64 number nearest to [num / den] (ties to even), with sign
    [neg]: its mantissa and exponent, zero on underflow, an infinity on
    overflow. *)
Definition round_ratio (neg : bool) (num den : Z) : spec_float :=
  if (num <=? 0) || (den <=? 0) then S754_zero neg
  else
    let x := units num in
    let s := shift_of x den in
    let n := round_half_even x (den * 2 ^ s) in
    let '(n, s) := if n =? 2 ^ 53 then (2 ^ 52, s + 1) else (n, s) in
    match n with
    | Z.pos m =>
        if s >? 2045 then S754_infinity neg else S754_finite neg m (s - 1074)
    | _ => S754_zero neg
    end.

(** The binary64 number nearest to [m * 10 ^ e], for [0 <= m]. *)
Definition float_of_decimal (neg : bool) (m e : Z) : float :=
  SF2Prim (if e >=? 0 then round_ratio neg (m * 10 ^ e) 1
           else round_ratio neg m (10 ^ (- e))).

(** [float(n)] for an [int]: [None] stands for OverflowError. *)
Definition float_of_int (z : Z) : option float :=
  match round_ratio (z <? 0) (Z.abs z) 1 with
  | S754_infinity _ => None
  | sf => Some (SF2Prim sf)
  end.

(** The blanks that [float] removes around a numeral: those of the C
    locale (TAB, LF, VT, FF, CR and the space). *)
Definition c_space (c : ascii) : bool :=
  Str.in_range 9 13 c || (c =? " ")%char.

(** Underscores of a numeric literal: allowed between two digits only. *)
Fixpoint strip_underscores (prev_digit : bool) (s : string) : option string :=
  match s with
  | EmptyString => Some EmptyString
  | String c t =>
      if (c =? "_")%char then
        match t with
        | String d _ =>
            if prev_digit && Str.is_digit d then strip_underscores false t
            else None
        | EmptyString => None
        end
      else option_map (String c) (strip_underscores (Str.is_digit c) t)
  end.

(** The longest prefix of digits, and the rest. *)
Fixpoint span_digits (s : string) : string * string :=
  match s with
  | String c t =>
      if Str.is_digit c then
        let '(ds, rest) := span_digits t in (String c ds, rest)
      else (EmptyString, s)
  | EmptyString => (EmptyString, EmptyString)
  end.

Fixpoint digits_value (acc : Z) (ds : string) : Z :=
  match ds with
  | EmptyString => acc
  | String c t => digits_value (10 * acc + (Z.of_N (Str.code c) - 48)) t
  end.

Definition split_sign (s : string) : bool * string :=
  match s with
  | String "-" t => (true, t)
  | String "+" t => (false, t)
  | _ => (false, s)
  end.

(** The exponent part: absent, or [e], an optional sign and digits. *)
Definition parse_exponent (s : string) : option Z :=
  match s with
  | EmptyString => Some 0
  | String c t =>
      if (Str.lower_char c =? "e")%char then
        let '(neg, t') := split_sign t in
        match span_digits t' with
        | (String d ds, EmptyString) =>
            let v := digits_value 0 (String d ds) in
            Some (if neg then - v else v)
        | _ => None
        end
      else None
  end.

(** [float(s)] for a [str]: [None] stands for ValueError. *)
Definition float_of_str (s : string) : option float :=
  match strip_underscores false (Str.strip_by c_space s) with
  | None => None
  | Some s1 =>
      let '(neg, body) := split_sign s1 in
      let low := Str.lower body in
      if (low =? "inf")%string || (low =? "infinity")%string then
        Some (if neg then neg_infinity else infinity)
      else if (low =? "nan")%string then Some nan
      else
        let '(ip, r1) := span_digits body in
        let '(fp, r2) :=
          match r1 with
          | String "." t => span_digits t
          | _ => (EmptyString, r1)
          end in
        if Str.is_empty ip && Str.is_empty fp then None
        else
          match parse_exponent r2 with
          | None => None
          | Some ex =>
              Some (float_of_decimal neg (digits_value 0 (ip ++ fp))
                      (ex - Z.of_nat (String.length fp)))
          end
  end.

Inductive int_conv : Type :=
| IntOk (z : Z)
| IntNaN            (* ValueError: cannot convert float NaN to integer *)
| IntInfinite.      (* OverflowError: cannot convert float infinity to integer *)

(** [int(x)] for a [float]: truncation towards zero. *)
Definition int_of_float (x : float) : int_conv :=
  match Prim2SF x with
  | S754_zero _ => IntOk 0
  | S754_infinity _ => IntInfinite
  | S754_nan => IntNaN
  | S754_finite s m e =>
      let a := if e >=? 0 then Z.pos m * 2 ^ e else Z.pos m / 2 ^ (- e) in
      IntOk (if s then - a else a)
  end.

End Num.

(* ================================================================== *)
(** ** Python values, as the spreadsheet readers deliver them *)

Inductive PyVal : Type :=
| PNone
| PBool (b : bool)
| PInt (z : Z)
| PFloat (x : float)
| PStr (s : string)
| PObj (repr : string).
    (* any other object (a date, say): [str] gives [repr], [float] raises
       TypeError *)

(** The 0.0 of the source. *)
Definition f0 : float := PrimFloat.zero.

(** Truth value of an object, as tested by [if x] and [x and y]. *)
Definition truthy (v : PyVal) : bool :=
  match v with
  | PNone => false
  | PBool b => b
  | PInt z => negb (z =? 0)
  | PFloat x => negb (PrimFloat.eqb x f0)
  | PStr s => negb (Str.is_empty s)
  | PObj _ => true
  end.

Definition is_none (v : PyVal) : bool :=
  match v with PNone => true | _ => false end.

Section Builtins.

(** [repr] of a float (the shortest decimal that reads back), a built-in
    that the pipeline uses for text only. *)
Variable float_repr : float -> string.

(** [str(v)] *)
Definition str (v : PyVal) : string :=
  match v with
  | PNone => "None"
  | PBool true => "True"
  | PBool false => "False"
  | PInt z => Str.of_Z z
  | PFloat x => float_repr x
  | PStr s => s
  | PObj r => r
  end.

End Builtins.

(* ================================================================== *)
(** ** The built-ins [repr] and [round] for floats *)

Module Repr.

(** The exact value of a finite float is [num / den]. *)
Definition num_of (m : positive) (e : Z) : Z := Z.pos m * 2 ^ Z.max e 0.
Definition den_of (e : Z) : Z := 2 ^ Z.max (- e) 0.

(** [num / den >= 10 ^ k] *)
Definition ge_pow10 (num den k : Z) : bool :=
  if k >=? 0 then num >=? 10 ^ k * den else num * 10 ^ (- k) >=? den.

Fixpoint lower_exp (fuel : nat) (num den k : Z) : Z :=
  match fuel with
  | O => k
  | S fuel' => if ge_pow10 num den k then k else lower_exp fuel' num den (k - 1)
  end.

Fixpoint raise_exp (fuel : nat) (num den k : Z) : Z :=
  match fuel with
  | O => k
  | S fuel' =>
      if ge_pow10 num den (k + 1) then raise_exp fuel' num den (k + 1) else k
  end.

(** The [k] with [10 ^ k <= num / den < 10 ^ (k + 1)]: an estimate from
    the binary logarithms, then corrected. *)
Definition exp10 (num den : Z) : Z :=
  let est := ((Z.log2 num - Z.log2 den) * 30103) / 100000 in
  raise_exp 4 num den (lower_exp 4 num den est).

(** [num / (den * 10 ^ k)] as a quotient and a remainder over a common
    divisor. *)
Definition scaled (num den k : Z) : Z * Z * Z :=
  let n := if k >=? 0 then num else num * 10 ^ (- k) in
  let d := if k >=? 0 then den * 10 ^ k else den in
  (n / d, n mod d, d).

Fixpoint strip_zeros (fuel : nat) (d k : Z) : Z * Z :=
  match fuel with
  | O => (d, k)
  | S fuel' =>
      if (d mod 10 =? 0) && negb (d =? 0) then strip_zeros fuel' (d / 10) (k + 1)
      else (d, k)
  end.

(** The decimals with [n] digits next to [num / den] that read back as
    [x]: the nearer one when both do. *)
Definition candidate (x : float) (num den p10 : Z) (n : Z) : option (Z * Z) :=
  let k := p10 - n + 1 in
  let '(lo, r, d) := scaled num den k in
  let ok v := PrimFloat.eqb (Num.float_of_decimal false v k) x in
  let lo_first := (2 * r <? d) || ((2 * r =? d) && Z.even lo) in
  let hi := lo + 1 in
  if r =? 0 then (if ok lo then Some (lo, k) else None)
  else
    match ok lo, ok hi with
    | true, true => Some (if lo_first then lo else hi, k)
    | true, false => Some (lo, k)
    | false, true => Some (hi, k)
    | false, false => None
    end.

Fixpoint shortest (fuel : nat) (x : float) (num den p10 n : Z) : Z * Z :=
  match fuel with
  | O => (0, 0)
  | S fuel' =>
      match candidate x num den p10 n with
      | Some c => c
      | None => shortest fuel' x num den p10 (n + 1)
      end
  end.

(** The text of the digits [ds] with the decimal point after [decpt] of
    them: the format of [repr], which switches to an exponent when
    [decpt <= -4] or [decpt > 16]. *)
Definition layout (ds : string) (decpt : Z) : string :=
  let nd := Z.of_nat (String.length ds) in
  if (decpt <=? -4) || (decpt >? 16) then
    let ex := decpt - 1 in
    let mant :=
      match ds with
      | String c EmptyString => String c EmptyString
      | String c t => String c ("." ++ t)
      | EmptyString => EmptyString
      end in
    let exs := Str.of_Z (Z.abs ex) in
    mant ++ "e" ++ (if ex <? 0 then "-" else "+")
         ++ (if Z.abs ex <? 10 then "0" else "") ++ exs
  else if decpt <=? 0 then "0." ++ Str.zeros (Z.to_nat (- decpt)) ++ ds
  else if decpt >=? nd then ds ++ Str.zeros (Z.to_nat (decpt - nd)) ++ ".0"
  else Str.take (Z.to_nat decpt) ds ++ "." ++ Str.drop (Z.to_nat decpt) ds.

(** [repr(x)], which is also [str(x)]: the shortest decimal that reads
    back as [x]. *)
Definition repr (x : float) : string :=
  match Prim2SF x with
  | S754_nan => "nan"
  | S754_infinity s => if s then "-inf" else "inf"
  | S754_zero s => if s then "-0.0" else "0.0"
  | S754_finite s m e =>
      let num := num_of m e in
      let den := den_of e in
      let '(d, k) := shortest 17 (PrimFloat.abs x) num den (exp10 num den) 1 in
      let '(d, k) := strip_zeros 400 d k in
      let ds := Str.of_Z d in
      (if s then "-" else "") ++ layout ds (Z.of_nat (String.length ds) + k)
  end.

(** [round(x, 2)]: the float nearest to the decimal with two places
    nearest to [x] (ties to even, on the exact value of [x]). *)
Definition round2 (x : float) : float :=
  match Prim2SF x with
  | S754_finite s m e =>
      let '(q, r, d) := scaled (num_of m e) (den_of e) (-2) in
      let up := (2 * r >? d) || ((2 * r =? d) && Z.odd q) in
      Num.float_of_decimal s (if up then q + 1 else q) (-2)
  | _ => x
  end.

End Repr.

Module Pandas.

(** A sum of a column in index order, a NaN counting as zero: what
    [Series.sum()] gives on a short column. *)
Definition series_sum (values : list float) : float :=
  fold_left
    (fun acc v => if PrimFloat.is_nan v then acc else PrimFloat.add acc v)
    values f0.

End Pandas.

(* ================================================================== *)
(** ** backend/parsers/value_converter.py *)

Module ValueConverter.

(** The pattern [[^\d.\-]] removes every character that this keeps. *)
Definition numeric_char (c : ascii) : bool :=
  Str.is_digit c || (c =? ".")%char || (c =? "-")%char.

(** The indicator at the end of the stripped text, and the text without
    it. *)
Definition split_indicator (cleaned : string) : string * string :=
  if Str.endswith (Str.upper cleaned) "D"
  then ("D", Str.strip (Str.drop_last cleaned))
  else if Str.endswith (Str.upper cleaned) "C"
  then ("C", Str.strip (Str.drop_last cleaned))
  else ("", cleaned).

(** Dots removed, commas turned into dots, and every character that is
    not a digit, a dot or a minus sign removed. *)
Definition clean_number (cleaned : string) : string :=
  let cleaned := Str.replace "." "" cleaned in
  let cleaned := Str.replace "," "." cleaned in
  Str.filter numeric_char cleaned.

(** The string logic of [parse_brazilian_value], from [cleaned =
    value_str.strip()] on. *)
Definition parse_str (value_str : string) : float * string :=
  let cleaned := Str.strip value_str in
  if Str.is_empty cleaned then (f0, "")
  else
    let '(indicator, cleaned) := split_indicator cleaned in
    let cleaned := clean_number cleaned in
    if Str.is_empty cleaned then (f0, "")
    else
      match Num.float_of_str cleaned with
      | Some value => (value, indicator)
      | None => (f0, "")
      end.

Definition parse_brazilian_value (value_str : PyVal) : result (float * string) :=
  match value_str with
  | PNone => Ok (f0, "")
  | PFloat x => if PrimFloat.is_nan x then Ok (f0, "") else Ok (x, "")
  | PStr s => Ok (parse_str s)
  | PBool b => Ok (if b then PrimFloat.one else f0, "")
  | PInt z =>
      match Num.float_of_int z with
      | Some x => Ok (x, "")
      | None => Raise OverflowError
      end
  | PObj _ => Ok (f0, "")
  end.

Definition apply_sign (value : float) (indicator : string) (account_group : Z)
  : result float :=
  if Str.is_empty indicator then Ok f0
  else
    let indicator := Str.strip (Str.upper indicator) in
    if negb (existsb (Z.eqb account_group) [1; 2; 3; 4])
    then Raise (ValueError (InvalidGroup account_group))
    else if (indicator =? "D")%string then Ok (PrimFloat.abs value)
    else if (indicator =? "C")%string then Ok (PrimFloat.opp (PrimFloat.abs value))
    else Ok f0.

End ValueConverter.

(* ================================================================== *)
(** ** The ledger: one record per account, and the pandas DataFrame *)

Record Rec : Type := mkRec {
  codigo_conta : string;
  titulo_conta : string;
  red : option Z;
  nivel : Z;
  tipo : string;
  grupo : string;
  grupo_num : Z;
  saldo_anterior : float;
  debitos : float;
  creditos : float;
  saldo_atual : float;
  indicador_dc : string;
  periodo : string
}.

(** A DataFrame: the names of its columns and its rows in index order.  A
    field of a row is meaningful when its column is present. *)
Record DataFrame : Type := mkDataFrame {
  columns : list string;
  rows : list Rec
}.

Definition MACRO : string := "Macro".
Definition ULTIMO_NIVEL : string := "Último Nível".

Definition set_tipo (rec : Rec) (t : string) : Rec :=
  mkRec (codigo_conta rec) (titulo_conta rec) (red rec) (nivel rec) t
        (grupo rec) (grupo_num rec) (saldo_anterior rec) (debitos rec)
        (creditos rec) (saldo_atual rec) (indicador_dc rec) (periodo rec).

(** The dictionary returned by [extract_header]. *)
Record Header : Type := mkHeader {
  empresa : string;
  cnpj : string;
  periodo_inicio : string;
  periodo_fim : string;
  emissao : string;
  mes_referencia : string;
  tipo_balancete : string
}.

(** A spreadsheet file as the readers see it: whether the path is a file,
    and the cells of the first worksheet, row by row.  An [.xls] reader
    (xlrd) delivers the cells of each row as stored; an [.xlsx] reader
    (openpyxl, [max_col=7]) delivers exactly seven cells per row, [None]
    where the sheet has none. *)
Record ExcelFile : Type := mkExcelFile {
  filepath : string;
  isfile : bool;
  sheet : list (list PyVal)
}.

Module OsPath.

(** Index of the last occurrence of [c], counted from 1; 0 when absent
    (so that it compares like [rfind], which gives -1). *)
Fixpoint rfind1 (c : ascii) (s : string) : nat :=
  match s with
  | EmptyString => 0
  | String d t =>
      match rfind1 c t with
      | O => if (d =? c)%char then 1 else 0
      | S n => S (S n)
      end
  end%nat.

Fixpoint all_dots (n : nat) (s : string) : bool :=
  match n, s with
  | S n', String c t => (c =? ".")%char && all_dots n' t
  | _, _ => true
  end.

(** [os.path.splitext(p)[1]] (POSIX): the text from the last dot of the
    last path component, unless only dots precede it there. *)
Definition splitext_ext (p : string) : string :=
  let sep := rfind1 "/" p in
  let dot := rfind1 "." p in
  if (sep <? dot)%nat then
    if all_dots (dot - 1 - sep) (Str.drop sep p) then EmptyString
    else Str.drop (dot - 1) p
  else EmptyString.

End OsPath.

(* ================================================================== *)
(** ** backend/parsers/header_extractor.py *)

Module HeaderExtractor.

(** The three regular expressions of [extract_header] are sequences of
    the following items; none of them needs backtracking, since what
    follows a run of blanks is never a blank. *)
Inductive item : Type :=
| Lit (spellings : list string)  (* one character, in any of its cases *)
| Blanks0                        (* \s* *)
| Blanks1                        (* \s+ *)
| Digit                          (* \d *)
| TaxChars                       (* [\d./-]+ *)
| GroupOpen
| GroupClose.

Definition tax_char (c : ascii) : bool :=
  Str.is_digit c || (c =? ".")%char || (c =? "/")%char || (c =? "-")%char.

Fixpoint span (p : ascii -> bool) (s : string) : string * string :=
  match s with
  | String c t =>
      if p c then let '(a, r) := span p t in (String c a, r)
      else (EmptyString, s)
  | EmptyString => (EmptyString, EmptyString)
  end.

(** The match of a sequence of items at the start of [s]: the captured
    groups, in order. *)
Fixpoint match_items (items : list item) (s : string)
  (opened : list string) (groups : list string) : option (list string) :=
  match items with
  | [] => Some (rev groups)
  | Lit spellings :: rest =>
      match List.find (fun a => String.prefix a s) spellings with
      | Some a => match_items rest (Str.drop (String.length a) s) opened groups
      | None => None
      end
  | Blanks0 :: rest => match_items rest (Str.lstrip s) opened groups
  | Blanks1 :: rest =>
      match s with
      | String c _ =>
          if Str.is_space c then match_items rest (Str.lstrip s) opened groups
          else None
      | EmptyString => None
      end
  | Digit :: rest =>
      match s with
      | String c t => if Str.is_digit c then match_items rest t opened groups else None
      | EmptyString => None
      end
  | TaxChars :: rest =>
      match span tax_char s with
      | (EmptyString, _) => None
      | (_, r) => match_items rest r opened groups
      end
  | GroupOpen :: rest => match_items rest s (s :: opened) groups
  | GroupClose :: rest =>
      match opened with
      | start :: opened' =>
          match_items rest s opened'
            (Str.take (String.length start - String.length s) start :: groups)
      | [] => None
      end
  end.

(** [re.search]: the match at the leftmost position that has one. *)
Fixpoint search (items : list item) (s : string) : option (list string) :=
  match match_items items s [] [] with
  | Some groups => Some groups
  | None =>
      match s with
      | String _ t => search items t
      | EmptyString => None
      end
  end.

(** The spellings that a character of a pattern matches with
    [re.IGNORECASE]. *)
Definition ci (lower upper : string) : item := Lit [lower; upper].
Definition any_i : list string := ["i"; "I"; "ı"; "İ"].
Definition any_s : item := Lit ["s"; "S"; "ſ"].
Definition any_a : list string := ["a"; "A"].

(** \d{2}/\d{2}/\d{4} *)
Definition date_items : list item :=
  [Digit; Digit; Lit ["/"]; Digit; Digit; Lit ["/"]; Digit; Digit; Digit; Digit].

(** \d{2}:\d{2}:\d{2} *)
Definition time_items : list item :=
  [Digit; Digit; Lit [":"]; Digit; Digit; Lit [":"]; Digit; Digit].

(** Per[ií]odo:\s*(\d{2}/\d{2}/\d{4})\s*[àa]\s*(\d{2}/\d{2}/\d{4}) *)
Definition periodo_re : list item :=
  [ci "p" "P"; ci "e" "E"; ci "r" "R"; Lit (any_i ++ ["í"; "Í"]);
   ci "o" "O"; ci "d" "D"; ci "o" "O"; Lit [":"]; Blanks0; GroupOpen]
  ++ date_items
  ++ [GroupClose; Blanks0; Lit (any_a ++ ["à"; "À"]); Blanks0; GroupOpen]
  ++ date_items ++ [GroupClose].

(** CNPJ:\s*([\d./-]+) *)
Definition cnpj_re : list item :=
  [ci "c" "C"; ci "n" "N"; ci "p" "P"; ci "j" "J"; Lit [":"]; Blanks0;
   GroupOpen; TaxChars; GroupClose].

(** Emiss[ãa]o:\s*(\d{2}/\d{2}/\d{4})\s+(\d{2}:\d{2}:\d{2}) *)
Definition emissao_re : list item :=
  [ci "e" "E"; ci "m" "M"; Lit any_i; any_s; any_s; Lit (any_a ++ ["ã"; "Ã"]);
   ci "o" "O"; Lit [":"]; Blanks0; GroupOpen]
  ++ date_items ++ [GroupClose; Blanks1; GroupOpen] ++ time_items ++ [GroupClose].

(** *** Dates *)

Definition number (s : string) : Z := Num.digits_value 0 s.

Definition is_leap (y : Z) : bool :=
  (y mod 4 =? 0) && (negb (y mod 100 =? 0) || (y mod 400 =? 0)).

Definition days_in_month (y m : Z) : Z :=
  if m =? 2 then (if is_leap y then 29 else 28)
  else if (m =? 4) || (m =? 6) || (m =? 9) || (m =? 11) then 30
  else 31.

Record date : Type := mkDate {
  day_text : string; month_text : string; year_text : string
}.

Definition day (d : date) : Z := number (day_text d).
Definition month (d : date) : Z := number (month_text d).
Definition year (d : date) : Z := number (year_text d).

(** [datetime.strptime(text, "%d/%m/%Y")] on ten characters
    [dd/mm/yyyy]: the date must exist. *)
Definition strptime_date (text : string) : result date :=
  let d := mkDate (Str.take 2 text) (Str.take 2 (Str.drop 3 text))
             (Str.drop 6 text) in
  if (1 <=? year d) && (1 <=? month d) && (month d <=? 12)
     && (1 <=? day d) && (day d <=? days_in_month (year d) (month d))
  then Ok d
  else Raise (ValueError (BadDate text)).

(** The time part of [strptime(..., "%d/%m/%Y %H:%M:%S")] on eight
    characters [HH:MM:SS]. *)
Definition strptime_time (text : string) : result string :=
  let h := number (Str.take 2 text) in
  let m := number (Str.take 2 (Str.drop 3 text)) in
  let s := number (Str.drop 6 text) in
  if (h <=? 23) && (m <=? 59) && (s <=? 59) then Ok text
  else Raise (ValueError (BadDate text)).

(** [strftime("%Y-%m-%d")] and [strftime("%Y-%m")]: the digits that were
    read, in the other order. *)
Definition iso_date (d : date) : string :=
  year_text d ++ "-" ++ month_text d ++ "-" ++ day_text d.

Definition iso_month (d : date) : string :=
  year_text d ++ "-" ++ month_text d.

(** The first rows of the sheet, as [_read_header_rows] delivers them. *)
Definition _read_header_rows (f : ExcelFile) : result (list (list PyVal)) :=
  if negb (isfile f) then Raise (FileNotFoundError (filepath f))
  else
    let ext := Str.lower (OsPath.splitext_ext (filepath f)) in
    if (ext =? ".xls")%string
    then Ok (List.map (firstn 7) (firstn 3 (sheet f)))
    else if (ext =? ".xlsx")%string
    then Ok (List.map (fun row => firstn 7 (row ++ repeat PNone 7))
               (firstn 3 (sheet f)))
    else Raise (ValueError (UnsupportedFormat ext)).

Section WithBuiltins.

Variable float_repr : float -> string.

(** [str(row[i]).strip() if len(row) > i and row[i] else ""] *)
Definition field (row : list PyVal) (i : nat) : string :=
  match nth_error row i with
  | Some v => if truthy v then Str.strip (str float_repr v) else ""
  | None => ""
  end.

Definition extract_header (f : ExcelFile) : result Header :=
  (rows <- _read_header_rows f ;;
   match rows with
   | row0 :: row1 :: _ =>
       let empresa := field row0 0 in
       if Str.is_empty empresa then Raise (ValueError MissingEmpresa)
       else
         let periodo_str := field row0 5 in
         match search periodo_re periodo_str with
         | Some [g1; g2] =>
             periodo_inicio <- strptime_date g1 ;;
             periodo_fim <- strptime_date g2 ;;
             let cnpj_str := field row1 0 in
             match search cnpj_re cnpj_str with
             | Some [c] =>
                 let cnpj := Str.strip c in
                 let emissao_str := field row1 5 in
                 match search emissao_re emissao_str with
                 | Some [e1; e2] =>
                     emissao_dia <- strptime_date e1 ;;
                     emissao_hora <- strptime_time e2 ;;
                     let is_anual :=
                       (month periodo_inicio =? 1) && (day periodo_inicio =? 1)
                       && (month periodo_fim =? 12) && (day periodo_fim =? 31) in
                     Ok (mkHeader empresa cnpj (iso_date periodo_inicio)
                           (iso_date periodo_fim)
                           (iso_date emissao_dia ++ "T" ++ emissao_hora)
                           (iso_month periodo_fim)
                           (if is_anual then "anual" else "mensal"))
                 | _ => Raise (ValueError (BadEmissao emissao_str))
                 end
             | _ => Raise (ValueError (BadCNPJ cnpj_str))
             end
         | _ => Raise (ValueError (BadPeriodo periodo_str))
         end
   | _ => Raise (ValueError (HeaderTooShort (List.length rows)))
   end)%py.

End WithBuiltins.

End HeaderExtractor.

(* ================================================================== *)
(** ** backend/parsers/balancete_parser.py *)

Module BalanceteParser.

(** [_GROUP_MAP]: first character of the account code to accounting
    group. *)
Definition _GROUP_MAP : list (ascii * (string * Z)) :=
  [ ("1"%char, ("ATIVO", 1));
    ("2"%char, ("PASSIVO", 2));
    ("3"%char, ("RECEITA", 3));
    ("4"%char, ("DESPESA", 4));
    ("5"%char, ("DESPESA", 4)) ].

Fixpoint dict_get {V} (d : list (ascii * V)) (k : ascii) : option V :=
  match d with
  | [] => None
  | (k', v) :: d' => if (k' =? k)%char then Some v else dict_get d' k
  end.

Definition _determine_account_level (codigo : string) : Z :=
  if Str.is_empty codigo then 0
  else Z.of_nat (List.length (Str.split "." codigo)).

Definition _get_account_group (codigo : string) : result (string * Z) :=
  match codigo with
  | EmptyString => Raise (ValueError EmptyAccountCode)
  | String first_char _ =>
      match dict_get _GROUP_MAP first_char with
      | Some g => Ok g
      | None => Raise (ValueError (UnknownAccountGroup codigo first_char))
      end
  end.

(** The names of the columns of the DataFrame built from the records. *)
Definition record_keys : list string :=
  [ "codigo_conta"; "titulo_conta"; "red"; "nivel"; "tipo"; "grupo";
    "grupo_num"; "saldo_anterior"; "debitos"; "creditos"; "saldo_atual";
    "indicador_dc"; "periodo" ].

(** [pd.DataFrame(records)]: a list of dictionaries gives one column per
    key, and no column at all when the list is empty. *)
Definition DataFrame_of_records (records : list Rec) : DataFrame :=
  match records with
  | [] => mkDataFrame [] []
  | _ => mkDataFrame record_keys records
  end.

(** Step 4 of [parse_balancete]: a record is "Macro" when the record after
    it has a greater level. *)
Fixpoint assign_tipo (records : list Rec) : list Rec :=
  match records with
  | [] => []
  | rec :: rest =>
      set_tipo rec
        match rest with
        | next :: _ =>
            if nivel next >? nivel rec then MACRO else ULTIMO_NIVEL
        | [] => ULTIMO_NIVEL
        end
      :: assign_tipo rest
  end.

Section WithBuiltins.

Variable float_repr : float -> string.

(** The first cell of a row as the readers test it for the sentinel:
    [str(row[0]).strip() if row and row[0] else ""]. *)
Definition cell0 (row : list PyVal) : string :=
  match row with
  | c :: _ => if truthy c then Str.strip (str float_repr c) else ""
  | [] => ""
  end.

Definition is_total_geral (row : list PyVal) : bool :=
  Str.contains "total geral" (Str.lower (cell0 row)).

(** The loop shared by both readers: keep rows up to the sentinel. *)
Fixpoint rows_until_total (rs : list (list PyVal)) : list (list PyVal) :=
  match rs with
  | [] => []
  | row :: rest =>
      if is_total_geral row then [] else row :: rows_until_total rest
  end.

Definition _read_xls_data (f : ExcelFile) : list (list PyVal) :=
  rows_until_total (List.map (firstn 7) (skipn 3 (sheet f))).

Definition _read_xlsx_data (f : ExcelFile) : list (list PyVal) :=
  rows_until_total
    (List.map (fun row => firstn 7 (row ++ repeat PNone 7)) (skipn 3 (sheet f))).

Definition _read_data_rows (f : ExcelFile) : result (list (list PyVal)) :=
  if negb (isfile f) then Raise (FileNotFoundError (filepath f))
  else
    let ext := Str.lower (OsPath.splitext_ext (filepath f)) in
    if (ext =? ".xls")%string then Ok (_read_xls_data f)
    else if (ext =? ".xlsx")%string then Ok (_read_xlsx_data f)
    else Raise (ValueError (UnsupportedFormat ext)).

(** The reduced code: [int(float(str(red_raw).strip()))], where
    ValueError and TypeError give [None]. *)
Definition parse_red (red_raw : PyVal) : result (option Z) :=
  if is_none red_raw then Ok None
  else
    let s := Str.strip (str float_repr red_raw) in
    if Str.is_empty s then Ok None
    else
      match Num.float_of_str s with
      | None => Ok None
      | Some x =>
          match Num.int_of_float x with
          | Num.IntOk z => Ok (Some z)
          | Num.IntNaN => Ok None
          | Num.IntInfinite => Raise OverflowError
          end
      end.

(** [str(row[i]) if len(row) > i and row[i] is not None else "0,00"] *)
Definition amount_str (row : list PyVal) (i : nat) : string :=
  match nth_error row i with
  | Some v => if is_none v then "0,00" else str float_repr v
  | None => "0,00"
  end.

(** [str(row[0]).strip() if row[0] is not None else ""], for a row with
    a first cell. *)
Definition codigo_of (c0 : PyVal) : string :=
  if is_none c0 then "" else Str.strip (str float_repr c0).

(** The body of the loop of step 3: [None] when the row is skipped. *)
Definition parse_row (periodo : string) (row : list PyVal)
  : result (option Rec) :=
  match row with
  | [] => Raise IndexError
  | c0 :: _ =>
      let codigo_conta := codigo_of c0 in
      if Str.is_empty codigo_conta then Ok None
      else
        let titulo_conta :=
          match nth_error row 2 with
          | Some v => if is_none v then "" else Str.strip (str float_repr v)
          | None => ""
          end in
        let red_raw :=
          match nth_error row 1 with Some v => v | None => PNone end in
        (red <- parse_red red_raw ;;
         let nivel := _determine_account_level codigo_conta in
         ' (grupo, grupo_num) <- _get_account_group codigo_conta ;;
         ' (saldo_ant_val, saldo_ant_ind) <-
             ValueConverter.parse_brazilian_value (PStr (amount_str row 3)) ;;
         ' (debitos_val, _) <-
             ValueConverter.parse_brazilian_value (PStr (amount_str row 4)) ;;
         ' (creditos_val, _) <-
             ValueConverter.parse_brazilian_value (PStr (amount_str row 5)) ;;
         ' (saldo_atual_val, saldo_atual_ind) <-
             ValueConverter.parse_brazilian_value (PStr (amount_str row 6)) ;;
         saldo_anterior <-
             ValueConverter.apply_sign saldo_ant_val saldo_ant_ind grupo_num ;;
         saldo_atual <-
             ValueConverter.apply_sign saldo_atual_val saldo_atual_ind grupo_num ;;
         Ok (Some (mkRec codigo_conta titulo_conta red nivel "" grupo
                     grupo_num saldo_anterior (PrimFloat.abs debitos_val)
                     (PrimFloat.abs creditos_val) saldo_atual
                     saldo_atual_ind periodo)))%py
  end.

(** The loop of step 3, in file order; the first exception ends it. *)
Fixpoint parse_records (periodo : string) (raw_rows : list (list PyVal))
  : result (list Rec) :=
  match raw_rows with
  | [] => Ok []
  | row :: rest =>
      (r <- parse_row periodo row ;;
       records <- parse_records periodo rest ;;
       Ok (match r with Some rec => rec :: records | None => records end))%py
  end.

(** The header stage, [extract_header], reads the three rows of the
    preamble with regular expressions; the ledger only takes the
    reference month from it. *)
Variable extract_header : ExcelFile -> result Header.

Definition parse_balancete (f : ExcelFile) : result (Header * DataFrame) :=
  (header <- extract_header f ;;
   let periodo := mes_referencia header in
   raw_rows <- _read_data_rows f ;;
   match raw_rows with
   | [] => Raise (ValueError NoDataRows)
   | _ =>
       records <- parse_records periodo raw_rows ;;
       Ok (header, DataFrame_of_records (assign_tipo records))
   end)%py.

End WithBuiltins.

End BalanceteParser.

(* ================================================================== *)
(** ** backend/validators/hierarchy_validator.py *)

Module HierarchyValidator.

(** [_TOLERANCE = 0.02], the binary64 number that the literal denotes. *)
Definition _TOLERANCE : float := 0x1.47ae147ae147bp-6%float.

(** One entry of the list returned by [validate_hierarchy]. *)
Record Finding : Type := mkFinding {
  conta_pai : string;
  titulo_pai : string;
  saldo_pai : float;
  soma_filhos : float;
  diferenca : float;
  filhos : list string;
  status : string;
  mensagem : option string
}.

Record Checks : Type := mkChecks {
  ativo_decomposicao : bool;
  passivo_decomposicao : bool;
  bp_equilibrio : bool
}.

(** The dictionary returned by [validate_balance_sheet]. *)
Record BalanceSheet : Type := mkBalanceSheet {
  ativo_total : float;
  passivo_pl_total : float;
  diferenca_bp : float;
  resultado_exercicio : float;
  receita_total : float;
  despesa_total : float;
  checks : Checks
}.

Definition mem (x : string) (l : list string) : bool :=
  existsb (String.eqb x) l.

(** [_validate_required_columns] *)
Definition _validate_required_columns (df : DataFrame) (required : list string)
  : result unit :=
  match List.filter (fun col => negb (mem col (columns df))) required with
  | [] => Ok tt
  | missing => Raise (ValueError (MissingColumns missing (columns df)))
  end.

Section WithPandas.

(** [Series.sum()] of a column of floats, [round(x, 2)] and the text of
    a float in an f-string: library functions, used as they come. *)
Variable series_sum : list float -> float.
Variable round2 : float -> float.
Variable float_repr : float -> string.

Definition fmt (x : float) : string := float_repr (round2 x).

Definition mensagem_reconcilia (soma_filhos soma_leaf : float) : string :=
  "Hierarquia irregular detectada. Filhos diretos somam " ++ fmt soma_filhos
  ++ ", mas soma dos últimos níveis (" ++ fmt soma_leaf
  ++ ") bate com o pai. Possível pulo de nível na estrutura.".

Definition mensagem_irregular (soma_filhos soma_leaf saldo_pai diferenca : float)
  : string :=
  "Hierarquia irregular. Filhos diretos somam " ++ fmt soma_filhos
  ++ ", últimos níveis somam " ++ fmt soma_leaf
  ++ ", pai = " ++ fmt saldo_pai
  ++ ". Diferença de " ++ fmt diferenca ++ " nos filhos diretos.".

Definition mensagem_erro (saldo_pai soma_filhos diferenca : float) : string :=
  "Saldo do pai (" ++ fmt saldo_pai ++ ") difere da soma dos filhos diretos ("
  ++ fmt soma_filhos ++ ") em " ++ fmt diferenca ++ ".".

(** The body of the loop of [validate_hierarchy], for one Macro row. *)
Definition check_macro (df : DataFrame) (row : Rec) : Finding :=
  let codigo_pai := codigo_conta row in
  let titulo_pai := titulo_conta row in
  let saldo_pai := saldo_atual row in
  let nivel_pai := nivel row in
  let nivel_filho_direto := nivel_pai + 1 in
  let prefix := codigo_pai ++ "." in
  let filhos_diretos :=
    List.filter
      (fun r => Str.startswith (codigo_conta r) prefix
                && (nivel r =? nivel_filho_direto))
      (rows df) in
  let filhos_codes := List.map codigo_conta filhos_diretos in
  let soma_filhos := series_sum (List.map saldo_atual filhos_diretos) in
  let diferenca := PrimFloat.abs (PrimFloat.sub saldo_pai soma_filhos) in
  let result := mkFinding codigo_pai titulo_pai (round2 saldo_pai)
                  (round2 soma_filhos) (round2 diferenca) filhos_codes in
  if PrimFloat.leb diferenca _TOLERANCE then result "OK" None
  else
    let filhos_skip :=
      List.filter
        (fun r => Str.startswith (codigo_conta r) prefix
                  && (nivel r >? nivel_filho_direto))
        (rows df) in
    match filhos_skip with
    | _ :: _ =>
        let all_descendants_leaf :=
          List.filter
            (fun r => Str.startswith (codigo_conta r) prefix
                      && (tipo r =? ULTIMO_NIVEL)%string)
            (rows df) in
        let soma_leaf := series_sum (List.map saldo_atual all_descendants_leaf) in
        let diff_leaf := PrimFloat.abs (PrimFloat.sub saldo_pai soma_leaf) in
        if PrimFloat.leb diff_leaf _TOLERANCE
        then result "WARNING" (Some (mensagem_reconcilia soma_filhos soma_leaf))
        else result "WARNING"
               (Some (mensagem_irregular soma_filhos soma_leaf saldo_pai diferenca))
    | [] =>
        result "ERROR" (Some (mensagem_erro saldo_pai soma_filhos diferenca))
    end.

Definition validate_hierarchy (df : DataFrame) : result (list Finding) :=
  (_ <- _validate_required_columns df
          ["codigo_conta"; "titulo_conta"; "nivel"; "tipo"; "saldo_atual"] ;;
   let macros := List.filter (fun r => (tipo r =? MACRO)%string) (rows df) in
   Ok (List.map (check_macro df) macros))%py.

(** [_get_saldo]: the balance of the first row with that code. *)
Definition _get_saldo (df : DataFrame) (codigo : string) : float :=
  match List.filter (fun r => (codigo_conta r =? codigo)%string) (rows df) with
  | [] => f0
  | row :: _ => saldo_atual row
  end.

Definition validate_balance_sheet (df : DataFrame) : result BalanceSheet :=
  (_ <- _validate_required_columns df ["codigo_conta"; "saldo_atual"] ;;
   let ativo_total := _get_saldo df "1" in
   let passivo_pl_total := _get_saldo df "2" in
   let receita_total := _get_saldo df "3" in
   let despesa_total := _get_saldo df "4" in
   let ativo_circ := _get_saldo df "1.01" in
   let ativo_nao_circ := _get_saldo df "1.02" in
   let passivo_circ := _get_saldo df "2.01" in
   let passivo_nao_circ := _get_saldo df "2.02" in
   let patrimonio_liq := _get_saldo df "2.03" in
   let soma_ativo := PrimFloat.add ativo_circ ativo_nao_circ in
   let ativo_decomposicao :=
     PrimFloat.leb (PrimFloat.abs (PrimFloat.sub ativo_total soma_ativo))
       _TOLERANCE in
   let soma_passivo :=
     PrimFloat.add (PrimFloat.add passivo_circ passivo_nao_circ) patrimonio_liq in
   let passivo_decomposicao :=
     PrimFloat.leb (PrimFloat.abs (PrimFloat.sub passivo_pl_total soma_passivo))
       _TOLERANCE in
   let resultado_exercicio := PrimFloat.add receita_total despesa_total in
   let bp_total :=
     PrimFloat.add (PrimFloat.add ativo_total passivo_pl_total)
       resultado_exercicio in
   let bp_equilibrio := PrimFloat.leb (PrimFloat.abs bp_total) _TOLERANCE in
   Ok (mkBalanceSheet (round2 ativo_total) (round2 passivo_pl_total)
         (round2 bp_total) (round2 resultado_exercicio)
         (round2 receita_total) (round2 despesa_total)
         (mkChecks ativo_decomposicao passivo_decomposicao bp_equilibrio)))%py.

End WithPandas.

End HierarchyValidator.

(* ================================================================== *)
(** ** Amounts written with Brazilian separators *)

Module BrazilianFormat.

(** Modelled from the spec: the formatting "with Brazilian separators (dot
    as thousands separator, comma as decimal separator) followed by the
    indicator letter" of the round-trip property; the repository has no
    formatter.  An amount is a number of hundredths. *)

Definition digit (k : N) : ascii := ascii_of_N (48 + k).

Definition pad2 (u : N) : string :=
  String (digit (u / 10)) (String (digit (u mod 10)) EmptyString).

Definition pad3 (u : N) : string :=
  String (digit (u / 100)) (pad2 (u mod 100)).

(** A number below 1000, without leading zeros. *)
Definition small (u : N) : string :=
  if (u <? 10)%N then String (digit u) EmptyString
  else if (u <? 100)%N then pad2 u
  else pad3 u.

(** The integer part in groups of three digits, dots between them. *)
Fixpoint groups (fuel : nat) (u : N) : string :=
  match fuel with
  | O => small u
  | S fuel' =>
      if (u <? 1000)%N then small u
      else groups fuel' (u / 1000) ++ "." ++ pad3 (u mod 1000)
  end.

(** The integer part without separators. *)
Fixpoint plain (fuel : nat) (u : N) : string :=
  match fuel with
  | O => small u
  | S fuel' =>
      if (u <? 1000)%N then small u
      else plain fuel' (u / 1000) ++ pad3 (u mod 1000)
  end.

(** Enough fuel for [u]: one unit per bit. *)
Definition fuel_for (u : N) : nat := N.to_nat (N.size u).

(** [1.234.567,89] for 123456789 hundredths. *)
Definition format_brl (cents : N) : string :=
  groups (fuel_for (cents / 100)) (cents / 100) ++ "," ++ pad2 (cents mod 100).

(** [1234567.89] for 123456789 hundredths. *)
Definition format_plain (cents : N) : string :=
  plain (fuel_for (cents / 100)) (cents / 100) ++ "." ++ pad2 (cents mod 100).

End BrazilianFormat.

(* ================================================================== *)
(** ** Vocabulary of the properties *)

Module Spec.

(** The account code that [parse_balancete] reads in a raw row: the text
    of column 0, empty when the row has no cell. *)
Definition row_code (float_repr : float -> string) (row : list PyVal) : string :=
  match row with
  | c0 :: _ => BalanceteParser.codigo_of float_repr c0
  | [] => ""
  end.

(** A raw row is retained when its column 0 is not empty. *)
Definition retained (float_repr : float -> string) (row : list PyVal) : bool :=
  negb (Str.is_empty (row_code float_repr row)).

(** The codes of the retained rows, in file order. *)
Definition retained_codes (float_repr : float -> string)
  (raw_rows : list (list PyVal)) : list string :=
  List.map (row_code float_repr) (List.filter (retained float_repr) raw_rows).

(** The first character of a code is none of 1, 2, 3, 4, 5. *)
Definition unmapped_code (codigo : string) : Prop :=
  exists c t, codigo = String c t
              /\ ~ In c ["1"; "2"; "3"; "4"; "5"]%char.

(** The reduced code of a raw row converts without an exception. *)
Definition red_converts (float_repr : float -> string) (row : list PyVal) : Prop :=
  row <> []
  /\ exists r, BalanceteParser.parse_red float_repr (nth 1 row PNone) = Ok r.

(** The cleaned remainder of an amount: the text that
    [parse_brazilian_value] hands to [float]. *)
Definition remainder (value_str : string) : string :=
  ValueConverter.clean_number
    (snd (ValueConverter.split_indicator (Str.strip value_str))).

(** The number of segments of a code between dots. *)
Definition segments (codigo : string) : nat :=
  List.length (Str.split "." codigo).

(** x <= y on floats, as Python compares them. *)
Definition fle (x y : float) : Prop := PrimFloat.leb x y = true.

(** A difference within the tolerance of 0.02, and one that exceeds it:
    the comparison [d <= 0.02] holds, or fails. *)
Definition within_tolerance (d : float) : Prop :=
  PrimFloat.leb d HierarchyValidator._TOLERANCE = true.

Definition exceeds_tolerance (d : float) : Prop :=
  PrimFloat.leb d HierarchyValidator._TOLERANCE = false.

(** A row under the prefix of a parent: its code starts with the code of
    the parent and a dot. *)
Definition under_prefix (parent r : Rec) : Prop :=
  Str.startswith (codigo_conta r) (codigo_conta parent ++ ".") = true.

(** Some row under the prefix lies deeper than a direct child. *)
Definition has_deeper_row (df : DataFrame) (parent : Rec) : Prop :=
  exists r, In r (rows df) /\ under_prefix parent r
            /\ nivel parent + 1 < nivel r.

Definition under_prefixb (parent r : Rec) : bool :=
  Str.startswith (codigo_conta r) (codigo_conta parent ++ ".").

(** The balances of the direct children of a parent, in row order. *)
Definition direct_children_balances (df : DataFrame) (parent : Rec) : list float :=
  List.map saldo_atual
    (List.filter (fun r => under_prefixb parent r && (nivel r =? nivel parent + 1))
       (rows df)).

(** The balances of the rows under the prefix typed "Último Nível". *)
Definition leaf_balances (df : DataFrame) (parent : Rec) : list float :=
  List.map saldo_atual
    (List.filter (fun r => under_prefixb parent r && (tipo r =? ULTIMO_NIVEL)%string)
       (rows df)).

(** |x - y| *)
Definition gap (x y : float) : float := PrimFloat.abs (PrimFloat.sub x y).

(** The float [v] is the positive ratio [num / den] rounded to nearest:
    [v = m * 2 ^ e] with [m < 2 ^ 53] and [|v - num / den| <= 2 ^ e / 2]
    (both sides of the inequality are multiplied by [den * 2 ^ 1074]);
    or zero for a ratio of at most 2^-1075; or infinite for a ratio of at
    least the largest float. *)
Definition nearest_to (v : float) (num den : Z) : Prop :=
  match Prim2SF v with
  | S754_zero false => 2 * Num.units num <= den
  | S754_finite false m e =>
      -1074 <= e
      /\ Z.pos m < 2 ^ 53
      /\ 2 * Z.abs (Z.pos m * (den * 2 ^ (e + 1074)) - Num.units num)
         <= den * 2 ^ (e + 1074)
  | S754_infinity false => (2 ^ 53 - 1) * 2 ^ 971 * den <= num
  | _ => False
  end.

(** The two differences that [validate_hierarchy] compares with the
    tolerance, for the sum that pandas gives. *)
Definition children_gap (series_sum : list float -> float)
  (df : DataFrame) (parent : Rec) : float :=
  gap (saldo_atual parent) (series_sum (direct_children_balances df parent)).

Definition leaf_gap (series_sum : list float -> float)
  (df : DataFrame) (parent : Rec) : float :=
  gap (saldo_atual parent) (series_sum (leaf_balances df parent)).

(** What the finding of one Macro row says. *)
Definition describes (series_sum : list float -> float)
  (round2 : float -> float) (float_repr : float -> string)
  (df : DataFrame) (parent : Rec) (fd : HierarchyValidator.Finding) : Prop :=
  HierarchyValidator.conta_pai fd = codigo_conta parent
  /\ (within_tolerance (children_gap series_sum df parent) ->
      HierarchyValidator.status fd = "OK")
  /\ (exceeds_tolerance (children_gap series_sum df parent) ->
      has_deeper_row df parent ->
      HierarchyValidator.status fd = "WARNING"
      /\ (within_tolerance (leaf_gap series_sum df parent) ->
          HierarchyValidator.mensagem fd
          = Some (HierarchyValidator.mensagem_reconcilia round2 float_repr
                    (series_sum (direct_children_balances df parent))
                    (series_sum (leaf_balances df parent))))
      /\ (exceeds_tolerance (leaf_gap series_sum df parent) ->
          HierarchyValidator.mensagem fd
          = Some (HierarchyValidator.mensagem_irregular round2 float_repr
                    (series_sum (direct_children_balances df parent))
                    (series_sum (leaf_balances df parent))
                    (saldo_atual parent)
                    (children_gap series_sum df parent))))
  /\ (HierarchyValidator.status fd = "ERROR" <->
      exceeds_tolerance (children_gap series_sum df parent)
      /\ ~ has_deeper_row df parent).

(** The type that step 4 gives a record, from the record after it. *)
Definition tipo_after (rec : Rec) (next : option Rec) : string :=
  match next with
  | Some n => if nivel n >? nivel rec then MACRO else ULTIMO_NIVEL
  | None => ULTIMO_NIVEL
  end.

(** A retained raw row whose code has an unmapped first character. *)
Definition bad_row (float_repr : float -> string) (row : list PyVal) : Prop :=
  retained float_repr row = true /\ unmapped_code (row_code float_repr row).

(** Text made of digits; of digits and dots; of anything but blanks. *)
Definition digits_only (s : string) : Prop :=
  Str.forallb Str.is_digit s = true.

Definition group_char (c : ascii) : bool :=
  Str.is_digit c || (c =? ".")%char.

Definition not_blank (c : ascii) : bool := negb (Str.is_space c).

(** [u] has at most [fuel + 1] groups of three digits. *)
Definition bounded (fuel : nat) (u : N) : Prop :=
  (u < 1000 * 1000 ^ N.of_nat fuel)%N.

End Spec.

(* ================================================================== *)
(** ** The pipeline with the built-ins in place, and sample data *)

Module Pipeline.

Definition extract_header : ExcelFile -> result Header :=
  HeaderExtractor.extract_header Repr.repr.

Definition _read_data_rows : ExcelFile -> result (list (list PyVal)) :=
  BalanceteParser._read_data_rows Repr.repr.

Definition parse_balancete : ExcelFile -> result (Header * DataFrame) :=
  BalanceteParser.parse_balancete Repr.repr extract_header.

Definition validate_hierarchy : DataFrame -> result (list HierarchyValidator.Finding) :=
  HierarchyValidator.validate_hierarchy Pandas.series_sum Repr.round2 Repr.repr.

Definition validate_balance_sheet : DataFrame -> result HierarchyValidator.BalanceSheet :=
  HierarchyValidator.validate_balance_sheet Repr.round2.

End Pipeline.

Module Examples.

(** The preamble of an export: company and period, tax number and issue
    time, column titles. *)
Definition preamble : list (list PyVal) :=
  [ [PStr "ASSOCIACAO MODELO"; PStr ""; PStr ""; PStr ""; PStr "";
     PStr "Período: 01/01/2025 à 31/01/2025"; PStr ""];
    [PStr "CNPJ: 23.313.200/0001-08"; PStr ""; PStr ""; PStr ""; PStr "";
     PStr "Emissão: 04/02/2025 17:23:21"; PStr ""];
    [PStr "Conta"; PStr "Red"; PStr "Título"; PStr "Saldo Ant.";
     PStr "Débitos"; PStr "Créditos"; PStr "Saldo Atual"] ].

Definition data_row (conta : string) (red : PyVal) (titulo ant deb cred atual : string)
  : list PyVal :=
  [PStr conta; red; PStr titulo; PStr ant; PStr deb; PStr cred; PStr atual].

Definition blank_row : list PyVal :=
  [PStr ""; PStr ""; PStr ""; PStr ""; PStr ""; PStr ""; PStr ""].

Definition total_row : list PyVal :=
  data_row "Total Geral" (PStr "") "" "0,00" "2.300,00" "2.300,00" "0,00".

(** A small trial balance, as xlrd reads it. *)
Definition sample_file : ExcelFile :=
  mkExcelFile "/tmp/upload/balancete.xls" true
    (preamble ++
     [ data_row "1" (PStr "") "ATIVO" "0,00" "1.000,00" "0,00" "1.000,00D";
       data_row "1.01" (PStr "") "CIRCULANTE" "0,00" "600,00" "0,00" "600,00D";
       data_row "1.01.01" (PFloat 4%float) "CAIXA" "0,00" "600,00" "0,00" "600,00D";
       blank_row;
       data_row "1.02" (PFloat 7%float) "NAO CIRCULANTE" "0,00" "400,00" "0,00" "400,00D";
       data_row "2" (PStr "") "PASSIVO" "0,00" "0,00" "700,00" "700,00C";
       data_row "5.01" (PFloat 9%float) "CUSTOS" "0,00" "300,00" "0,00" "300,00D";
       total_row ])%list.

Definition sample_parse : result (Header * DataFrame) :=
  Eval vm_compute in Pipeline.parse_balancete sample_file.

Definition sample_header : Header :=
  mkHeader "ASSOCIACAO MODELO" "23.313.200/0001-08" "2025-01-01" "2025-01-31"
    "2025-02-04T17:23:21" "2025-01" "mensal".

Definition sample_ledger : DataFrame :=
  match sample_parse with
  | Ok (_, df) => df
  | Raise _ => mkDataFrame [] []
  end.

Definition sample_first_row : Rec :=
  mkRec "1" "ATIVO" None 1 "Macro" "ATIVO" 1 0%float 1000%float 0%float
    1000%float "D" "2025-01".

Definition sample_last_row : Rec :=
  mkRec "5.01" "CUSTOS" (Some 9) 2 "Último Nível" "DESPESA" 4 0%float
    300%float 0%float 300%float "D" "2025-01".

(** A file whose rows under the preamble all have an empty column 0. *)
Definition blank_file : ExcelFile :=
  mkExcelFile "/tmp/upload/vazio.xlsx" true
    (preamble ++ [blank_row; [PNone; PNone; PStr "sem conta"]; total_row])%list.

Definition blank_rows : list (list PyVal) :=
  [ blank_row;
    [PNone; PNone; PStr "sem conta"; PNone; PNone; PNone; PNone] ].

(** A file with an account of group 9. *)
Definition unmapped_file : ExcelFile :=
  mkExcelFile "/tmp/upload/grupo9.xls" true
    (preamble ++
     [ data_row "1" (PStr "") "ATIVO" "0,00" "10,00" "0,00" "10,00D";
       data_row "9.01" (PStr "") "OUTROS" "0,00" "10,00" "0,00" "10,00D";
       total_row ])%list.

Definition unmapped_rows : list (list PyVal) :=
  [ data_row "1" (PStr "") "ATIVO" "0,00" "10,00" "0,00" "10,00D";
    data_row "9.01" (PStr "") "OUTROS" "0,00" "10,00" "0,00" "10,00D" ].

(** The ledgers of the tests of the validator. *)
Definition account (codigo titulo : string) (n : Z) (t : string) (saldo : float)
  : Rec :=
  mkRec codigo titulo None n t "" 0 f0 f0 f0 saldo "" "".

Definition test_columns : list string :=
  ["codigo_conta"; "titulo_conta"; "nivel"; "tipo"; "grupo"; "saldo_atual"].

Definition hierarchy_error : DataFrame :=
  mkDataFrame test_columns
    [ account "1" "ATIVO" 1 MACRO 1000%float;
      account "1.01" "CIRCULANTE" 2 ULTIMO_NIVEL 500%float;
      account "1.02" "NAO CIRCULANTE" 2 ULTIMO_NIVEL 400%float ].

Definition irregular_hierarchy : DataFrame :=
  mkDataFrame test_columns
    [ account "4" "DESPESA" 1 MACRO 500%float;
      account "4.03" "CUSTOS" 2 MACRO 500%float;
      account "4.03.01" "CPV" 3 MACRO 500%float;
      account "4.03.01.03" "CUSTO A" 4 MACRO 200%float;
      account "4.03.01.03.00001" "ITEM A1" 5 ULTIMO_NIVEL 200%float;
      account "4.03.01.04.00000" "ITEM B" 5 ULTIMO_NIVEL 150%float;
      account "4.03.01.09.00000" "ITEM C" 5 ULTIMO_NIVEL 150%float ].

Definition balanced_sheet : DataFrame :=
  mkDataFrame ["codigo_conta"; "titulo_conta"; "nivel"; "tipo"; "saldo_atual"]
    [ account "1" "ATIVO" 1 MACRO 1000%float;
      account "1.01" "CIRCULANTE" 2 ULTIMO_NIVEL 600%float;
      account "1.02" "NAO CIRCULANTE" 2 ULTIMO_NIVEL 400%float;
      account "2" "PASSIVO" 1 MACRO (-700)%float;
      account "2.01" "CIRCULANTE" 2 ULTIMO_NIVEL (-200)%float;
      account "2.02" "NAO CIRCULANTE" 2 ULTIMO_NIVEL (-100)%float;
      account "2.03" "PL" 2 ULTIMO_NIVEL (-400)%float;
      account "3" "RECEITA" 1 ULTIMO_NIVEL (-500)%float;
      account "4" "DESPESA" 1 ULTIMO_NIVEL 200%float ].

End Examples.

(* ================================================================== *)
(** ** Vocabulary of the properties of the header *)

Module HeaderShape.
Import HeaderExtractor.

(** A text of [n] digits. *)
Definition digits (n : nat) (s : string) : Prop :=
  String.length s = n /\ Str.forallb Str.is_digit s = true.

(** A date whose day and month have two digits and whose year has four. *)
Definition date_digits (d : date) : Prop :=
  digits 2 (day_text d) /\ digits 2 (month_text d) /\ digits 4 (year_text d).

(** A date of the calendar: what [strptime] accepts. *)
Definition in_calendar (d : date) : Prop :=
  1 <= year d /\ 1 <= month d <= 12
  /\ 1 <= day d <= days_in_month (year d) (month d).

(** The text [dd/mm/yyyy] of a date, as a balancete writes it. *)
Definition br_date (d : date) : string :=
  day_text d ++ "/" ++ month_text d ++ "/" ++ year_text d.

(** A time of day [HH:MM:SS]. *)
Definition clock (text : string) : Prop :=
  exists h m s,
    text = h ++ ":" ++ m ++ ":" ++ s
    /\ digits 2 h /\ digits 2 m /\ digits 2 s
    /\ number h <= 23 /\ number m <= 59 /\ number s <= 59.

(** A tax number: one character at least, digits, dots, slashes and
    hyphens only. *)
Definition tax_number (text : string) : Prop :=
  text <> "" /\ Str.forallb tax_char text = true.

End HeaderShape.

(* ================================================================== *)
(** ** backend/validators/hierarchy_validator.py: the types of the rows *)

Module LevelClassification.
Import HierarchyValidator.

(** One entry of the list returned by [validate_level_classification]. *)
Record LevelError : Type := mkLevelError {
  conta : string;
  titulo : string;
  tipo_atual : string;
  filhos_encontrados : list string;
  mensagem : string
}.

Section WithRepr.

(** The text of a list of strings in an f-string, a built-in. *)
Variable list_repr : list string -> string.

Definition mensagem_filhos (codigo : string) (filhos_codes : list string)
  : string :=
  "Conta '" ++ codigo ++ "' está classificada como 'Último Nível' mas possui "
  ++ Str.of_Z (Z.of_nat (List.length filhos_codes)) ++ " filho(s): "
  ++ list_repr filhos_codes.

(** The body of the loop of [validate_level_classification], for one row
    typed "Último Nível": [None] when no row lies under its prefix. *)
Definition check_leaf (df : DataFrame) (row : Rec) : option LevelError :=
  let codigo := codigo_conta row in
  let prefix := codigo ++ "." in
  let filhos :=
    List.filter (fun r => Str.startswith (codigo_conta r) prefix) (rows df) in
  match filhos with
  | [] => None
  | _ :: _ =>
      let titulo :=
        if mem "titulo_conta" (columns df) then titulo_conta row else "" in
      let filhos_codes := List.map codigo_conta filhos in
      Some (mkLevelError codigo (if Str.is_empty titulo then "" else titulo)
              ULTIMO_NIVEL filhos_codes (mensagem_filhos codigo filhos_codes))
  end.

(** The loop: the entries of the rows that have one, in row order. *)
Fixpoint collect (df : DataFrame) (ultimo_nivel : list Rec) : list LevelError :=
  match ultimo_nivel with
  | [] => []
  | row :: rest =>
      match check_leaf df row with
      | Some e => e :: collect df rest
      | None => collect df rest
      end
  end.

Definition validate_level_classification (df : DataFrame)
  : result (list LevelError) :=
  (_ <- _validate_required_columns df ["codigo_conta"; "tipo"] ;;
   let ultimo_nivel :=
     List.filter (fun r => (tipo r =? ULTIMO_NIVEL)%string) (rows df) in
   Ok (collect df ultimo_nivel))%py.

End WithRepr.

End LevelClassification.

(* ================================================================== *)
(** ** backend/routers/upload.py: the file name and the validation
    stage *)

Module PosixPath.

(** [os.path.join(a, b)] (POSIX) *)
Definition join (a b : string) : string :=
  if Str.startswith b "/" then b
  else if Str.is_empty a || Str.endswith a "/" then a ++ b
  else a ++ "/" ++ b.

End PosixPath.

Module Upload.
Import HierarchyValidator.

(** Why [upload_file] refuses a file name, with status 400, before it
    saves the file. *)
Inductive refusal : Type :=
| MissingFilename
    (* "Nome do arquivo ausente." *)
| UnsupportedExtension (ext : string).
    (* "Formato não suportado: '{ext}'. Use .xls ou .xlsx." *)

(** Step 1 of [upload_file]: [None] when the name is accepted. *)
Definition check_filename (filename : option string) : option refusal :=
  match filename with
  | None => Some MissingFilename
  | Some name =>
      if Str.is_empty name then Some MissingFilename
      else
        let ext := Str.lower (OsPath.splitext_ext name) in
        if (ext =? ".xls")%string || (ext =? ".xlsx")%string then None
        else Some (UnsupportedExtension ext)
  end.

(** The path where the upload is saved, in the directory that [mkdtemp]
    made. *)
Definition tmp_path (tmp_dir filename : string) : string :=
  PosixPath.join tmp_dir filename.

(** A value of the dictionaries that the validators return. *)
Inductive DictValue : Type :=
| DFloat (x : float)
| DStr (s : string)
| DChecks (c : Checks).

(** [d.get(key)], for a dictionary written as the list of its items. *)
Fixpoint dict_get (key : string) (d : list (string * DictValue))
  : option DictValue :=
  match d with
  | [] => None
  | (k, v) :: d' => if (k =? key)%string then Some v else dict_get key d'
  end.

(** The dictionary that [validate_balance_sheet] builds. *)
Definition balance_dict (bs : BalanceSheet) : list (string * DictValue) :=
  [ ("ativo_total", DFloat (ativo_total bs));
    ("passivo_pl_total", DFloat (passivo_pl_total bs));
    ("diferenca_bp", DFloat (diferenca_bp bs));
    ("resultado_exercicio", DFloat (resultado_exercicio bs));
    ("receita_total", DFloat (receita_total bs));
    ("despesa_total", DFloat (despesa_total bs));
    ("checks", DChecks (checks bs)) ].

(** [v == text], for what [get] returned. *)
Definition is_text (v : option DictValue) (text : string) : bool :=
  match v with
  | Some (DStr s) => (s =? text)%string
  | _ => false
  end.

(** How the stage ends when it does not end with its two lists: with the
    exception of a validator, or with the KeyError of a subscript.  The
    handler of [upload_file] answers both with status 500. *)
Inductive failure : Type :=
| Raised (e : exn)
| KeyError (key : string).

Inductive outcome (A : Type) : Type :=
| Done (a : A)
| Failed (why : failure).

Arguments Done {A} a.
Arguments Failed {A} why.

Definition and_then {A B} (o : outcome A) (k : A -> outcome B) : outcome B :=
  match o with
  | Done a => k a
  | Failed why => Failed why
  end.

Definition call {A} (r : result A) : outcome A :=
  match r with
  | Ok a => Done a
  | Raise e => Failed (Raised e)
  end.

(** [[f"Hierarquia: {r['mensagem']}" for r in findings]] *)
Fixpoint hierarchy_messages (findings : list Finding) : outcome (list string) :=
  match findings with
  | [] => Done []
  | r :: rest =>
      match HierarchyValidator.mensagem r with
      | None => Failed (KeyError "mensagem")
      | Some m =>
          and_then (hierarchy_messages rest)
            (fun ms => Done (("Hierarquia: " ++ m) :: ms))
      end
  end.

Section WithBuiltins.

Variable series_sum : list float -> float.
Variable round2 : float -> float.
Variable float_repr : float -> string.
Variable list_repr : list string -> string.

(** [str] of a value of a dictionary, in an f-string. *)
Variable value_str : DictValue -> string.

(** [balance_result.get('mensagem', '')] in an f-string *)
Definition balance_message (d : list (string * DictValue)) : string :=
  match dict_get "mensagem" d with
  | Some v => value_str v
  | None => ""
  end.

(** Step 3 of [upload_file]: the lists [errors] and [warnings] after the
    three validators have run on the ledger. *)
Definition validation_messages (df : DataFrame)
  : outcome (list string * list string) :=
  and_then (call (validate_hierarchy series_sum round2 float_repr df))
    (fun hierarchy_results =>
  let hierarchy_errors :=
    List.filter (fun r => (status r =? "ERROR")%string) hierarchy_results in
  let hierarchy_warnings :=
    List.filter (fun r => (status r =? "WARNING")%string) hierarchy_results in
  and_then (hierarchy_messages hierarchy_errors) (fun errors =>
  and_then (hierarchy_messages hierarchy_warnings) (fun warnings =>
  and_then (call (validate_balance_sheet round2 df)) (fun balance_result =>
  let d := balance_dict balance_result in
  let '(errors, warnings) :=
    if is_text (dict_get "status" d) "ERROR"
    then ((errors ++ [("Balanço: " ++ balance_message d)%string])%list, warnings)
    else if is_text (dict_get "status" d) "WARNING"
    then (errors, (warnings ++ [("Balanço: " ++ balance_message d)%string])%list)
    else (errors, warnings) in
  and_then
    (call (LevelClassification.validate_level_classification list_repr df))
    (fun level_errors =>
  Done (errors,
        (warnings
         ++ List.map (fun e => ("Classificação nível: "
                                ++ LevelClassification.mensagem e)%string)
              level_errors)%list)))))).

(** [result["status"]] of the response, from the list of errors. *)
Definition response_status (errors : list string) : string :=
  match errors with [] => "success" | _ => "error" end.

End WithBuiltins.

End Upload.

(* ================================================================== *)
(** ** backend/classifier/default_mapping.py *)

Module DefaultMapping.

Definition DEFAULT_MAPPING : list (string * string) :=
  [ ("1.01.01.02", "(+) Caixa e Equivalentes de Caixa");
    ("1.01.01.03", "(+) Caixa e Equivalentes de Caixa");
    ("1.01.03.01", "(+) Clientes");
    ("1.01.03.02", "(+) Despesas Pagas Antecipadamente");
    ("1.01.03.04", "(+) Outros Créditos");
    ("1.01.03.05", "(+) Outros Créditos");
    ("1.01.03.06", "(+) Outros Créditos");
    ("1.01.03.08", "(+) Outros Créditos");
    ("1.01.03.10", "(+) Outros Créditos");
    ("1.02.02.07", "(+) Realizavel a Longo Prazo");
    ("1.02.02.18", "(+) Realizavel a Longo Prazo");
    ("1.02.03.01", "(+) Bens em operação");
    ("1.02.03.03", "(-) Depreciação");
    ("1.02.04.01", "(+) Softwares, Projetos");
    ("1.02.04.02", "(-) Depreciação Intangível");
    ("2.01.01.01", "(+) Fornecedores");
    ("2.01.01.02", "(+) Outras Obrigações");
    ("2.01.01.03", "(+) Emprestimos e Financiamentos Curto Prazo");
    ("2.01.01.05", "(+) Obrigações Tributárias");
    ("2.01.01.06", "(+) Obrigações Tributárias");
    ("2.01.01.07", "(+) Obrigações Trabalhistas e Previdenciárias");
    ("2.01.01.08", "(+) Obrigações Trabalhistas e Previdenciárias");
    ("2.01.01.09", "(+) Obrigações Trabalhistas e Previdenciárias");
    ("2.01.01.12", "(+) Dividendos a Distribuir");
    ("2.01.01.99", "(+) Outras Obrigações");
    ("2.02.01.04", "(+) Emprestimos e Financiamentos Longo Prazo");
    ("2.03.01.01", "(+) Capital Social");
    ("2.03.04.01", "(+) Lucros e Prejuízos Acumulados");
    ("3.01.01.01", "(+) Receita de Serviços");
    ("3.01.01.02", "(-) Deduções da Receita");
    ("3.01.02.01", "(+) Outras Receitas");
    ("3.02.01.01", "(+) Receitas não Operacionais");
    ("4.01.01.01", "(-) Equipe");
    ("4.01.01.02", "(-) Equipe");
    ("4.01.01.03", "(-) Equipe");
    ("4.01.01.04", "(-) Despesas Gerais e Administrativas");
    ("4.01.01.05", "(-) Demais G&A");
    ("4.01.01.06", "(-) Despesas Comerciais");
    ("4.01.01.07", "(-) Tributárias");
    ("4.01.01.08", "(-) D&A");
    ("4.01.01.09", "(+) Resultado Financeiro");
    ("4.01.02.01", "(-) Despesas não Operacionais");
    ("4.02.01.01", "(-) Despesas não Operacionais");
    ("4.03.01.03", "(-) CSP");
    ("4.03.01.04", "(-) Software");
    ("4.03.01.09", "(-) Servidor/Cloud");
    ("4.98.03", "(-) CSLL");
    ("4.98.04", "(-) IRPJ") ].

Definition SPECIFIC_ACCOUNT_MAPPING : list (string * string) :=
  [ ("3.01.01.02.00004", "(-) PIS");
    ("3.01.01.02.00005", "(-) COFINS");
    ("3.01.01.02.00006", "(-) ISS");
    ("3.01.01.02.00012", "(-) Descontos e Devoluções") ].

Definition CLASSIFICATION_TO_DF : list (string * string) :=
  [ ("(+) Receita de Serviços", "DRE");
    ("(+) Outras Receitas", "DRE");
    ("(-) Deduções da Receita", "DRE");
    ("(-) ISS", "DRE");
    ("(-) PIS", "DRE");
    ("(-) COFINS", "DRE");
    ("(-) Descontos e Devoluções", "DRE");
    ("(-) CSP", "DRE");
    ("(-) Equipe", "DRE");
    ("(-) Servidor/Cloud", "DRE");
    ("(-) Software", "DRE");
    ("(-) Ocupação", "DRE");
    ("(-) D&A", "DRE");
    ("(-) Despesas Comerciais", "DRE");
    ("(-) Equipe de Originação", "DRE");
    ("(-) Despesas de Marketing", "DRE");
    ("(-) Despesas Gerais e Administrativas", "DRE");
    ("(-) Tributárias", "DRE");
    ("(-) Demais G&A", "DRE");
    ("(+) Receitas Financeiras", "DRE");
    ("(-) Despesas Financeiras", "DRE");
    ("(+) Resultado Financeiro", "DRE");
    ("(+) Receitas não Operacionais", "DRE");
    ("(-) Despesas não Operacionais", "DRE");
    ("(-) IRPJ", "DRE");
    ("(-) CSLL", "DRE");
    ("(+) Caixa e Equivalentes de Caixa", "BP");
    ("(+) Clientes", "BP");
    ("(+) Despesas Pagas Antecipadamente", "BP");
    ("(+) Outros Créditos", "BP");
    ("(+) Realizavel a Longo Prazo", "BP");
    ("(+) Bens em operação", "BP");
    ("(-) Depreciação", "BP");
    ("(+) Softwares, Projetos", "BP");
    ("(-) Depreciação Intangível", "BP");
    ("(+) Emprestimos e Financiamentos Curto Prazo", "BP");
    ("(+) Dividendos a Distribuir", "BP");
    ("(+) Fornecedores", "BP");
    ("(+) Obrigações Trabalhistas e Previdenciárias", "BP");
    ("(+) Obrigações Tributárias", "BP");
    ("(+) Outras Obrigações", "BP");
    ("(+) Emprestimos e Financiamentos Longo Prazo", "BP");
    ("(+) Capital Social", "BP");
    ("(+) Reserva de Lucros", "BP");
    ("(+) Lucros e Prejuízos Acumulados", "BP") ].

End DefaultMapping.

(* ================================================================== *)
(** ** backend/classifier/depara_manager.py: the classification of an
    account *)

Module DeparaManager.
Import DefaultMapping.

(** [d.get(key)] for a dictionary with text keys, written as the list of
    its items (no key twice). *)
Fixpoint lookup {V} (key : string) (d : list (string * V)) : option V :=
  match d with
  | [] => None
  | (k, v) :: d' => if (k =? key)%string then Some v else lookup key d'
  end.

Definition _get_level4_prefix (codigo : string) : string :=
  if Str.is_empty codigo then ""
  else
    let parts := Str.split "." codigo in
    if (4 <=? List.length parts)%nat then String.concat "." (firstn 4 parts)
    else codigo.

(** An entry of the list [new_accounts]. *)
Record NewAccount : Type := mkNewAccount {
  codigo_conta_novo : string;       (* codigo_conta *)
  titulo_original : string;
  classificacao : string;
  grupo_df_novo : string;           (* grupo_df *)
  status_novo : string              (* status *)
}.

(** A row of the DataFrame that [classify_accounts] returns: the row of
    the ledger and the two columns added to it. *)
Record Classified : Type := mkClassified {
  account : Rec;
  classificacao_depara : string;
  grupo_df : string
}.

(** [CLASSIFICATION_TO_DF.get(classificacao, "")] *)
Definition df_of (classificacao : string) : string :=
  match lookup classificacao CLASSIFICATION_TO_DF with
  | Some g => g
  | None => ""
  end.

Section WithDepara.

(** The DEPARA of the sheet as the loop consults it: the dictionary
    [depara_map], from an account code to a classification and a group.
    It is empty when the sheet could not be read. *)
Variable depara_map : string -> option (string * string).

(** Steps 2 to 4 of the loop of [classify_accounts]: the classification,
    the group and the entry added to [new_accounts]. *)
Definition classify_by_default (codigo titulo : string)
  : string * string * NewAccount :=
  match lookup codigo SPECIFIC_ACCOUNT_MAPPING with
  | Some classificacao =>
      let grupo_df := df_of classificacao in
      (classificacao, grupo_df,
       mkNewAccount codigo titulo classificacao grupo_df "Auto")
  | None =>
      let prefix := _get_level4_prefix codigo in
      match (if Str.is_empty prefix then None else lookup prefix DEFAULT_MAPPING) with
      | Some classificacao =>
          let grupo_df := df_of classificacao in
          (classificacao, grupo_df,
           mkNewAccount codigo titulo classificacao grupo_df "Auto")
      | None =>
          ("Pendente IA", "",
           mkNewAccount codigo titulo "Pendente IA" "" "Pendente")
      end
  end.

(** The body of the loop, for one row typed "Último Nível". *)
Definition classify_account (codigo titulo : string)
  : string * string * option NewAccount :=
  let by_default :=
    let '(classificacao, grupo_df, novo) := classify_by_default codigo titulo in
    (classificacao, grupo_df, Some novo) in
  match depara_map codigo with
  | Some (classificacao, grupo_df) =>
      if Str.is_empty classificacao then by_default
      else (classificacao, grupo_df, None)
  | None => by_default
  end.

(** The loop over the rows of a ledger that has the columns
    [codigo_conta], [titulo_conta] and [tipo]: the rows with their two new
    columns, empty on the rows that are not typed "Último Nível", and the
    list [new_accounts]. *)
Fixpoint classify_rows (ledger : list Rec) : list Classified * list NewAccount :=
  match ledger with
  | [] => ([], [])
  | r :: rest =>
      let '(rows, novos) := classify_rows rest in
      if (tipo r =? ULTIMO_NIVEL)%string then
        let '(classificacao, grupo_df, novo) :=
          classify_account (Str.strip (codigo_conta r))
            (Str.strip (titulo_conta r)) in
        (mkClassified r classificacao grupo_df :: rows,
         match novo with Some n => n :: novos | None => novos end)
      else (mkClassified r "" "" :: rows, novos)
  end.

End WithDepara.

End DeparaManager.

(* ================================================================== *)
(** ** backend/classifier/ai_classifier.py: the group of a statement *)

Module AIClassifier.

Definition _infer_grupo_df (codigo_conta : string) : string :=
  match codigo_conta with
  | EmptyString => ""
  | String first _ =>
      if existsb (Ascii.eqb first) ["1"; "2"]%char then "BP"
      else if existsb (Ascii.eqb first) ["3"; "4"]%char then "DRE"
      else ""
  end.

End AIClassifier.

(* ================================================================== *)
(** ** backend/sheets/dre_builder.py: columns and their titles *)

Module DREBuilder.

Definition _MONTH_ABBR : list (string * string) :=
  [ ("01", "Jan"); ("02", "Fev"); ("03", "Mar"); ("04", "Abr");
    ("05", "Mai"); ("06", "Jun"); ("07", "Jul"); ("08", "Ago");
    ("09", "Set"); ("10", "Out"); ("11", "Nov"); ("12", "Dez") ].

(** The loop of [_col_letter]: [while n > 0], one letter for each turn. *)
Fixpoint col_letter_loop (fuel : nat) (n : Z) (result : string) : string :=
  match fuel with
  | O => result
  | S fuel' =>
      if n >? 0 then
        let rem := (n - 1) mod 26 in
        col_letter_loop fuel' ((n - 1) / 26)
          (String (ascii_of_N (Z.to_N (65 + rem))) result)
      else result
  end.

(** [_col_letter]: the loop leaves before [n] turns. *)
Definition _col_letter (n : Z) : string :=
  col_letter_loop (Z.to_nat n) n "".

(** [_period_to_header]: the subscripts [parts[1]] and [parts[0]] raise
    IndexError on a list that is too short. *)
Definition _period_to_header (period : string) : result string :=
  match Str.split "-" period with
  | p0 :: p1 :: _ =>
      Ok ((match DeparaManager.lookup p1 _MONTH_ABBR with
           | Some abbr => abbr
           | None => p1
           end) ++ "/" ++ Str.drop 2 p0)
  | _ => Raise IndexError
  end.

End DREBuilder.

(** The number that a column name stands for: its letters read as the
    digits 1 to 26 of a number in base 26. *)
Module ColumnName.

Fixpoint col_number (acc : Z) (name : string) : Z :=
  match name with
  | EmptyString => acc
  | String c rest => col_number (26 * acc + (Z.of_N (Str.code c) - 64)) rest
  end.

End ColumnName.

(* ================================================================== *)
(** ** More sample data *)

Module MoreExamples.

(** The text of a list of account codes in an f-string: the codes
    between apostrophes (a code has no character to escape). *)
Definition codes_repr (codes : list string) : string :=
  "[" ++ String.concat ", " (List.map (fun c => "'" ++ c ++ "'") codes) ++ "]".

(** A ledger of the tests of the validator: an account typed "Último
    Nível" with an account below it. *)
Definition classification_error : DataFrame :=
  mkDataFrame Examples.test_columns
    [ Examples.account "1" "ATIVO" 1 ULTIMO_NIVEL 500%float;
      Examples.account "1.01" "CIRCULANTE" 2 ULTIMO_NIVEL 500%float ].

(** A file with an account of group 9 whose reduced code is the text
    inf, and the same file with an integer of 401 digits there. *)
Definition infinite_red_rows : list (list PyVal) :=
  [ Examples.data_row "1" (PStr "") "ATIVO" "0,00" "10,00" "0,00" "10,00D";
    Examples.data_row "9.01" (PStr "inf") "OUTROS" "0,00" "10,00" "0,00" "10,00D" ].

Definition infinite_red_file : ExcelFile :=
  mkExcelFile "/tmp/upload/grupo9.xls" true
    (Examples.preamble ++ infinite_red_rows ++ [Examples.total_row])%list.

(** The file of [infinite_red_file] with another reduced code in the row
    of group 9. *)
Definition unmapped_file_with_red (red : PyVal) : ExcelFile :=
  mkExcelFile "/tmp/upload/grupo9.xls" true
    (Examples.preamble ++
     [ Examples.data_row "1" (PStr "") "ATIVO" "0,00" "10,00" "0,00" "10,00D";
       Examples.data_row "9.01" red "OUTROS" "0,00" "10,00" "0,00" "10,00D";
       Examples.total_row ])%list.

(** A file without any row between the preamble and the total. *)
Definition no_rows_file : ExcelFile :=
  mkExcelFile "/tmp/upload/vazio.xlsx" true
    (Examples.preamble ++ [Examples.total_row])%list.

End MoreExamples.
(* ================================================================== *)
(** * Properties *)

(** ** Facts about binary64 numbers *)

Section FloatFacts.

Lemma is_nan_spec x :
  PrimFloat.is_nan x = true <-> Prim2SF x = S754_nan.
Proof.
  unfold PrimFloat.is_nan. rewrite eqb_spec.
  destruct (Prim2SF x) as [s|s| |s m e] eqn:E; cbn.
  - split; discriminate.
  - destruct s; split; discriminate.
  - split; reflexivity.
  - unfold SFeqb, SFcompare.
    rewrite Z.compare_refl, Pos.compare_cont_refl.
    destruct s; split; discriminate.
Qed.

Lemma abs_nonneg x :
  PrimFloat.is_nan x = false -> PrimFloat.leb f0 (PrimFloat.abs x) = true.
Proof.
  intros H. rewrite leb_spec, abs_spec.
  destruct (Prim2SF x) as [s|s| |s m e] eqn:E; try reflexivity.
  apply is_nan_spec in E. congruence.
Qed.

Lemma abs_of_nonneg x :
  PrimFloat.leb f0 x = true -> PrimFloat.eqb (PrimFloat.abs x) x = true.
Proof.
  rewrite leb_spec, eqb_spec, abs_spec.
  destruct (Prim2SF x) as [s|s| |s m e]; cbn; try discriminate; try reflexivity.
  - destruct s; [discriminate | reflexivity].
  - destruct s; [discriminate | intros _].
    unfold SFeqb, SFcompare.
    now rewrite Z.compare_refl, Pos.compare_cont_refl.
Qed.

Lemma opp_abs_of_nonneg x :
  PrimFloat.leb f0 x = true ->
  PrimFloat.eqb (PrimFloat.opp (PrimFloat.abs x)) (PrimFloat.opp x) = true.
Proof.
  rewrite leb_spec, eqb_spec, !opp_spec, abs_spec.
  destruct (Prim2SF x) as [s|s| |s m e]; cbn; try discriminate; try reflexivity.
  - destruct s; [discriminate | reflexivity].
  - destruct s; [discriminate | intros _].
    unfold SFeqb, SFcompare. cbn.
    now rewrite Z.compare_refl, Pos.compare_cont_refl.
Qed.

(** Two numbers with one description are one number. *)
Lemma Prim2SF_inj x y : Prim2SF x = Prim2SF y -> x = y.
Proof.
  intros H. rewrite <- (SF2Prim_Prim2SF x), <- (SF2Prim_Prim2SF y).
  now rewrite H.
Qed.

Lemma abs_of_positive x :
  PrimFloat.leb f0 x = true -> Prim2SF x <> S754_zero true ->
  PrimFloat.abs x = x.
Proof.
  intros H Hz. apply Prim2SF_inj. rewrite abs_spec.
  rewrite leb_spec in H.
  destruct (Prim2SF x) as [s|s| |s m e]; cbn in *; try discriminate.
  - destruct s; [congruence | reflexivity].
  - destruct s; [discriminate | reflexivity].
  - destruct s; [discriminate | reflexivity].
Qed.

End FloatFacts.

(* ================================================================== *)
(** ** Rounding a ratio to a float *)

Module RoundingFacts.
Import Num.

Lemma pow2_pos k : 0 < 2 ^ k \/ k < 0.
Proof. destruct (Z.lt_ge_cases k 0); [now right | left; now apply Z.pow_pos_nonneg]. Qed.

Lemma log2_bounds n : 0 < n -> 2 ^ Z.log2 n <= n < 2 ^ (Z.log2 n + 1).
Proof. intros H. exact (Z.log2_spec n H). Qed.

Lemma round_half_even_bounds x d :
  0 <= x -> 0 < d ->
  x / d <= round_half_even x d <= x / d + 1
  /\ 2 * Z.abs (round_half_even x d * d - x) <= d.
Proof.
  intros Hx Hd. unfold round_half_even.
  pose proof (Z.div_mod x d ltac:(lia)) as E.
  pose proof (Z.mod_pos_bound x d Hd) as Hr.
  set (q := x / d) in *. set (r := x mod d) in *.
  assert (Eq : q * d = x - r) by lia.
  destruct (Z.ltb_spec (2 * r) d); [split; [lia |]; rewrite Eq; lia |].
  destruct (Z.gtb_spec (2 * r) d).
  - split; [lia |]. replace ((q + 1) * d) with (x - r + d) by lia. lia.
  - destruct (Z.even q).
    + split; [lia |]. rewrite Eq. lia.
    + split; [lia |]. replace ((q + 1) * d) with (x - r + d) by lia. lia.
Qed.

Lemma shift_of_bounds x den :
  0 < x -> 0 < den ->
  0 <= shift_of x den
  /\ x / (den * 2 ^ shift_of x den) < 2 ^ 53
  /\ (0 < shift_of x den -> 2 ^ 52 <= x / (den * 2 ^ shift_of x den)).
Proof.
  intros Hx Hden. unfold shift_of.
  pose proof (log2_bounds x Hx) as [Hx1 Hx2].
  pose proof (log2_bounds den Hden) as [Hd1 Hd2].
  pose proof (Z.log2_nonneg x) as Hlx. pose proof (Z.log2_nonneg den) as Hld.
  set (lx := Z.log2 x) in *. set (ld := Z.log2 den) in *.
  set (s0 := Z.max (lx - ld - 53) 0).
  assert (Hs0 : 0 <= s0) by lia.
  assert (Hp : 0 < 2 ^ s0) by now apply Z.pow_pos_nonneg.
  assert (Hd0 : 0 < den * 2 ^ s0) by lia.
  (* x < 2^54 * d0 *)
  assert (HA : x < 2 ^ 54 * (den * 2 ^ s0)).
  { assert (2 ^ (lx + 1) <= 2 ^ (54 + ld + s0))
      by (apply Z.pow_le_mono_r; lia).
    replace (2 ^ (54 + ld + s0)) with (2 ^ 54 * (2 ^ ld * 2 ^ s0)) in H
      by (rewrite !Z.pow_add_r by lia; ring).
    assert (2 ^ ld * 2 ^ s0 <= den * 2 ^ s0) by nia.
    nia. }
  (* 2^52 * d0 <= x when s0 > 0 *)
  assert (HB : 0 < s0 -> 2 ^ 52 * (den * 2 ^ s0) <= x).
  { intros Hpos. assert (Es : s0 = lx - ld - 53) by lia.
    assert (E : 2 ^ lx = 2 ^ 52 * (2 ^ (ld + 1) * 2 ^ s0)).
    { rewrite <- !Z.pow_add_r by lia. f_equal. lia. }
    assert (den * 2 ^ s0 <= 2 ^ (ld + 1) * 2 ^ s0) by nia.
    nia. }
  destruct (Z.geb_spec (x / (den * 2 ^ s0)) (2 ^ 53)) as [Hge | Hlt].
  - assert (Ed : den * 2 ^ (s0 + 1) = 2 * (den * 2 ^ s0))
      by (rewrite Z.pow_add_r by lia; ring).
    rewrite Ed. split; [lia | split].
    + apply Z.div_lt_upper_bound; [lia |]. lia.
    + intros _. apply Z.div_le_lower_bound; [lia |].
      pose proof (Z.mul_div_le x (den * 2 ^ s0) Hd0). nia.
  - split; [lia | split; [lia |]].
    intros Hpos. apply Z.div_le_lower_bound; [lia |].
    rewrite Z.mul_comm. apply HB, Hpos.
Qed.

(** The outcome of rounding: a mantissa [n] below 2^53 and a shift [s],
    with [n] at least 2^52 unless [s = 0], and [n * 2 ^ s] within half a
    unit of the ratio. *)
Lemma round_ratio_cases neg num den :
  0 < num -> 0 < den ->
  exists n s,
    0 <= s /\ 0 <= n < 2 ^ 53 /\ (0 < s -> 2 ^ 52 <= n)
    /\ 2 * Z.abs (n * (den * 2 ^ s) - units num) <= den * 2 ^ s
    /\ round_ratio neg num den
       = match n with
         | Z.pos m =>
             if s >? 2045 then S754_infinity neg
             else S754_finite neg m (s - 1074)
         | _ => S754_zero neg
         end.
Proof.
  intros Hnum Hden. unfold round_ratio.
  replace ((num <=? 0) || (den <=? 0)) with false
    by (symmetry; apply orb_false_iff; split; apply Z.leb_gt; lia).
  assert (Hx : 0 < units num)
    by (unfold units; apply Z.mul_pos_pos; [lia | now apply Z.pow_pos_nonneg]).
  destruct (shift_of_bounds (units num) den Hx Hden) as (Hs & Hq1 & Hq2).
  set (s := shift_of (units num) den) in *.
  assert (Hd : 0 < den * 2 ^ s)
    by (apply Z.mul_pos_pos; [lia | now apply Z.pow_pos_nonneg]).
  destruct (round_half_even_bounds (units num) (den * 2 ^ s) ltac:(lia) Hd)
    as [[Hn1 Hn2] Herr].
  set (n := round_half_even (units num) (den * 2 ^ s)) in *.
  destruct (Z.eqb_spec n (2 ^ 53)) as [E | NE].
  - exists (2 ^ 52), (s + 1). repeat split; try lia.
    replace (den * 2 ^ (s + 1)) with (2 * (den * 2 ^ s))
      by (rewrite Z.pow_add_r by lia; ring).
    replace (2 ^ 52 * (2 * (den * 2 ^ s))) with (n * (den * 2 ^ s))
      by (rewrite E; change (2 ^ 53) with (2 ^ 52 * 2); ring).
    lia.
  - exists n, s. repeat split; try lia.
    assert (0 <= units num / (den * 2 ^ s)) by (apply Z.div_pos; lia).
    lia.
Qed.

Lemma digits2_pos_log2 m : Z.pos (digits2_pos m) = Z.log2 (Z.pos m) + 1.
Proof.
  induction m as [m IH | m IH |]; cbn [digits2_pos]; [| | reflexivity].
  - rewrite Pos2Z.inj_succ, IH. destruct m; cbn; lia.
  - rewrite Pos2Z.inj_succ, IH. destruct m; cbn; lia.
Qed.

(** The description that rounding produces is well formed. *)
Theorem round_ratio_valid neg num den :
  valid_binary (round_ratio neg num den) = true.
Proof.
  destruct (Z.leb_spec num 0) as [Hn | Hn];
    [unfold round_ratio; replace (num <=? 0) with true
       by (symmetry; now apply Z.leb_le); reflexivity |].
  destruct (Z.leb_spec den 0) as [Hd | Hd];
    [unfold round_ratio; replace (den <=? 0) with true
       by (symmetry; now apply Z.leb_le); rewrite orb_true_r; reflexivity |].
  destruct (round_ratio_cases neg num den Hn Hd)
    as (n & s & Hs & Hn53 & Hn52 & _ & ->).
  destruct n as [|m|m]; [reflexivity | | reflexivity].
  destruct (Z.gtb_spec s 2045) as [Hbig | Hsmall]; [reflexivity |].
  unfold valid_binary, SpecFloat.valid_binary, bounded, canonical_mantissa, fexp, emin.
  rewrite digits2_pos_log2.
  change prec with 53. change emax with 1024.
  apply andb_true_iff. split; [| apply Z.leb_le; lia].
  apply Z.eqb_eq.
  destruct (Z.eq_dec s 0) as [-> | Hpos].
  - assert (Z.log2 (Z.pos m) < 53) by (apply Z.log2_lt_pow2; lia). lia.
  - assert (Z.log2 (Z.pos m) = 52).
    { apply Z.log2_unique; [lia |]. change (52 + 1) with 53. lia. }
    lia.
Qed.

Lemma round_ratio_not_nan neg num den : round_ratio neg num den <> S754_nan.
Proof.
  unfold round_ratio.
  destruct ((num <=? 0) || (den <=? 0)); [discriminate |].
  destruct (if _ =? 2 ^ 53 then _ else _) as [n s].
  destruct n; try discriminate. destruct (s >? 2045); discriminate.
Qed.

Lemma Prim2SF_round_ratio neg num den :
  Prim2SF (SF2Prim (round_ratio neg num den)) = round_ratio neg num den.
Proof. apply Prim2SF_SF2Prim, round_ratio_valid. Qed.

Lemma float_of_decimal_not_nan neg m e :
  PrimFloat.is_nan (float_of_decimal neg m e) = false.
Proof.
  unfold float_of_decimal.
  destruct (PrimFloat.is_nan _) eqn:E; [| reflexivity].
  apply is_nan_spec in E.
  destruct (e >=? 0); rewrite Prim2SF_round_ratio in E;
    now apply round_ratio_not_nan in E.
Qed.

(** A positive ratio is rounded to the nearest float. *)
Theorem round_ratio_nearest num den :
  0 < num -> 0 < den ->
  Spec.nearest_to (SF2Prim (round_ratio false num den)) num den.
Proof.
  intros Hn Hd. unfold Spec.nearest_to. rewrite Prim2SF_round_ratio.
  destruct (round_ratio_cases false num den Hn Hd)
    as (n & s & Hs & Hn53 & Hn52 & Herr & ->).
  assert (Hp : 0 < 2 ^ s) by now apply Z.pow_pos_nonneg.
  destruct n as [|m|m]; [| | lia].
  - assert (s = 0) by lia. subst s. change (2 ^ 0) with 1 in Herr. lia.
  - destruct (Z.gtb_spec s 2045) as [Hbig | Hsmall].
    + assert (H52 : 2 ^ 52 <= Z.pos m) by (apply Hn52; lia).
      assert (Hpow : 2 ^ 2046 <= 2 ^ s) by (apply Z.pow_le_mono_r; lia).
      unfold units in Herr.
      change (2 ^ 2046) with (2 ^ 972 * 2 ^ 1074) in Hpow.
      assert (Hx : 0 < 2 ^ 1074) by reflexivity.
      set (u := 2 ^ 1074) in *. set (p := 2 ^ s) in *.
      assert (H1 : (2 * Z.pos m - 1) * (den * p) <= 2 * (num * u)) by lia.
      assert (H2 : (2 ^ 53 - 1) * (den * (2 ^ 972 * u)) <= (2 * Z.pos m - 1) * (den * p)).
      { apply Z.mul_le_mono_nonneg; try lia.
        apply Z.mul_le_mono_nonneg_l; lia. }
      change (2 ^ 972) with (2 * 2 ^ 971) in H2.
      nia.
    + replace (s - 1074 + 1074) with s by lia. repeat split; lia.
Qed.

End RoundingFacts.

(* ================================================================== *)
(** ** value_converter.py: the sign rule *)

Module ValueConverterProps.
Import ValueConverter.

Lemma valid_group_dec g :
  In g [1; 2; 3; 4] -> existsb (Z.eqb g) [1; 2; 3; 4] = true.
Proof.
  intros H. apply existsb_exists. exists g. split; [exact H | apply Z.eqb_refl].
Qed.

Lemma invalid_group_dec g :
  ~ In g [1; 2; 3; 4] -> existsb (Z.eqb g) [1; 2; 3; 4] = false.
Proof.
  intros H. destruct (existsb (Z.eqb g) [1; 2; 3; 4]) eqn:E; [| reflexivity].
  apply existsb_exists in E. destruct E as [x [Hin Hx]].
  apply Z.eqb_eq in Hx. subst x. contradiction.
Qed.

Lemma apply_sign_D value g :
  In g [1; 2; 3; 4] -> apply_sign value "D" g = Ok (PrimFloat.abs value).
Proof.
  intros H. unfold apply_sign. cbv beta iota delta [Str.is_empty].
  now rewrite (valid_group_dec g H).
Qed.

Lemma apply_sign_C value g :
  In g [1; 2; 3; 4] ->
  apply_sign value "C" g = Ok (PrimFloat.opp (PrimFloat.abs value)).
Proof.
  intros H. unfold apply_sign. cbv beta iota delta [Str.is_empty].
  now rewrite (valid_group_dec g H).
Qed.

(** With a group number in 1..4 the call returns. *)
Lemma apply_sign_returns value indicator g :
  In g [1; 2; 3; 4] -> exists x, apply_sign value indicator g = Ok x.
Proof.
  intros Hg. unfold apply_sign.
  destruct (Str.is_empty indicator); [eauto |].
  rewrite (valid_group_dec g Hg). cbn [negb].
  destruct (String.eqb _ "D"); [eauto |].
  destruct (String.eqb _ "C"); eauto.
Qed.

(** With a debit or credit indicator, a group number outside 1..4 is
    rejected. *)
Lemma apply_sign_invalid_group value indicator g :
  indicator = "D" \/ indicator = "C" -> ~ In g [1; 2; 3; 4] ->
  apply_sign value indicator g = Raise (ValueError (InvalidGroup g)).
Proof.
  intros [-> | ->] H; unfold apply_sign; cbv beta iota delta [Str.is_empty];
    now rewrite (invalid_group_dec g H).
Qed.

(** C3, at the input where the code departs from it: with the empty
    indicator [apply_sign] returns 0.0 before it looks at the group
    number, whatever that number is. *)
Theorem apply_sign_empty_indicator_skips_group_check value g :
  apply_sign value "" g = Ok f0.
Proof. reflexivity. Qed.

(** C9: for a magnitude m >= 0 and a group number in 1..4, "D" gives +m,
    "C" gives -m and the empty indicator gives 0.0.  Equality of floats is
    that of Python ([==]); the results are moreover the very numbers m and
    -m unless m is the negative zero. *)
Theorem apply_sign_uniform (m : float) (g : Z) :
  PrimFloat.leb f0 m = true ->
  In g [1; 2; 3; 4] ->
  (exists v, apply_sign m "D" g = Ok v /\ PrimFloat.eqb v m = true) /\
  (exists v, apply_sign m "C" g = Ok v
             /\ PrimFloat.eqb v (PrimFloat.opp m) = true) /\
  apply_sign m "" g = Ok f0 /\
  (Prim2SF m <> S754_zero true ->
   apply_sign m "D" g = Ok m /\ apply_sign m "C" g = Ok (PrimFloat.opp m)).
Proof.
  intros Hm Hg. repeat split.
  - exists (PrimFloat.abs m). split.
    + now apply apply_sign_D.
    + now apply abs_of_nonneg.
  - exists (PrimFloat.opp (PrimFloat.abs m)). split.
    + now apply apply_sign_C.
    + now apply opp_abs_of_nonneg.
  - rewrite apply_sign_D by exact Hg. now rewrite abs_of_positive.
  - rewrite apply_sign_C by exact Hg. now rewrite abs_of_positive.
Qed.

Lemma apply_sign_uniform_witness :
  (exists v, apply_sign 1000%float "D" 1 = Ok v
             /\ PrimFloat.eqb v 1000%float = true) /\
  (exists v, apply_sign 1000%float "C" 1 = Ok v
             /\ PrimFloat.eqb v (PrimFloat.opp 1000%float) = true) /\
  apply_sign 1000%float "" 1 = Ok f0 /\
  (Prim2SF 1000%float <> S754_zero true ->
   apply_sign 1000%float "D" 1 = Ok 1000%float
   /\ apply_sign 1000%float "C" 1 = Ok (PrimFloat.opp 1000%float)).
Proof.
  apply (apply_sign_uniform 1000%float 1).
  - reflexivity.
  - simpl. lia.
Defined.

(** *** parse_brazilian_value on every kind of input *)

Lemma parse_brazilian_value_returns v :
  (forall z, v = PInt z -> Num.float_of_int z <> None) ->
  exists p, parse_brazilian_value v = Ok p.
Proof.
  intros H. destruct v; cbn; eauto.
  - destruct (Num.float_of_int z) eqn:E; eauto.
    exfalso. now apply (H z).
  - destruct (PrimFloat.is_nan x); eauto.
Qed.

Lemma parse_str_degenerate s :
  Str.is_empty (Str.strip s) = true
  \/ Str.is_empty (Spec.remainder s) = true
  \/ Num.float_of_str (Spec.remainder s) = None ->
  parse_str s = (f0, "").
Proof.
  unfold Spec.remainder, parse_str.
  destruct (Str.is_empty (Str.strip s)); [reflexivity |].
  destruct (split_indicator (Str.strip s)) as [indicator cleaned]. cbn [snd].
  intros [H | [H | H]]; [discriminate | now rewrite H |].
  destruct (Str.is_empty _); [reflexivity | now rewrite H].
Qed.

(** What [parse_brazilian_value] does on each kind of input: it returns
    a pair on
    every input except an integer beyond the range of floats; None, NaN,
    the empty string and the strings whose cleaned remainder is empty or
    unparsable give (0.0, ""); a float that is a number, and an integer
    that [float] converts, come back as they are with the empty indicator;
    an integer that [float] cannot convert raises OverflowError. *)
Theorem parse_brazilian_value_total :
  (forall v, (forall z, v = PInt z -> Num.float_of_int z <> None) ->
             exists p, parse_brazilian_value v = Ok p)
  /\ parse_brazilian_value PNone = Ok (f0, "")
  /\ (forall x, PrimFloat.is_nan x = true ->
                parse_brazilian_value (PFloat x) = Ok (f0, ""))
  /\ parse_brazilian_value (PStr "") = Ok (f0, "")
  /\ (forall s, Str.is_empty (Str.strip s) = true
                \/ Str.is_empty (Spec.remainder s) = true
                \/ Num.float_of_str (Spec.remainder s) = None ->
                parse_brazilian_value (PStr s) = Ok (f0, ""))
  /\ (forall s, exists p, parse_brazilian_value (PStr s) = Ok p)
  /\ (forall x, PrimFloat.is_nan x = false ->
                parse_brazilian_value (PFloat x) = Ok (x, ""))
  /\ (forall z x, Num.float_of_int z = Some x ->
                  parse_brazilian_value (PInt z) = Ok (x, ""))
  /\ (forall z, Num.float_of_int z = None ->
                parse_brazilian_value (PInt z) = Raise OverflowError).
Proof.
  repeat split.
  - exact parse_brazilian_value_returns.
  - intros x H. cbn. now rewrite H.
  - intros s H. cbn. now rewrite (parse_str_degenerate s H).
  - intros s. cbn. eauto.
  - intros x H. cbn. now rewrite H.
  - intros z x H. cbn. now rewrite H.
  - intros z H. cbn. now rewrite H.
Qed.

(** C8, at the input where the code departs from it: [float(10**400)]
    raises OverflowError, which the handler of the branch for values that
    are not strings (ValueError, TypeError) lets through, so the call
    returns no pair.  The paths beside it return one: the same number
    written as a text gives (inf, ""), an object that [float] rejects
    gives (0.0, ""), and an integer that [float] converts gives its
    float. *)
Lemma parse_brazilian_value_huge_int_raises :
  parse_brazilian_value (PInt (10 ^ 400)) = Raise OverflowError
  /\ (~ exists p, parse_brazilian_value (PInt (10 ^ 400)) = Ok p)
  /\ parse_brazilian_value (PStr (Str.of_Z (10 ^ 400)))
     = Ok (PrimFloat.infinity, "")
  /\ (forall r, parse_brazilian_value (PObj r) = Ok (f0, ""))
  /\ parse_brazilian_value (PInt (10 ^ 15)) = Ok (1e15%float, "").
Proof.
  assert (E : parse_brazilian_value (PInt (10 ^ 400)) = Raise OverflowError)
    by (vm_compute; reflexivity).
  split; [exact E |].
  split; [intros (p & H); congruence |].
  split; [vm_compute; reflexivity |].
  split; [reflexivity | vm_compute; reflexivity].
Qed.

End ValueConverterProps.

(* ================================================================== *)
(** ** Facts about strings *)

Module StrFacts.
Import Str.

Lemma append_assoc (a b c : string) : (a ++ b) ++ c = a ++ (b ++ c).
Proof. induction a; cbn; [reflexivity | now rewrite IHa]. Qed.

Lemma append_nil_r (a : string) : a ++ "" = a.
Proof. induction a; cbn; [reflexivity | now rewrite IHa]. Qed.

Lemma is_empty_snoc a c : is_empty (a ++ String c "") = false.
Proof. now destruct a. Qed.

Lemma map_app f a b : map f (a ++ b) = map f a ++ map f b.
Proof. induction a; cbn; [reflexivity | now rewrite IHa]. Qed.

Lemma eqb_snoc_single a c x d :
  (String x (a ++ String c "") =? String d "")%string = false.
Proof.
  cbn. destruct (Ascii.eqb x d); [| reflexivity]. now destruct a.
Qed.

Lemma endswith_snoc a c d :
  endswith (a ++ String c "") (String d "") = (c =? d)%char.
Proof.
  induction a as [|x a IH].
  - cbn. destruct (Ascii.eqb c d); reflexivity.
  - cbn [append endswith]. now rewrite eqb_snoc_single, IH.
Qed.

Lemma drop_last_snoc a c : drop_last (a ++ String c "") = a.
Proof.
  induction a as [|x a IH]; cbn; [reflexivity |].
  now rewrite is_empty_snoc, IH.
Qed.

Lemma replace_app o n a b :
  replace o n (a ++ b) = replace o n a ++ replace o n b.
Proof.
  induction a as [|x a IH]; cbn; [reflexivity |].
  destruct (Ascii.eqb x o); rewrite IH; [now rewrite append_assoc | reflexivity].
Qed.

Lemma replace_absent o n s :
  forallb (fun c => negb (c =? o)%char) s = true -> replace o n s = s.
Proof.
  induction s as [|x s IH]; cbn; [reflexivity |].
  intros H. apply andb_true_iff in H. destruct H as [Hx Hs].
  apply negb_true_iff in Hx. now rewrite Hx, IH.
Qed.

Lemma filter_all keep s : forallb keep s = true -> filter keep s = s.
Proof.
  induction s as [|x s IH]; cbn; [reflexivity |].
  intros H. apply andb_true_iff in H. destruct H as [Hx Hs].
  now rewrite Hx, IH.
Qed.

Lemma forallb_app p a b :
  forallb p (a ++ b) = forallb p a && forallb p b.
Proof.
  induction a as [|x a IH]; cbn; [reflexivity |].
  now rewrite IH, andb_assoc.
Qed.

Lemma forallb_impl (p q : ascii -> bool) s :
  (forall c, p c = true -> q c = true) ->
  forallb p s = true -> forallb q s = true.
Proof.
  intros Hpq. induction s as [|x s IH]; cbn; [reflexivity |].
  intros H. apply andb_true_iff in H. destruct H as [Hx Hs].
  now rewrite (Hpq x Hx), IH.
Qed.

(** What a digit is not. *)
Lemma digit_classes c :
  is_digit c = true ->
  is_space c = false /\ (c =? ".")%char = false /\ (c =? ",")%char = false
  /\ (c =? "_")%char = false /\ (c =? "-")%char = false
  /\ (c =? "+")%char = false /\ lower_char c = c
  /\ (c =? "i")%char = false /\ (c =? "n")%char = false.
Proof.
  destruct c as [[] [] [] [] [] [] [] []]; cbv; intros H;
    try discriminate H; repeat split.
Qed.

End StrFacts.

(* ================================================================== *)
(** ** value_converter.py: reading back a formatted amount *)

Module RoundTrip.
Import Str StrFacts BrazilianFormat ValueConverter Spec.

Lemma code_digit k : (k < 10)%N -> code (digit k) = (48 + k)%N.
Proof.
  intros H. unfold code, digit. apply N_ascii_embedding. lia.
Qed.

Lemma is_digit_digit k : (k < 10)%N -> is_digit (digit k) = true.
Proof.
  intros H. unfold is_digit, in_range. rewrite (code_digit k H).
  apply andb_true_iff. split; apply N.leb_le; lia.
Qed.

Lemma digits_value_app acc a b :
  Num.digits_value acc (a ++ b) = Num.digits_value (Num.digits_value acc a) b.
Proof.
  revert acc. induction a as [|x a IH]; intros acc; cbn; [reflexivity |].
  apply IH.
Qed.

Lemma digits_only_pad2 u : (u < 100)%N -> digits_only (pad2 u).
Proof.
  intros H. unfold digits_only, pad2. cbn.
  rewrite !is_digit_digit; [reflexivity | |].
  - apply N.mod_lt. lia.
  - apply N.Div0.div_lt_upper_bound. lia.
Qed.

Lemma digits_value_pad2 acc u :
  (u < 100)%N -> Num.digits_value acc (pad2 u) = 100 * acc + Z.of_N u.
Proof.
  intros H. unfold pad2. cbn [Num.digits_value].
  rewrite !code_digit.
  - pose proof (N.Div0.div_mod u 10). lia.
  - apply N.mod_lt. lia.
  - apply N.Div0.div_lt_upper_bound. lia.
Qed.

Lemma digits_only_pad3 u : (u < 1000)%N -> digits_only (pad3 u).
Proof.
  intros H. unfold digits_only, pad3. cbn [forallb].
  rewrite is_digit_digit.
  - apply digits_only_pad2. apply N.mod_lt. lia.
  - apply N.Div0.div_lt_upper_bound. lia.
Qed.

Lemma digits_value_pad3 acc u :
  (u < 1000)%N -> Num.digits_value acc (pad3 u) = 1000 * acc + Z.of_N u.
Proof.
  intros H. unfold pad3. cbn [Num.digits_value].
  rewrite digits_value_pad2 by (apply N.mod_lt; lia).
  rewrite code_digit by (apply N.Div0.div_lt_upper_bound; lia).
  pose proof (N.Div0.div_mod u 100). lia.
Qed.

Lemma small_cases u :
  (u < 1000)%N ->
  small u = String (digit u) "" /\ (u < 10)%N
  \/ small u = pad2 u /\ (u < 100)%N
  \/ small u = pad3 u.
Proof.
  intros H. unfold small.
  destruct (N.ltb_spec u 10); [left; auto |].
  destruct (N.ltb_spec u 100); [right; left; auto | right; right; auto].
Qed.

Lemma digits_only_small u : (u < 1000)%N -> digits_only (small u).
Proof.
  intros H. destruct (small_cases u H) as [[-> H1] | [[-> H1] | ->]].
  - unfold digits_only. cbn. now rewrite is_digit_digit.
  - now apply digits_only_pad2.
  - now apply digits_only_pad3.
Qed.

Lemma digits_value_small u :
  (u < 1000)%N -> Num.digits_value 0 (small u) = Z.of_N u.
Proof.
  intros H. destruct (small_cases u H) as [[-> H1] | [[-> H1] | ->]].
  - cbn [Num.digits_value]. rewrite code_digit by exact H1. lia.
  - rewrite digits_value_pad2 by exact H1. lia.
  - rewrite digits_value_pad3 by exact H. lia.
Qed.

(** A string of digits has a first character. *)
Lemma small_head u : exists c t, small u = String c t.
Proof.
  unfold small, pad3, pad2.
  destruct (u <? 10)%N; [| destruct (u <? 100)%N]; eauto.
Qed.

Lemma digits_no_dot s :
  digits_only s -> forallb (fun c => negb (c =? ".")%char) s = true.
Proof.
  apply forallb_impl. intros c Hc.
  destruct (digit_classes c Hc) as (_ & -> & _). reflexivity.
Qed.

Lemma digits_no_comma s :
  digits_only s -> forallb (fun c => negb (c =? ",")%char) s = true.
Proof.
  apply forallb_impl. intros c Hc.
  destruct (digit_classes c Hc) as (_ & _ & -> & _). reflexivity.
Qed.

Lemma digits_no_underscore s :
  digits_only s -> forallb (fun c => negb (c =? "_")%char) s = true.
Proof.
  apply forallb_impl. intros c Hc.
  destruct (digit_classes c Hc) as (_ & _ & _ & -> & _). reflexivity.
Qed.

Lemma digits_numeric s :
  digits_only s -> forallb numeric_char s = true.
Proof.
  apply forallb_impl. intros c Hc. unfold numeric_char. now rewrite Hc.
Qed.

Lemma bounded_step fuel u : bounded (S fuel) u -> bounded fuel (u / 1000)%N.
Proof.
  unfold bounded. intros H. apply N.Div0.div_lt_upper_bound.
  rewrite Nat2N.inj_succ, N.pow_succ_r' in H. lia.
Qed.

Lemma bounded_fuel_for u : bounded (fuel_for u) u.
Proof.
  unfold bounded, fuel_for. rewrite N2Nat.id.
  pose proof (N.size_gt u) as H1.
  assert (2 ^ N.size u <= 1000 ^ N.size u)%N as H2
    by (apply N.pow_le_mono_l; lia).
  assert (0 < 1000 ^ N.size u)%N by (apply N.neq_0_lt_0, N.pow_nonzero; lia).
  lia.
Qed.

Lemma plain_facts fuel :
  forall u, bounded fuel u ->
    digits_only (plain fuel u)
    /\ Num.digits_value 0 (plain fuel u) = Z.of_N u
    /\ replace "." "" (groups fuel u) = plain fuel u
    /\ exists c t, groups fuel u = String c t /\ is_digit c = true.
Proof.
  assert (Hsmall : forall u, (u < 1000)%N ->
    digits_only (small u)
    /\ Num.digits_value 0 (small u) = Z.of_N u
    /\ replace "." "" (small u) = small u
    /\ exists c t, small u = String c t /\ is_digit c = true).
  { intros u Hu. pose proof (digits_only_small u Hu) as Hd.
    repeat split; [exact Hd | now apply digits_value_small | |].
    - now apply replace_absent, digits_no_dot.
    - destruct (small_head u) as (c & t & E). exists c, t. split; [exact E |].
      unfold digits_only in Hd. rewrite E in Hd. cbn in Hd.
      now apply andb_true_iff in Hd. }
  induction fuel as [|fuel IH]; intros u Hu.
  - cbn [plain groups]. apply Hsmall.
    unfold bounded in Hu. cbn in Hu. lia.
  - cbn [plain groups]. destruct (N.ltb_spec u 1000) as [Hlt | Hge].
    + now apply Hsmall.
    + destruct (IH (u / 1000)%N (bounded_step _ _ Hu))
        as (Hd & Hv & Hr & c & t & Hg & Hc).
      assert (Hm : (u mod 1000 < 1000)%N) by (apply N.mod_lt; lia).
      repeat split.
      * unfold digits_only. rewrite forallb_app.
        apply andb_true_iff. split; [exact Hd | now apply digits_only_pad3].
      * rewrite digits_value_app, Hv, digits_value_pad3 by exact Hm.
        pose proof (N.Div0.div_mod u 1000). lia.
      * rewrite !replace_app, Hr. cbn [replace].
        change (("." =? ".")%char) with true. cbn [append].
        f_equal. now apply replace_absent, digits_no_dot, digits_only_pad3.
      * exists c, (t ++ "." ++ pad3 (u mod 1000)%N). rewrite Hg. now split.
Qed.

Lemma digits_group_chars s : digits_only s -> forallb group_char s = true.
Proof.
  apply forallb_impl. intros c Hc. unfold group_char. now rewrite Hc.
Qed.

Lemma groups_chars fuel :
  forall u, bounded fuel u -> forallb group_char (groups fuel u) = true.
Proof.
  induction fuel as [|fuel IH]; intros u Hu; cbn [groups].
  - apply digits_group_chars, digits_only_small.
    unfold bounded in Hu. cbn in Hu. lia.
  - destruct (N.ltb_spec u 1000) as [Hlt | Hge].
    + now apply digits_group_chars, digits_only_small.
    + rewrite !forallb_app, (IH _ (bounded_step _ _ Hu)).
      change (forallb group_char ".") with true. cbn [andb].
      apply digits_group_chars, digits_only_pad3, N.mod_lt. lia.
Qed.

(** *** The string operations on text without blanks or underscores *)

Lemma rstrip_by_none blank s :
  forallb (fun c => negb (blank c)) s = true -> rstrip_by blank s = s.
Proof.
  induction s as [|x s IH]; cbn; [reflexivity |].
  intros H. apply andb_true_iff in H. destruct H as [Hx Hs].
  apply negb_true_iff in Hx. now rewrite Hx, IH.
Qed.

Lemma strip_by_none blank s :
  forallb (fun c => negb (blank c)) s = true -> strip_by blank s = s.
Proof.
  intros H. unfold strip_by.
  replace (lstrip_by blank s) with s; [now apply rstrip_by_none |].
  destruct s as [|x s]; cbn in *; [reflexivity |].
  apply andb_true_iff in H. destruct H as [Hx _].
  apply negb_true_iff in Hx. now rewrite Hx.
Qed.

Lemma strip_not_blank s : forallb not_blank s = true -> strip s = s.
Proof. apply strip_by_none. Qed.

Lemma strip_underscores_absent s :
  forall prev, forallb (fun c => negb (c =? "_")%char) s = true ->
               Num.strip_underscores prev s = Some s.
Proof.
  induction s as [|x s IH]; intros prev; cbn; [reflexivity |].
  intros H. apply andb_true_iff in H. destruct H as [Hx Hs].
  apply negb_true_iff in Hx. now rewrite Hx, IH.
Qed.

Lemma span_digits_app ds rest :
  digits_only ds ->
  (forall c r, rest = String c r -> is_digit c = false) ->
  Num.span_digits (ds ++ rest) = (ds, rest).
Proof.
  intros Hd Hrest. induction ds as [|x ds IH]; cbn [append Num.span_digits].
  - destruct rest as [|c r]; [reflexivity |]. cbn [Num.span_digits].
    now rewrite (Hrest c r eq_refl).
  - unfold digits_only in Hd. cbn [forallb] in Hd.
    apply andb_true_iff in Hd. destruct Hd as [Hx Hd].
    now rewrite Hx, IH.
Qed.

Lemma split_sign_digit c t :
  is_digit c = true -> Num.split_sign (String c t) = (false, String c t).
Proof.
  destruct c as [[] [] [] [] [] [] [] []]; cbv; intros H;
    try discriminate H; reflexivity.
Qed.

Lemma group_char_classes c :
  group_char c = true ->
  not_blank c = true /\ (c =? "_")%char = false /\ (c =? ",")%char = false
  /\ numeric_char c = true /\ Num.c_space c = false.
Proof.
  destruct c as [[] [] [] [] [] [] [] []]; cbv; intros H;
    try discriminate H; repeat split.
Qed.

(** [float] of a plain decimal numeral. *)
Lemma float_of_str_decimal ip fp :
  digits_only ip -> digits_only fp -> ip <> "" ->
  Num.float_of_str (ip ++ "." ++ fp)
  = Some (Num.float_of_decimal false (Num.digits_value 0 (ip ++ fp))
            (0 - Z.of_nat (String.length fp))).
Proof.
  intros Hi Hf Hne.
  assert (Hg : forallb group_char (ip ++ "." ++ fp) = true).
  { rewrite !forallb_app, (digits_group_chars ip Hi), (digits_group_chars fp Hf).
    reflexivity. }
  unfold Num.float_of_str.
  rewrite strip_by_none
    by (revert Hg; apply forallb_impl; intros c Hc;
        destruct (group_char_classes c Hc) as (_ & _ & _ & _ & ->); reflexivity).
  rewrite strip_underscores_absent
    by (revert Hg; apply forallb_impl; intros c Hc;
        destruct (group_char_classes c Hc) as (_ & -> & _); reflexivity).
  destruct ip as [|c ip]; [congruence |].
  assert (Hc : is_digit c = true).
  { unfold digits_only in Hi. cbn in Hi. now apply andb_true_iff in Hi. }
  cbn [append]. rewrite (split_sign_digit c _ Hc).
  destruct (digit_classes c Hc) as (_ & _ & _ & _ & _ & _ & Hl & Hci & Hcn).
  cbn [lower map String.eqb]. rewrite Hl, Hci, Hcn. cbn [orb].
  change (String c (ip ++ String "." fp)) with (String c ip ++ String "." fp).
  rewrite (span_digits_app (String c ip) (String "." fp) Hi)
    by (intros c' r' E; injection E as <- _; reflexivity).
  replace (Num.span_digits fp) with (fp, "").
  2:{ symmetry. rewrite <- (append_nil_r fp) at 1.
      apply span_digits_app; [assumption | discriminate]. }
  cbn [is_empty andb Num.parse_exponent]. reflexivity.
Qed.

Lemma pad2_length u : String.length (pad2 u) = 2%nat.
Proof. reflexivity. Qed.

Lemma cents_split cents :
  100 * Z.of_N (cents / 100) + Z.of_N (cents mod 100) = Z.of_N cents.
Proof. pose proof (N.Div0.div_mod cents 100). lia. Qed.

(** The cleaning steps of [parse_str] turn a formatted amount, indicator
    removed, into the plain numeral. *)
Lemma cleaning_format_brl cents :
  let s := format_brl cents in
  forallb not_blank s = true
  /\ Str.filter numeric_char (replace "," "." (replace "." "" s))
     = format_plain cents
  /\ exists c t, s = String c t.
Proof.
  cbv zeta. unfold format_brl, format_plain.
  set (U := (cents / 100)%N). set (F := (cents mod 100)%N).
  assert (HF : (F < 100)%N) by (apply N.mod_lt; lia).
  destruct (plain_facts (fuel_for U) U (bounded_fuel_for U))
    as (Hd & _ & Hr & c & t & Hg & _).
  pose proof (groups_chars (fuel_for U) U (bounded_fuel_for U)) as Hgc.
  pose proof (digits_only_pad2 F HF) as Hp.
  split; [| split].
  - rewrite !forallb_app. apply andb_true_iff. split.
    + revert Hgc. apply forallb_impl. intros x Hx.
      now destruct (group_char_classes x Hx).
    + apply andb_true_iff. split; [reflexivity |].
      revert Hp. apply forallb_impl. intros x Hx. unfold not_blank.
      now destruct (digit_classes x Hx) as (-> & _).
  - repeat rewrite replace_app. rewrite Hr.
    change (replace "." "" ",") with ",".
    change (replace "," "." ",") with ".".
    rewrite (replace_absent "." "" (pad2 F)) by now apply digits_no_dot.
    rewrite (replace_absent "," "." (plain _ U)) by now apply digits_no_comma.
    rewrite (replace_absent "," "." (pad2 F)) by now apply digits_no_comma.
    apply filter_all. rewrite !forallb_app.
    rewrite (digits_numeric _ Hd), (digits_numeric _ Hp). reflexivity.
  - exists c, (t ++ "," ++ pad2 F). now rewrite Hg.
Qed.

Lemma float_of_str_format_plain cents :
  Num.float_of_str (format_plain cents)
  = Some (Num.float_of_decimal false (Z.of_N cents) (-2)).
Proof.
  unfold format_plain.
  set (U := (cents / 100)%N). set (F := (cents mod 100)%N).
  assert (HF : (F < 100)%N) by (apply N.mod_lt; lia).
  destruct (plain_facts (fuel_for U) U (bounded_fuel_for U))
    as (Hd & Hv & _ & c & t & Hg & _).
  rewrite float_of_str_decimal.
  - rewrite digits_value_app, Hv, digits_value_pad2 by exact HF.
    subst U F. now rewrite cents_split.
  - exact Hd.
  - now apply digits_only_pad2.
  - intros E. rewrite E in Hv.
    destruct (fuel_for U); cbn [plain] in E.
    + destruct (small_head U) as (? & ? & E'). congruence.
    + destruct (U <? 1000)%N.
      * destruct (small_head U) as (? & ? & E'). congruence.
      * destruct (plain n (U / 1000)); discriminate E.
Qed.

Lemma parse_str_formatted cents ci :
  ci = "D"%char \/ ci = "C"%char ->
  parse_str (format_brl cents ++ String ci "")
  = (Num.float_of_decimal false (Z.of_N cents) (-2), String ci "").
Proof.
  intros Hci.
  destruct (cleaning_format_brl cents) as (Hnb & Hclean & c & t & Hs).
  assert (Hci_nb : not_blank ci = true) by (destruct Hci; subst; reflexivity).
  unfold parse_str.
  rewrite strip_not_blank
    by (rewrite forallb_app, Hnb; cbn; now rewrite Hci_nb).
  replace (is_empty (format_brl cents ++ String ci "")) with false
    by (now rewrite Hs).
  unfold split_indicator, clean_number.
  unfold upper. rewrite map_app. cbn [map]. rewrite !endswith_snoc.
  rewrite drop_last_snoc, (strip_not_blank _ Hnb).
  destruct Hci; subst ci; cbn [upper_char]; cbv beta iota;
    change (upper_char "D") with "D"%char;
    change (upper_char "C") with "C"%char;
    change (("D" =? "D")%char) with true;
    change (("C" =? "D")%char) with false;
    change (("C" =? "C")%char) with true; cbv beta iota;
    rewrite Hclean, float_of_str_format_plain;
    (replace (is_empty (format_plain cents)) with false; [reflexivity |]);
    unfold format_plain;
    destruct (plain _ _); reflexivity.
Qed.

Lemma float_of_cents_nearest cents :
  Spec.nearest_to (Num.float_of_decimal false (Z.of_N cents) (-2))
    (Z.of_N cents) 100.
Proof.
  unfold Num.float_of_decimal. change (-2 >=? 0) with false. cbv iota.
  change (10 ^ (- -2)) with 100.
  destruct cents as [|p].
  - unfold Spec.nearest_to. rewrite RoundingFacts.Prim2SF_round_ratio.
    vm_compute. discriminate.
  - apply RoundingFacts.round_ratio_nearest; lia.
Qed.

(** C7: an amount m of [cents] hundredths, written with Brazilian
    separators and followed by the letter D or C, is read back by
    [parse_brazilian_value] as that letter and a float v within floating
    point tolerance of m: v is m rounded to nearest, that is [|v - m|] is
    at most half a unit in the last place of v (v is infinite only for m
    beyond the largest float); v is what [float] gives for the plain
    numeral of m.  In particular "18.623.655,70D" is read as
    (18623655.70, "D"). *)
Theorem parse_brazilian_value_round_trip (cents : N) (i : string) :
  i = "D" \/ i = "C" ->
  (exists v,
      parse_brazilian_value (PStr (format_brl cents ++ i)) = Ok (v, i)
      /\ Spec.nearest_to v (Z.of_N cents) 100
      /\ Num.float_of_str (format_plain cents) = Some v)
  /\ parse_brazilian_value (PStr "18.623.655,70D")
     = Ok (0x1.1c2ca7b333333p+24%float, "D").
Proof.
  intros Hi. split.
  - exists (Num.float_of_decimal false (Z.of_N cents) (-2)). split; [| split].
    + cbn [parse_brazilian_value]. f_equal.
      destruct Hi; subst i; apply parse_str_formatted; auto.
    + apply float_of_cents_nearest.
    + apply float_of_str_format_plain.
  - vm_compute. reflexivity.
Qed.

Lemma parse_brazilian_value_round_trip_witness :
  (exists v,
      parse_brazilian_value (PStr (format_brl 123456789 ++ "C")) = Ok (v, "C")
      /\ Spec.nearest_to v (Z.of_N 123456789) 100
      /\ Num.float_of_str (format_plain 123456789) = Some v)
  /\ parse_brazilian_value (PStr "18.623.655,70D")
     = Ok (0x1.1c2ca7b333333p+24%float, "D").
Proof.
  apply (parse_brazilian_value_round_trip 123456789 "C").
  right. reflexivity.
Defined.

End RoundTrip.

(* ================================================================== *)
(** ** value_converter.py: a parsed amount is a number *)

Module ParsedAmount.
Import Str StrFacts ValueConverter.

Lemma forallb_lstrip_by p blank s :
  forallb p s = true -> forallb p (lstrip_by blank s) = true.
Proof.
  induction s as [|x s IH]; cbn; [reflexivity |].
  intros H. destruct (blank x); [| exact H].
  apply andb_true_iff in H. now apply IH.
Qed.

Lemma forallb_rstrip_by p blank s :
  forallb p s = true -> forallb p (rstrip_by blank s) = true.
Proof.
  induction s as [|x s IH]; cbn; [reflexivity |].
  intros H. apply andb_true_iff in H. destruct H as [Hx Hs].
  destruct (blank x && is_empty (rstrip_by blank s)); [reflexivity |].
  cbn. now rewrite Hx, IH.
Qed.

Lemma forallb_strip_by p blank s :
  forallb p s = true -> forallb p (strip_by blank s) = true.
Proof. intros H. now apply forallb_rstrip_by, forallb_lstrip_by. Qed.

Lemma forallb_filter p s : forallb p (filter p s) = true.
Proof.
  induction s as [|x s IH]; cbn; [reflexivity |].
  destruct (p x) eqn:E; [cbn; now rewrite E | exact IH].
Qed.

Lemma forallb_strip_underscores p s :
  forall prev s1, Num.strip_underscores prev s = Some s1 ->
                  forallb p s = true -> forallb p s1 = true.
Proof.
  induction s as [|x s IH]; intros prev s1; cbn.
  - now intros [= <-].
  - intros H Hp. apply andb_true_iff in Hp. destruct Hp as [Hx Hs].
    destruct (Ascii.eqb x "_").
    + destruct s as [|d s']; [discriminate |].
      destruct (prev && is_digit d); [| discriminate].
      now apply (IH false).
    + destruct (Num.strip_underscores (is_digit x) s) as [s2|] eqn:E;
        [| discriminate].
      injection H as <-. cbn. now rewrite Hx, (IH _ _ E).
Qed.

Lemma forallb_split_sign p s :
  forallb p s = true -> forallb p (snd (Num.split_sign s)) = true.
Proof.
  destruct s as [|c t]; [reflexivity |].
  intros H. assert (Ht : forallb p t = true)
    by (cbn in H; now apply andb_true_iff in H).
  destruct c as [[] [] [] [] [] [] [] []]; cbn [Num.split_sign snd];
    assumption.
Qed.

Lemma numeric_not_nan_word s :
  forallb numeric_char s = true -> (lower s =? "nan")%string = false.
Proof.
  destruct s as [|c t]; [reflexivity |]. cbn [forallb lower map].
  intros H. apply andb_true_iff in H. destruct H as [Hc _].
  cbn [String.eqb].
  replace (Ascii.eqb (lower_char c) "n") with false; [reflexivity |].
  destruct c as [[] [] [] [] [] [] [] []]; try reflexivity; discriminate Hc.
Qed.

(** [float] of a string of digits, dots and minus signs is never NaN. *)
Lemma float_of_str_numeric s v :
  forallb numeric_char s = true ->
  Num.float_of_str s = Some v -> PrimFloat.is_nan v = false.
Proof.
  intros Hs. unfold Num.float_of_str.
  destruct (Num.strip_underscores false (strip_by Num.c_space s)) as [s1|] eqn:E1;
    [| discriminate].
  pose proof (forallb_strip_underscores _ _ _ _ E1 (forallb_strip_by _ _ _ Hs)) as H1.
  pose proof (forallb_split_sign _ _ H1) as H2.
  destruct (Num.split_sign s1) as [neg body]. cbn [snd] in H2.
  rewrite (numeric_not_nan_word body H2).
  destruct ((lower body =? "inf")%string || (lower body =? "infinity")%string).
  - intros [= <-]. now destruct neg.
  - destruct (Num.span_digits body) as [ip r1].
    destruct (match r1 with
              | String "." t => Num.span_digits t
              | _ => (EmptyString, r1)
              end) as [fp r2].
    destruct (is_empty ip && is_empty fp); [discriminate |].
    destruct (Num.parse_exponent r2); [| discriminate].
    intros [= <-]. apply RoundingFacts.float_of_decimal_not_nan.
Qed.

Lemma parse_str_not_nan s : PrimFloat.is_nan (fst (parse_str s)) = false.
Proof.
  unfold parse_str.
  destruct (is_empty (strip s)); [reflexivity |].
  destruct (split_indicator (strip s)) as [indicator cleaned].
  unfold clean_number.
  destruct (is_empty _); [reflexivity |].
  destruct (Num.float_of_str _) as [v|] eqn:E; [| reflexivity].
  cbn [fst]. apply (float_of_str_numeric _ v (forallb_filter _ _) E).
Qed.

(** A magnitude stored as [abs(value)] is at least zero. *)
Lemma abs_parse_str_nonneg s :
  PrimFloat.leb f0 (PrimFloat.abs (fst (parse_str s))) = true.
Proof. apply abs_nonneg, parse_str_not_nan. Qed.

End ParsedAmount.

(* ================================================================== *)
(** ** balancete_parser.py *)

Module BalanceteParserProps.
Import Str StrFacts ValueConverter BalanceteParser Spec.

Lemma MACRO_neq_ULTIMO_NIVEL : MACRO <> ULTIMO_NIVEL.
Proof. discriminate. Qed.

(** *** Step 4: the type of each record *)

Lemma assign_tipo_nth records :
  forall i,
    nth_error (assign_tipo records) i
    = option_map (fun rec => set_tipo rec (tipo_after rec (nth_error records (S i))))
        (nth_error records i).
Proof.
  induction records as [|rec rest IH]; intros i.
  - now destruct i.
  - destruct i as [|i]; cbn [assign_tipo nth_error option_map].
    + now destruct rest.
    + apply IH.
Qed.

Lemma assign_tipo_map_codigo records :
  List.map codigo_conta (assign_tipo records) = List.map codigo_conta records.
Proof.
  induction records as [|rec rest IH]; cbn; [reflexivity | now rewrite IH].
Qed.

Lemma assign_tipo_In records rec' :
  In rec' (assign_tipo records) ->
  exists rec t, In rec records /\ rec' = set_tipo rec t
                /\ (t = MACRO \/ t = ULTIMO_NIVEL).
Proof.
  induction records as [|rec rest IH]; cbn; [contradiction |].
  intros [<- | H].
  - eexists rec, _. split; [now left | split; [reflexivity |]].
    destruct rest as [|next ?]; [now right |].
    destruct (nivel next >? nivel rec); [now left | now right].
  - destruct (IH H) as (r & t & Hin & E & Ht). exists r, t. auto.
Qed.

Lemma rows_DataFrame_of_records records :
  rows (DataFrame_of_records records) = records.
Proof. now destruct records. Qed.

Section WithBuiltins.

Variable float_repr : float -> string.
Variable extract_header : ExcelFile -> result Header.

Notation "'parse_row'" := (BalanceteParser.parse_row float_repr).
Notation "'parse_records'" := (BalanceteParser.parse_records float_repr).
Notation "'parse_balancete'" :=
  (BalanceteParser.parse_balancete float_repr extract_header).
Notation "'_read_data_rows'" := (BalanceteParser._read_data_rows float_repr).
Notation "'amount_str'" := (BalanceteParser.amount_str float_repr).
Notation "'parse_red'" := (BalanceteParser.parse_red float_repr).
Notation "'row_code'" := (Spec.row_code float_repr).
Notation "'retained'" := (Spec.retained float_repr).
Notation "'retained_codes'" := (Spec.retained_codes float_repr).
Notation "'red_converts'" := (Spec.red_converts float_repr).
Notation "'bad_row'" := (Spec.bad_row float_repr).

(** *** Step 3: one row *)

(** What a row that yields a record looks like. *)
Lemma parse_row_Some per row rec :
  parse_row per row = Ok (Some rec) ->
  retained row = true
  /\ codigo_conta rec = row_code row
  /\ nivel rec = _determine_account_level (row_code row)
  /\ _get_account_group (row_code row) = Ok (grupo rec, grupo_num rec)
  /\ debitos rec = PrimFloat.abs (fst (parse_str (amount_str row 4)))
  /\ creditos rec = PrimFloat.abs (fst (parse_str (amount_str row 5)))
  /\ apply_sign (fst (parse_str (amount_str row 6)))
       (snd (parse_str (amount_str row 6))) (grupo_num rec)
     = Ok (saldo_atual rec)
  /\ indicador_dc rec = snd (parse_str (amount_str row 6))
  /\ periodo rec = per.
Proof.
  unfold BalanceteParser.parse_row, Spec.retained, Spec.row_code.
  destruct row as [|c0 rest]; [discriminate |].
  destruct (is_empty (codigo_of float_repr c0)) eqn:Hc; [discriminate |].
  unfold bind.
  destruct (BalanceteParser.parse_red _ _) as [r|]; [| discriminate].
  destruct (_get_account_group _) as [[g gn]|]; [| discriminate].
  cbn [parse_brazilian_value].
  destruct (parse_str (amount_str (c0 :: rest) 3)) as [v3 i3].
  destruct (parse_str (amount_str (c0 :: rest) 4)) as [v4 i4].
  destruct (parse_str (amount_str (c0 :: rest) 5)) as [v5 i5].
  destruct (parse_str (amount_str (c0 :: rest) 6)) as [v6 i6].
  destruct (apply_sign v3 i3 gn) as [sa|]; [| discriminate].
  destruct (apply_sign v6 i6 gn) as [st|] eqn:Hst; [| discriminate].
  intros H. injection H as <-. cbn. rewrite Hst. repeat split.
Qed.

Lemma parse_row_None per row :
  parse_row per row = Ok None -> retained row = false.
Proof.
  unfold BalanceteParser.parse_row, Spec.retained, Spec.row_code.
  destruct row as [|c0 rest]; [discriminate |].
  destruct (is_empty (codigo_of float_repr c0)); [reflexivity |].
  unfold bind.
  destruct (BalanceteParser.parse_red _ _) as [r|]; [| discriminate].
  destruct (_get_account_group _) as [[g gn]|]; [| discriminate].
  cbn [parse_brazilian_value].
  destruct (parse_str (amount_str (c0 :: rest) 3)) as [v3 i3].
  destruct (parse_str (amount_str (c0 :: rest) 4)) as [v4 i4].
  destruct (parse_str (amount_str (c0 :: rest) 5)) as [v5 i5].
  destruct (parse_str (amount_str (c0 :: rest) 6)) as [v6 i6].
  destruct (apply_sign v3 i3 gn) as [sa|]; [| discriminate].
  destruct (apply_sign v6 i6 gn) as [st|]; discriminate.
Qed.

(** A row with a first cell and an empty code is skipped. *)
Lemma parse_row_skipped per c0 rest :
  retained (c0 :: rest) = false -> parse_row per (c0 :: rest) = Ok None.
Proof.
  unfold BalanceteParser.parse_row, Spec.retained, Spec.row_code.
  intros H. apply negb_false_iff in H. now rewrite H.
Qed.

(** *** Step 3: all rows, in file order *)

Lemma parse_records_Ok per raw_rows :
  forall records,
    parse_records per raw_rows = Ok records ->
    List.map codigo_conta records = retained_codes raw_rows
    /\ Forall (fun rec => exists row, In row raw_rows
                                     /\ parse_row per row = Ok (Some rec))
         records.
Proof.
  induction raw_rows as [|row rest IH]; intros records; cbn [BalanceteParser.parse_records].
  - intros [= <-]. split; [reflexivity | constructor].
  - unfold bind.
    destruct (parse_row per row) as [r|] eqn:Hrow; [| discriminate].
    destruct (parse_records per rest) as [recs|]; [| discriminate].
    destruct (IH recs eq_refl) as [Hc Hf].
    assert (Hf' : Forall (fun rec => exists row0, In row0 (row :: rest)
                            /\ parse_row per row0 = Ok (Some rec)) recs).
    { revert Hf. apply Forall_impl. intros rec (row0 & Hin & E).
      exists row0. split; [now right | exact E]. }
    unfold Spec.retained_codes in *. cbn [List.filter].
    destruct r as [rec|]; intros [= <-].
    + destruct (parse_row_Some per row rec Hrow) as (Hret & Hcode & _).
      rewrite Hret. cbn [List.map]. rewrite Hcode, Hc. split; [reflexivity |].
      constructor; [| exact Hf'].
      exists row. split; [now left | exact Hrow].
    + rewrite (parse_row_None per row Hrow). now split.
Qed.

(** *** The whole parse *)

Lemma parse_balancete_Ok f header df :
  parse_balancete f = Ok (header, df) ->
  extract_header f = Ok header
  /\ exists raw_rows records,
       _read_data_rows f = Ok raw_rows
       /\ raw_rows <> []
       /\ parse_records (mes_referencia header) raw_rows = Ok records
       /\ df = DataFrame_of_records (assign_tipo records).
Proof.
  unfold BalanceteParser.parse_balancete, bind.
  destruct (extract_header f) as [h|]; [| discriminate].
  destruct (_read_data_rows f) as [raw|]; [| discriminate].
  destruct raw as [|row rest]; [discriminate |].
  destruct (parse_records (mes_referencia h) (row :: rest)) as [recs|] eqn:E;
    [| discriminate].
  intros [= <- <-]. split; [reflexivity |].
  exists (row :: rest), recs. repeat split; [discriminate | exact E].
Qed.

(** Every row of a ledger comes from a raw row, with its type set. *)
Lemma parse_balancete_row f header df rec :
  parse_balancete f = Ok (header, df) ->
  In rec (rows df) ->
  exists row rec0 t,
    parse_row (mes_referencia header) row = Ok (Some rec0)
    /\ rec = set_tipo rec0 t
    /\ (t = MACRO \/ t = ULTIMO_NIVEL).
Proof.
  intros H Hin.
  destruct (parse_balancete_Ok _ _ _ H) as (_ & raw & recs & _ & _ & Hp & ->).
  rewrite rows_DataFrame_of_records in Hin.
  destruct (assign_tipo_In _ _ Hin) as (rec0 & t & Hin0 & -> & Ht).
  destruct (parse_records_Ok _ _ _ Hp) as [_ Hf].
  rewrite Forall_forall in Hf. destruct (Hf rec0 Hin0) as (row & _ & Hrow).
  now exists row, rec0, t.
Qed.

(** *** Levels and groups *)

Lemma split_length sep s : (1 <= List.length (split sep s))%nat.
Proof.
  induction s as [|c s IH]; cbn; [lia |].
  destruct (Ascii.eqb c sep); cbn; [lia |].
  destruct (split sep s); cbn in *; lia.
Qed.

Lemma determine_account_level_segments codigo :
  codigo <> "" ->
  _determine_account_level codigo = Z.of_nat (segments codigo)
  /\ 1 <= _determine_account_level codigo.
Proof.
  intros H. unfold _determine_account_level, segments.
  destruct codigo; [congruence |]. cbn [is_empty].
  pose proof (split_length "." (String a codigo)). lia.
Qed.

Lemma dict_get_GROUP_MAP c :
  match dict_get _GROUP_MAP c with
  | Some g =>
      (c = "1"%char /\ g = ("ATIVO", 1))
      \/ (c = "2"%char /\ g = ("PASSIVO", 2))
      \/ (c = "3"%char /\ g = ("RECEITA", 3))
      \/ ((c = "4"%char \/ c = "5"%char) /\ g = ("DESPESA", 4))
  | None => ~ In c ["1"; "2"; "3"; "4"; "5"]%char
  end.
Proof.
  unfold dict_get, _GROUP_MAP.
  destruct (Ascii.eqb_spec "1" c) as [<- | H1]; [tauto |].
  destruct (Ascii.eqb_spec "2" c) as [<- | H2]; [tauto |].
  destruct (Ascii.eqb_spec "3" c) as [<- | H3]; [tauto |].
  destruct (Ascii.eqb_spec "4" c) as [<- | H4]; [tauto |].
  destruct (Ascii.eqb_spec "5" c) as [<- | H5]; [tauto |].
  cbn. intuition congruence.
Qed.

Lemma get_account_group_Ok codigo g gn :
  _get_account_group codigo = Ok (g, gn) ->
  exists c t, codigo = String c t
    /\ ((c = "1"%char /\ g = "ATIVO" /\ gn = 1)
        \/ (c = "2"%char /\ g = "PASSIVO" /\ gn = 2)
        \/ (c = "3"%char /\ g = "RECEITA" /\ gn = 3)
        \/ ((c = "4"%char \/ c = "5"%char) /\ g = "DESPESA" /\ gn = 4)).
Proof.
  unfold _get_account_group. destruct codigo as [|c t]; [discriminate |].
  pose proof (dict_get_GROUP_MAP c) as H.
  destruct (dict_get _GROUP_MAP c) as [g0|]; [| discriminate].
  intros [= ->]. exists c, t. split; [reflexivity |].
  destruct H as [[-> [= <- <-]] | [[-> [= <- <-]] | [[-> [= <- <-]] | [Hc [= <- <-]]]]];
    tauto.
Qed.

Lemma get_account_group_unmapped codigo :
  unmapped_code codigo ->
  exists c, _get_account_group codigo
            = Raise (ValueError (UnknownAccountGroup codigo c)).
Proof.
  intros (c & t & -> & Hc). exists c. unfold _get_account_group.
  pose proof (dict_get_GROUP_MAP c) as H.
  destruct (dict_get _GROUP_MAP c) as [g0|]; [| reflexivity].
  exfalso. apply Hc. cbn.
  destruct H as [[-> _] | [[-> _] | [[-> _] | [[-> | ->] _]]]]; tauto.
Qed.

(** C2: in the ledger returned by the parse, a row is "Macro" exactly
    when the row after it, in the order of the file, has a greater
    level; every other row, and always the last one, is "Último
    Nível"; the rows are the retained rows of the file in their
    order. *)
Theorem parse_balancete_node_type f header df i rec :
  parse_balancete f = Ok (header, df) ->
  nth_error (rows df) i = Some rec ->
  (tipo rec = MACRO <->
     exists next, nth_error (rows df) (S i) = Some next
                  /\ nivel rec < nivel next)
  /\ (tipo rec <> MACRO -> tipo rec = ULTIMO_NIVEL)
  /\ (nth_error (rows df) (S i) = None -> tipo rec = ULTIMO_NIVEL)
  /\ exists raw_rows,
       _read_data_rows f = Ok raw_rows
       /\ List.map codigo_conta (rows df) = retained_codes raw_rows.
Proof.
  intros H Hi.
  destruct (parse_balancete_Ok _ _ _ H) as (_ & raw & recs & Hraw & _ & Hp & ->).
  rewrite rows_DataFrame_of_records in *.
  assert (Hcodes : exists raw_rows,
             _read_data_rows f = Ok raw_rows
             /\ List.map codigo_conta (assign_tipo recs) = retained_codes raw_rows).
  { exists raw. split; [exact Hraw |].
    rewrite assign_tipo_map_codigo. now apply parse_records_Ok in Hp. }
  rewrite assign_tipo_nth in Hi. rewrite assign_tipo_nth.
  remember (nth_error recs (S i)) as nx eqn:Enx. clear Enx.
  destruct (nth_error recs i) as [rec0|]; [| discriminate].
  injection Hi as <-.
  destruct nx as [next0|]; cbn [option_map tipo_after set_tipo tipo nivel].
  - destruct (Z.gtb_spec (nivel next0) (nivel rec0)) as [Hlt | Hge].
    + split; [| split; [| split]].
      * split; [intros _ | reflexivity]. eexists. split; [reflexivity |].
        cbn [set_tipo nivel]. lia.
      * congruence.
      * discriminate.
      * exact Hcodes.
    + split; [| split; [| split]].
      * split; [intros E; symmetry in E; now apply MACRO_neq_ULTIMO_NIVEL in E |].
        intros (next & [= <-] & Hn). cbn [set_tipo nivel] in Hn. lia.
      * reflexivity.
      * discriminate.
      * exact Hcodes.
  - split; [| split; [| split]].
    + split; [intros E; symmetry in E; now apply MACRO_neq_ULTIMO_NIVEL in E |].
      intros (next & [=] & _).
    + reflexivity.
    + reflexivity.
    + exact Hcodes.
Qed.

(** C10: every row of the ledger has a code that is not empty, a level
    equal to the number of segments of its code and at least 1, a
    group number among 1, 2, 3, 4 (a code starting with 5 is in group
    DESPESA, number 4), one of the two types, debits and credits that
    are not negative, and the reference month of the header as its
    period. *)
Theorem parse_balancete_row_invariants f header df rec :
  parse_balancete f = Ok (header, df) ->
  In rec (rows df) ->
  codigo_conta rec <> ""
  /\ nivel rec = Z.of_nat (segments (codigo_conta rec))
  /\ 1 <= nivel rec
  /\ In (grupo_num rec) [1; 2; 3; 4]
  /\ (forall t, codigo_conta rec = String "5" t ->
                grupo rec = "DESPESA" /\ grupo_num rec = 4)
  /\ (tipo rec = MACRO \/ tipo rec = ULTIMO_NIVEL)
  /\ fle f0 (debitos rec)
  /\ fle f0 (creditos rec)
  /\ periodo rec = mes_referencia header.
Proof.
  intros H Hin.
  destruct (parse_balancete_row _ _ _ _ H Hin) as (row & rec0 & t & Hrow & -> & Ht).
  destruct (parse_row_Some _ _ _ Hrow)
    as (Hret & Hcode & Hniv & Hgrp & Hdeb & Hcred & _ & _ & Hper).
  cbn [set_tipo codigo_conta nivel grupo grupo_num tipo debitos creditos periodo].
  assert (Hne : codigo_conta rec0 <> "").
  { rewrite Hcode. unfold Spec.retained in Hret.
    destruct (row_code row); [discriminate | discriminate]. }
  destruct (determine_account_level_segments _ Hne) as [Hseg Hpos].
  rewrite <- Hcode in Hniv, Hgrp.
  destruct (get_account_group_Ok _ _ _ Hgrp) as (c & tl & Ec & Hg).
  repeat split.
  - exact Hne.
  - now rewrite Hniv.
  - now rewrite Hniv.
  - cbn. destruct Hg as [(_ & _ & ->) | [(_ & _ & ->) | [(_ & _ & ->) | (_ & _ & ->)]]];
      tauto.
  - rewrite Ec in H0. injection H0 as -> _.
    destruct Hg as [(E & _) | [(E & _) | [(E & _) | (_ & -> & _)]]];
      [discriminate E | discriminate E | discriminate E | reflexivity].
  - rewrite Ec in H0. injection H0 as -> _.
    destruct Hg as [(E & _) | [(E & _) | [(E & _) | (_ & _ & ->)]]];
      [discriminate E | discriminate E | discriminate E | reflexivity].
  - exact Ht.
  - unfold fle. rewrite Hdeb. apply ParsedAmount.abs_parse_str_nonneg.
  - unfold fle. rewrite Hcred. apply ParsedAmount.abs_parse_str_nonneg.
  - exact Hper.
Qed.

(** *** Rows with an account group that is not mapped *)

(** A retained row with an unmapped first character never yields a
    record nor is skipped. *)
Lemma parse_row_bad per row :
  bad_row row -> is_ok (parse_row per row) = false.
Proof.
  intros [Hret Hbad].
  destruct (parse_row per row) as [[rec|]|] eqn:E; [| | reflexivity].
  - destruct (parse_row_Some _ _ _ E) as (_ & _ & _ & Hg & _).
    destruct (get_account_group_unmapped _ Hbad) as (c & Hc). congruence.
  - apply parse_row_None in E. congruence.
Qed.

(** It raises the error of [_get_account_group] when its reduced code
    converts. *)
Lemma parse_row_bad_converts per row :
  bad_row row -> red_converts row ->
  exists c, parse_row per row
            = Raise (ValueError (UnknownAccountGroup (row_code row) c)).
Proof.
  intros [Hret Hbad] [Hne (r & Hr)].
  destruct (get_account_group_unmapped _ Hbad) as (c & Hc). exists c.
  unfold BalanceteParser.parse_row, Spec.retained, Spec.row_code in *.
  destruct row as [|c0 rest]; [congruence |].
  apply negb_true_iff in Hret. rewrite Hret.
  replace (match nth_error (c0 :: rest) 1 with Some v => v | None => PNone end)
    with (nth 1 (c0 :: rest) PNone)
    by (destruct rest; reflexivity).
  rewrite Hr. cbn [bind]. now rewrite Hc.
Qed.

(** A row whose reduced code converts and whose group is mapped yields
    a record or is skipped. *)
Lemma parse_row_good per row :
  red_converts row -> ~ bad_row row -> is_ok (parse_row per row) = true.
Proof.
  intros [Hne (r & Hr)] Hgood.
  unfold Spec.bad_row, Spec.retained, Spec.row_code, BalanceteParser.parse_row in *.
  destruct row as [|c0 rest]; [congruence |].
  destruct (is_empty (codigo_of float_repr c0)) eqn:Hc; [reflexivity |].
  replace (match nth_error (c0 :: rest) 1 with Some v => v | None => PNone end)
    with (nth 1 (c0 :: rest) PNone)
    by (destruct rest; reflexivity).
  rewrite Hr. cbn [bind].
  unfold _get_account_group.
  destruct (codigo_of float_repr c0) as [|c t] eqn:Ecod; [discriminate |].
  pose proof (dict_get_GROUP_MAP c) as Hmap.
  destruct (dict_get _GROUP_MAP c) as [[g gn]|].
  - cbn [bind parse_brazilian_value].
    destruct (parse_str (amount_str (c0 :: rest) 3)) as [v3 i3].
    destruct (parse_str (amount_str (c0 :: rest) 4)) as [v4 i4].
    destruct (parse_str (amount_str (c0 :: rest) 5)) as [v5 i5].
    destruct (parse_str (amount_str (c0 :: rest) 6)) as [v6 i6].
    assert (Hgn : In gn [1; 2; 3; 4]).
    { cbn. destruct Hmap as [[_ [= _ <-]] | [[_ [= _ <-]] | [[_ [= _ <-]] | [_ [= _ <-]]]]];
        tauto. }
    destruct (ValueConverterProps.apply_sign_returns v3 i3 gn Hgn) as (x3 & ->).
    destruct (ValueConverterProps.apply_sign_returns v6 i6 gn Hgn) as (x6 & ->).
    reflexivity.
  - exfalso. apply Hgood. split; [reflexivity |].
    exists c, t. now split.
Qed.

Lemma parse_records_bad per raw_rows :
  Exists bad_row raw_rows -> is_ok (parse_records per raw_rows) = false.
Proof.
  induction 1 as [row rest Hbad | row rest _ IH];
    cbn [BalanceteParser.parse_records]; unfold bind.
  - pose proof (parse_row_bad per row Hbad) as H.
    destruct (parse_row per row); [discriminate | reflexivity].
  - destruct (parse_row per row); [| reflexivity].
    destruct (parse_records per rest); [discriminate | reflexivity].
Qed.

Lemma parse_records_bad_converts per raw_rows :
  Exists bad_row raw_rows -> Forall red_converts raw_rows ->
  exists codigo c,
    parse_records per raw_rows
    = Raise (ValueError (UnknownAccountGroup codigo c))
    /\ In codigo (retained_codes raw_rows) /\ unmapped_code codigo.
Proof.
  intros Hex Hall. induction raw_rows as [|row rest IH].
  - inversion Hex.
  - inversion Hall as [|? ? Hrow Hrest]; subst.
    cbn [BalanceteParser.parse_records]. unfold bind.
    unfold Spec.retained_codes. cbn [List.filter].
    assert (Hdec : bad_row row \/ ~ bad_row row).
    { unfold Spec.bad_row, unmapped_code.
      destruct (retained row); [| right; intros [? _]; discriminate].
      destruct (row_code row) as [|c t].
      - right. intros (_ & ? & ? & ? & _). discriminate.
      - pose proof (dict_get_GROUP_MAP c) as Hm.
        destruct (dict_get _GROUP_MAP c).
        + right. intros (_ & c' & t' & [= <- <-] & Hn). apply Hn. cbn.
          destruct Hm as [[-> _] | [[-> _] | [[-> _] | [[-> | ->] _]]]]; tauto.
        + left. split; [reflexivity |]. now exists c, t. }
    destruct Hdec as [Hbad | Hgood].
    + destruct (parse_row_bad_converts per row Hbad Hrow) as (c & ->).
      exists (row_code row), c. destruct Hbad as [Hret Hun]. rewrite Hret.
      split; [reflexivity | split; [now left | exact Hun]].
    + assert (Hex' : Exists bad_row rest)
        by (inversion Hex; [contradiction | assumption]).
      destruct (IH Hex' Hrest) as (codigo & c & E & Hin & Hun).
      pose proof (parse_row_good per row Hrow Hgood) as Hok.
      destruct (parse_row per row); [| discriminate].
      rewrite E. exists codigo, c.
      split; [reflexivity | split; [| exact Hun]].
      destruct (retained row); [now right | exact Hin].
Qed.

(** The group of an account.  In a ledger, the group of every row is the
    one mapped from the first character of its code (1 ATIVO, 2 PASSIVO,
    3 RECEITA, 4 or 5 DESPESA); and when a retained row has any other
    first character the parse returns no ledger: it raises, and what it
    raises is the unknown-group error of such a row whenever the header
    stage succeeded and the reduced codes of the rows convert. *)
Theorem parse_balancete_account_group f raw_rows :
  _read_data_rows f = Ok raw_rows ->
  (forall header df rec,
      parse_balancete f = Ok (header, df) -> In rec (rows df) ->
      exists c t,
        codigo_conta rec = String c t
        /\ ((c = "1"%char /\ grupo rec = "ATIVO" /\ grupo_num rec = 1)
            \/ (c = "2"%char /\ grupo rec = "PASSIVO" /\ grupo_num rec = 2)
            \/ (c = "3"%char /\ grupo rec = "RECEITA" /\ grupo_num rec = 3)
            \/ ((c = "4"%char \/ c = "5"%char)
                /\ grupo rec = "DESPESA" /\ grupo_num rec = 4)))
  /\ (Exists bad_row raw_rows ->
      is_ok (parse_balancete f) = false
      /\ forall header,
           extract_header f = Ok header ->
           Forall red_converts raw_rows ->
           exists codigo c,
             parse_balancete f
             = Raise (ValueError (UnknownAccountGroup codigo c))
             /\ In codigo (retained_codes raw_rows)
             /\ unmapped_code codigo).
Proof.
  intros Hraw. split.
  - intros header df rec H Hin.
    destruct (parse_balancete_row _ _ _ _ H Hin) as (row & rec0 & t & Hrow & -> & _).
    destruct (parse_row_Some _ _ _ Hrow) as (_ & Hcode & _ & Hgrp & _).
    rewrite <- Hcode in Hgrp.
    exact (get_account_group_Ok _ _ _ Hgrp).
  - intros Hbad.
    assert (Hne : raw_rows <> []) by (intros ->; inversion Hbad).
    unfold BalanceteParser.parse_balancete, bind. rewrite Hraw.
    split.
    + destruct (extract_header f) as [h|]; [| reflexivity].
      destruct raw_rows as [|row rest]; [congruence |].
      pose proof (parse_records_bad (mes_referencia h) _ Hbad) as H.
      destruct (parse_records _ _); [discriminate | reflexivity].
    + intros header -> Hall.
      destruct raw_rows as [|row rest]; [congruence |].
      destruct (parse_records_bad_converts (mes_referencia header) _ Hbad Hall)
        as (codigo & c & -> & Hin & Hun).
      now exists codigo, c.
Qed.

(** *** Files without data *)

(** The exceptions of one row. *)
Lemma parse_row_Raise per row e :
  parse_row per row = Raise e ->
  e = IndexError \/ e = OverflowError
  \/ exists codigo c, e = ValueError (UnknownAccountGroup codigo c).
Proof.
  unfold BalanceteParser.parse_row.
  destruct row as [|c0 rest]; [intros [= <-]; now left |].
  destruct (is_empty (codigo_of float_repr c0)) eqn:Hc; [discriminate |].
  unfold bind.
  destruct (BalanceteParser.parse_red _ _) as [r|e1] eqn:Hred.
  - destruct (_get_account_group _) as [[g gn]|e2] eqn:Hg.
    + cbn [parse_brazilian_value].
      destruct (parse_str (amount_str (c0 :: rest) 3)) as [v3 i3].
      destruct (parse_str (amount_str (c0 :: rest) 4)) as [v4 i4].
      destruct (parse_str (amount_str (c0 :: rest) 5)) as [v5 i5].
      destruct (parse_str (amount_str (c0 :: rest) 6)) as [v6 i6].
      assert (Hgn : In gn [1; 2; 3; 4]).
      { destruct (get_account_group_Ok _ _ _ Hg) as (c & t & _ & H). cbn.
        destruct H as [(_ & _ & ->) | [(_ & _ & ->) | [(_ & _ & ->) | (_ & _ & ->)]]];
          tauto. }
      destruct (ValueConverterProps.apply_sign_returns v3 i3 gn Hgn) as (x3 & ->).
      destruct (ValueConverterProps.apply_sign_returns v6 i6 gn Hgn) as (x6 & ->).
      discriminate.
    + intros [= <-]. right. right. unfold _get_account_group in Hg.
      destruct (codigo_of float_repr c0) as [|c t]; [discriminate |].
      destruct (dict_get _GROUP_MAP c); [discriminate |].
      injection Hg as <-. eauto.
  - intros [= <-]. right. left. unfold BalanceteParser.parse_red in Hred.
    destruct (is_none _); [discriminate |].
    destruct (is_empty (strip _)); [discriminate |].
    destruct (Num.float_of_str _) as [x|]; [| discriminate].
    destruct (Num.int_of_float x); try discriminate. now injection Hred.
Qed.

Lemma parse_records_Raise per raw_rows e :
  parse_records per raw_rows = Raise e ->
  e = IndexError \/ e = OverflowError
  \/ exists codigo c, e = ValueError (UnknownAccountGroup codigo c).
Proof.
  induction raw_rows as [|row rest IH]; cbn [BalanceteParser.parse_records];
    [discriminate |].
  unfold bind.
  destruct (parse_row per row) as [r|e1] eqn:Hrow.
  - destruct (parse_records per rest) as [recs|e2]; [discriminate |].
    intros [= <-]. now apply IH.
  - intros [= <-]. exact (parse_row_Raise _ _ _ Hrow).
Qed.

Lemma parse_records_blank per raw_rows :
  Forall (fun row => row <> [] /\ retained row = false) raw_rows ->
  parse_records per raw_rows = Ok [].
Proof.
  induction 1 as [|row rest [Hne Hret] _ IH]; [reflexivity |].
  cbn [BalanceteParser.parse_records].
  destruct row as [|c0 cells]; [congruence |].
  now rewrite (parse_row_skipped per c0 cells Hret), IH.
Qed.

(** Where the guard of the rows stands: once the header is extracted and
    the rows are read, the parse raises the no-data-rows error exactly
    when no row at all lies between the preamble and the sentinel; rows
    with an empty column 0 are skipped afterwards, and when every row is
    such a row the parse returns an empty ledger. *)
Theorem parse_balancete_no_data_rows f header raw_rows :
  extract_header f = Ok header ->
  _read_data_rows f = Ok raw_rows ->
  (parse_balancete f = Raise (ValueError NoDataRows) <-> raw_rows = [])
  /\ (raw_rows <> [] ->
      Forall (fun row => row <> [] /\ retained row = false) raw_rows ->
      parse_balancete f = Ok (header, mkDataFrame [] [])).
Proof.
  intros Hh Hraw. unfold BalanceteParser.parse_balancete, bind.
  rewrite Hh, Hraw. split.
  - split.
    + destruct raw_rows as [|row rest]; [reflexivity |].
      destruct (parse_records _ _) as [recs|e] eqn:E; [discriminate |].
      intros [= ->]. apply parse_records_Raise in E.
      destruct E as [E | [E | (? & ? & E)]]; discriminate E.
    + now intros ->.
  - intros Hne Hblank.
    destruct raw_rows as [|row rest]; [congruence |].
    now rewrite (parse_records_blank _ _ Hblank).
Qed.

End WithBuiltins.

(** *** The properties on the sample files *)

Lemma parse_balancete_node_type_witness :
  Pipeline.parse_balancete Examples.sample_file
  = Ok (Examples.sample_header, Examples.sample_ledger)
  /\ nth_error (rows Examples.sample_ledger) 0 = Some Examples.sample_first_row
  /\ (tipo Examples.sample_first_row = MACRO <->
        exists next, nth_error (rows Examples.sample_ledger) 1 = Some next
                     /\ nivel Examples.sample_first_row < nivel next)
  /\ (tipo Examples.sample_first_row <> MACRO ->
      tipo Examples.sample_first_row = ULTIMO_NIVEL)
  /\ (nth_error (rows Examples.sample_ledger) 1 = None ->
      tipo Examples.sample_first_row = ULTIMO_NIVEL)
  /\ exists raw_rows,
       Pipeline._read_data_rows Examples.sample_file = Ok raw_rows
       /\ List.map codigo_conta (rows Examples.sample_ledger)
          = Spec.retained_codes Repr.repr raw_rows.
Proof.
  assert (H1 : Pipeline.parse_balancete Examples.sample_file
               = Ok (Examples.sample_header, Examples.sample_ledger))
    by (vm_compute; reflexivity).
  assert (H2 : nth_error (rows Examples.sample_ledger) 0
               = Some Examples.sample_first_row)
    by (vm_compute; reflexivity).
  split; [exact H1 | split; [exact H2 |]].
  exact (parse_balancete_node_type Repr.repr Pipeline.extract_header
           Examples.sample_file Examples.sample_header Examples.sample_ledger
           0%nat Examples.sample_first_row H1 H2).
Defined.

Lemma parse_balancete_row_invariants_witness :
  Pipeline.parse_balancete Examples.sample_file
  = Ok (Examples.sample_header, Examples.sample_ledger)
  /\ In Examples.sample_last_row (rows Examples.sample_ledger)
  /\ codigo_conta Examples.sample_last_row <> ""
  /\ nivel Examples.sample_last_row
     = Z.of_nat (Spec.segments (codigo_conta Examples.sample_last_row))
  /\ 1 <= nivel Examples.sample_last_row
  /\ In (grupo_num Examples.sample_last_row) [1; 2; 3; 4]
  /\ (forall t, codigo_conta Examples.sample_last_row = String "5" t ->
                grupo Examples.sample_last_row = "DESPESA"
                /\ grupo_num Examples.sample_last_row = 4)
  /\ (tipo Examples.sample_last_row = MACRO
      \/ tipo Examples.sample_last_row = ULTIMO_NIVEL)
  /\ Spec.fle f0 (debitos Examples.sample_last_row)
  /\ Spec.fle f0 (creditos Examples.sample_last_row)
  /\ periodo Examples.sample_last_row = mes_referencia Examples.sample_header.
Proof.
  assert (H1 : Pipeline.parse_balancete Examples.sample_file
               = Ok (Examples.sample_header, Examples.sample_ledger))
    by (vm_compute; reflexivity).
  assert (H2 : In Examples.sample_last_row (rows Examples.sample_ledger))
    by (apply (nth_error_In _ 5); vm_compute; reflexivity).
  split; [exact H1 | split; [exact H2 |]].
  exact (parse_balancete_row_invariants Repr.repr Pipeline.extract_header
           Examples.sample_file Examples.sample_header Examples.sample_ledger
           Examples.sample_last_row H1 H2).
Defined.

Lemma parse_balancete_account_group_witness :
  Pipeline._read_data_rows Examples.unmapped_file = Ok Examples.unmapped_rows
  /\ is_ok (Pipeline.parse_balancete Examples.unmapped_file) = false
  /\ exists codigo c,
       Pipeline.parse_balancete Examples.unmapped_file
       = Raise (ValueError (UnknownAccountGroup codigo c))
       /\ In codigo (Spec.retained_codes Repr.repr Examples.unmapped_rows)
       /\ Spec.unmapped_code codigo.
Proof.
  assert (H1 : Pipeline._read_data_rows Examples.unmapped_file
               = Ok Examples.unmapped_rows)
    by (vm_compute; reflexivity).
  destruct (parse_balancete_account_group Repr.repr Pipeline.extract_header
              Examples.unmapped_file Examples.unmapped_rows H1) as [_ HB].
  assert (Hbad : Exists (Spec.bad_row Repr.repr) Examples.unmapped_rows).
  { apply Exists_cons_tl, Exists_cons_hd. split; [vm_compute; reflexivity |].
    exists "9"%char, ".01". split; [vm_compute; reflexivity |].
    cbn. intros [H | [H | [H | [H | [H | []]]]]]; discriminate H. }
  destruct (HB Hbad) as [Hno Hwhich].
  split; [exact H1 | split; [exact Hno |]].
  apply (Hwhich Examples.sample_header); [vm_compute; reflexivity |].
  repeat constructor; try discriminate; eexists; vm_compute; reflexivity.
Defined.

(** C6, at an input where the code departs from it: the second row of
    this file is retained, its code 9.01 starts outside 1 to 5, and its
    reduced code is the text inf.  [int(float("inf"))] raises
    OverflowError, which the handler of the reduced code (ValueError,
    TypeError) lets through before the group of the row is looked up: the
    parse fails with OverflowError, not with the unknown-group error.
    With a reduced code that the handler absorbs (a text that is no
    number, nan, an empty cell) or that converts, the same file fails
    with the unknown-group error of that row. *)
Lemma infinite_red_hides_the_unknown_group :
  Pipeline._read_data_rows MoreExamples.infinite_red_file
  = Ok MoreExamples.infinite_red_rows
  /\ Exists (Spec.bad_row Repr.repr) MoreExamples.infinite_red_rows
  /\ Pipeline.parse_balancete MoreExamples.infinite_red_file = Raise OverflowError
  /\ (forall codigo c,
        Pipeline.parse_balancete MoreExamples.infinite_red_file
        <> Raise (ValueError (UnknownAccountGroup codigo c)))
  /\ Forall (fun red =>
               Pipeline.parse_balancete (MoreExamples.unmapped_file_with_red red)
               = Raise (ValueError (UnknownAccountGroup "9.01" "9")))
       [PStr "abc"; PStr "nan"; PStr ""; PNone; PStr "1047"; PFloat 7%float].
Proof.
  assert (H : Pipeline.parse_balancete MoreExamples.infinite_red_file
              = Raise OverflowError)
    by (vm_compute; reflexivity).
  split; [vm_compute; reflexivity |].
  split.
  { apply Exists_cons_tl, Exists_cons_hd. split; [vm_compute; reflexivity |].
    exists "9"%char, ".01". split; [vm_compute; reflexivity |].
    cbn. intros [E | [E | [E | [E | [E | []]]]]]; discriminate E. }
  split; [exact H |].
  split; [intros codigo c; rewrite H; discriminate |].
  repeat constructor; vm_compute; reflexivity.
Qed.

(** C4, at the input where the code departs from it: under the preamble
    of this file every row has an empty column 0, so no row is emitted,
    and the parse returns a ledger, without rows and without any of the
    columns that its docstring lists, instead of raising the no-data-rows
    error.  The guard is there, ahead of the pass that skips these rows:
    the file with no row at all under the preamble does raise that
    error. *)
Lemma blank_rows_give_an_empty_ledger :
  Pipeline._read_data_rows Examples.blank_file = Ok Examples.blank_rows
  /\ List.filter (Spec.retained Repr.repr) Examples.blank_rows = []
  /\ Pipeline.parse_balancete Examples.blank_file
     = Ok (Examples.sample_header, mkDataFrame [] [])
  /\ Pipeline.parse_balancete Examples.blank_file
     <> Raise (ValueError NoDataRows)
  /\ Pipeline.parse_balancete MoreExamples.no_rows_file
     = Raise (ValueError NoDataRows).
Proof.
  assert (H : Pipeline.parse_balancete Examples.blank_file
              = Ok (Examples.sample_header, mkDataFrame [] []))
    by (vm_compute; reflexivity).
  split; [vm_compute; reflexivity |].
  split; [vm_compute; reflexivity |].
  split; [exact H |].
  split; [rewrite H; discriminate | vm_compute; reflexivity].
Qed.

Lemma parse_balancete_no_data_rows_witness :
  Pipeline.extract_header Examples.blank_file = Ok Examples.sample_header
  /\ Pipeline._read_data_rows Examples.blank_file = Ok Examples.blank_rows
  /\ (Pipeline.parse_balancete Examples.blank_file = Raise (ValueError NoDataRows)
      <-> Examples.blank_rows = [])
  /\ (Examples.blank_rows <> [] ->
      Forall (fun row => row <> [] /\ Spec.retained Repr.repr row = false)
        Examples.blank_rows ->
      Pipeline.parse_balancete Examples.blank_file
      = Ok (Examples.sample_header, mkDataFrame [] [])).
Proof.
  assert (H1 : Pipeline.extract_header Examples.blank_file
               = Ok Examples.sample_header)
    by (vm_compute; reflexivity).
  assert (H2 : Pipeline._read_data_rows Examples.blank_file
               = Ok Examples.blank_rows)
    by (vm_compute; reflexivity).
  split; [exact H1 | split; [exact H2 |]].
  exact (parse_balancete_no_data_rows Repr.repr Pipeline.extract_header
           Examples.blank_file Examples.sample_header Examples.blank_rows H1 H2).
Defined.

End BalanceteParserProps.

(* ================================================================== *)
(** ** hierarchy_validator.py *)

Module HierarchyValidatorProps.
Import Str HierarchyValidator Spec.

Lemma mem_In x l : mem x l = true <-> In x l.
Proof.
  unfold mem. rewrite existsb_exists. split.
  - intros (y & Hin & E). apply String.eqb_eq in E. now subst.
  - intros H. exists x. split; [exact H | apply String.eqb_refl].
Qed.

Lemma validate_required_columns_Ok df required :
  (forall col, In col required -> In col (columns df)) ->
  _validate_required_columns df required = Ok tt.
Proof.
  intros H. unfold _validate_required_columns.
  replace (List.filter _ required) with (@nil string); [reflexivity |].
  symmetry. induction required as [|c cs IH]; [reflexivity |]. cbn.
  replace (mem c (columns df)) with true
    by (symmetry; apply mem_In, H; now left).
  cbn. apply IH. intros col Hc. apply H. now right.
Qed.

Lemma validate_required_columns_Raise df required e :
  _validate_required_columns df required = Raise e ->
  exists missing,
    e = ValueError (MissingColumns missing (columns df))
    /\ missing <> []
    /\ forall col, In col missing -> In col required /\ ~ In col (columns df).
Proof.
  unfold _validate_required_columns.
  destruct (List.filter _ required) as [|m ms] eqn:E; [discriminate |].
  intros [= <-]. exists (m :: ms). split; [reflexivity | split; [discriminate |]].
  intros col Hin. rewrite <- E in Hin. apply filter_In in Hin.
  destruct Hin as [Hr Hm]. split; [exact Hr |].
  apply negb_true_iff in Hm. intros Hc. apply mem_In in Hc. congruence.
Qed.

Lemma validate_required_columns_missing df required col :
  In col required -> ~ In col (columns df) ->
  is_ok (_validate_required_columns df required) = false.
Proof.
  intros Hr Hc. unfold _validate_required_columns.
  destruct (List.filter _ required) as [|m ms] eqn:E; [| reflexivity].
  exfalso. assert (Hin : In col (List.filter
              (fun c => negb (mem c (columns df))) required)).
  { apply filter_In. split; [exact Hr |]. apply negb_true_iff.
    destruct (mem col (columns df)) eqn:Em; [| reflexivity].
    apply mem_In in Em. contradiction. }
  rewrite E in Hin. contradiction.
Qed.

Lemma filter_none {A} (f : A -> bool) l :
  (forall x, In x l -> f x = false) -> List.filter f l = [].
Proof.
  induction l as [|x xs IH]; intros H; [reflexivity |]. cbn.
  rewrite (H x) by now left. apply IH. intros y Hy. apply H. now right.
Qed.

Section WithPandas.

Variable series_sum : list float -> float.
Variable round2 : float -> float.
Variable float_repr : float -> string.

Notation "'check_macro'" :=
  (HierarchyValidator.check_macro series_sum round2 float_repr).
Notation "'validate_hierarchy'" :=
  (HierarchyValidator.validate_hierarchy series_sum round2 float_repr).
Notation "'validate_balance_sheet'" :=
  (HierarchyValidator.validate_balance_sheet round2).
Notation "'describes'" := (Spec.describes series_sum round2 float_repr).

Lemma deeper_filter df parent :
  List.filter
    (fun r => startswith (codigo_conta r) (codigo_conta parent ++ ".")
              && (nivel r >? nivel parent + 1)) (rows df) <> []
  <-> has_deeper_row df parent.
Proof.
  unfold has_deeper_row, under_prefix. split.
  - destruct (List.filter _ (rows df)) as [|r rs] eqn:E; [congruence |].
    intros _. assert (Hin : In r (r :: rs)) by now left.
    rewrite <- E in Hin. apply filter_In in Hin. destruct Hin as [Hin Hb].
    apply andb_true_iff in Hb. destruct Hb as [Hp Hn].
    exists r. repeat split; [exact Hin | exact Hp | lia].
  - intros (r & Hin & Hp & Hn) E.
    assert (H : In r (List.filter
              (fun r => startswith (codigo_conta r) (codigo_conta parent ++ ".")
                        && (nivel r >? nivel parent + 1)) (rows df))).
    { apply filter_In. split; [exact Hin |]. rewrite Hp. cbn. lia. }
    rewrite E in H. contradiction.
Qed.

Ltac settle :=
  repeat match goal with
         | |- _ /\ _ => split
         | |- _ <-> _ => split
         | |- _ -> _ => intro
         | H : _ /\ _ |- _ => destruct H
         end;
  try reflexivity; try congruence; try contradiction.

Lemma check_macro_describes df parent :
  describes df parent (check_macro df parent).
Proof.
  unfold Spec.describes, HierarchyValidator.check_macro, within_tolerance,
    exceeds_tolerance, children_gap, leaf_gap, gap,
    direct_children_balances, leaf_balances, under_prefixb.
  set (sf := series_sum (List.map saldo_atual (List.filter
               (fun r => startswith (codigo_conta r) (codigo_conta parent ++ ".")
                         && (nivel r =? nivel parent + 1)) (rows df)))).
  set (sl := series_sum (List.map saldo_atual (List.filter
               (fun r => startswith (codigo_conta r) (codigo_conta parent ++ ".")
                         && (tipo r =? ULTIMO_NIVEL)%string) (rows df)))).
  pose proof (deeper_filter df parent) as Hdeep.
  set (deep := List.filter
                 (fun r => startswith (codigo_conta r) (codigo_conta parent ++ ".")
                           && (nivel r >? nivel parent + 1)) (rows df)) in *.
  destruct (PrimFloat.leb (PrimFloat.abs (PrimFloat.sub (saldo_atual parent) sf))
              _TOLERANCE) eqn:Ed.
  - cbn [conta_pai status mensagem]. settle.
  - destruct deep as [|r rs] eqn:Ef.
    + assert (Hnd : ~ has_deeper_row df parent)
        by (intros Hd; apply Hdeep in Hd; congruence).
      cbn [conta_pai status mensagem]. settle.
    + assert (Hd : has_deeper_row df parent) by (apply Hdeep; discriminate).
      destruct (PrimFloat.leb (PrimFloat.abs (PrimFloat.sub (saldo_atual parent) sl))
                  _TOLERANCE) eqn:El;
        cbn [conta_pai status mensagem]; settle.
Qed.

(** C1: with the required columns present, [validate_hierarchy] returns
    one finding per Macro row, in row order; the finding of a Macro row
    is OK when the difference between its balance and the sum of its
    direct children is within 0.02; when the difference exceeds 0.02 and
    some row under its prefix lies deeper than a direct child it is
    WARNING (with the message that the leaf sum reconciles when that sum
    is within 0.02 of the parent, with the message of both sums
    otherwise); and it is ERROR exactly when the difference exceeds 0.02
    and no row under the prefix lies deeper. *)
Theorem validate_hierarchy_status df :
  (forall col,
      In col ["codigo_conta"; "titulo_conta"; "nivel"; "tipo"; "saldo_atual"] ->
      In col (columns df)) ->
  exists findings,
    validate_hierarchy df = Ok findings
    /\ Forall2 (describes df)
         (List.filter (fun r => (tipo r =? MACRO)%string) (rows df)) findings
    /\ List.map conta_pai findings
       = List.map codigo_conta
           (List.filter (fun r => (tipo r =? MACRO)%string) (rows df)).
Proof.
  intros Hcols. unfold HierarchyValidator.validate_hierarchy, bind.
  rewrite (validate_required_columns_Ok _ _ Hcols).
  eexists. split; [reflexivity |].
  induction (List.filter _ (rows df)) as [|p ps IH]; cbn [List.map].
  - split; [constructor | reflexivity].
  - destruct IH as [IH1 IH2]. split.
    + constructor; [apply check_macro_describes | exact IH1].
    + f_equal; [| exact IH2].
      apply (check_macro_describes df p).
Qed.

(** *** The balance sheet *)

Lemma get_saldo_absent df codigo :
  (forall r, In r (rows df) -> codigo_conta r <> codigo) ->
  _get_saldo df codigo = f0.
Proof.
  intros H. unfold _get_saldo.
  destruct (List.filter _ (rows df)) as [|r rs] eqn:E; [reflexivity |].
  exfalso. assert (Hin : In r (r :: rs)) by now left.
  rewrite <- E in Hin. apply filter_In in Hin. destruct Hin as [Hin Hc].
  apply String.eqb_eq in Hc. now apply (H r Hin).
Qed.

Lemma get_saldo_first df codigo before r after :
  rows df = (before ++ r :: after)%list ->
  codigo_conta r = codigo ->
  (forall x, In x before -> codigo_conta x <> codigo) ->
  _get_saldo df codigo = saldo_atual r.
Proof.
  intros Erows Hr Hb. unfold _get_saldo. rewrite Erows, filter_app.
  rewrite (filter_none (fun x => (codigo_conta x =? codigo)%string) before).
  - cbn. rewrite <- Hr, String.eqb_refl. reflexivity.
  - intros x Hx. apply String.eqb_neq. now apply Hb.
Qed.

(** C5: [validate_balance_sheet] reads the balance of a code as that of
    the first row with the code, and as zero when no row has it; with
    the two required columns present it returns, never raising, the
    period result balance("3") + balance("4") and the three checks, each
    the comparison with 0.02 that the specification gives; and it raises
    exactly when a required column is missing. *)
Theorem validate_balance_sheet_checks df :
  let balance := _get_saldo df in
  let add := PrimFloat.add in
  (forall codigo,
      (forall r, In r (rows df) -> codigo_conta r <> codigo) ->
      balance codigo = f0)
  /\ (forall codigo before r after,
         rows df = (before ++ r :: after)%list ->
         codigo_conta r = codigo ->
         (forall x, In x before -> codigo_conta x <> codigo) ->
         balance codigo = saldo_atual r)
  /\ (In "codigo_conta" (columns df) -> In "saldo_atual" (columns df) ->
      exists bs,
        validate_balance_sheet df = Ok bs
        /\ resultado_exercicio bs = round2 (add (balance "3") (balance "4"))
        /\ (bp_equilibrio (checks bs) = true <->
            within_tolerance
              (PrimFloat.abs
                 (add (add (balance "1") (balance "2"))
                    (add (balance "3") (balance "4")))))
        /\ (ativo_decomposicao (checks bs) = true <->
            within_tolerance
              (gap (balance "1") (add (balance "1.01") (balance "1.02"))))
        /\ (passivo_decomposicao (checks bs) = true <->
            within_tolerance
              (gap (balance "2")
                 (add (add (balance "2.01") (balance "2.02")) (balance "2.03")))))
  /\ (forall e,
         validate_balance_sheet df = Raise e ->
         exists missing,
           e = ValueError (MissingColumns missing (columns df))
           /\ missing <> []
           /\ forall col, In col missing ->
                          In col ["codigo_conta"; "saldo_atual"]
                          /\ ~ In col (columns df))
  /\ (forall col,
         In col ["codigo_conta"; "saldo_atual"] -> ~ In col (columns df) ->
         is_ok (validate_balance_sheet df) = false).
Proof.
  cbv zeta. split; [| split; [| split; [| split]]].
  - apply get_saldo_absent.
  - apply get_saldo_first.
  - intros H1 H2. unfold HierarchyValidator.validate_balance_sheet, bind.
    rewrite validate_required_columns_Ok
      by (intros col [<- | [<- | []]]; assumption).
    eexists. split; [reflexivity |].
    cbn [resultado_exercicio checks bp_equilibrio ativo_decomposicao
           passivo_decomposicao].
    unfold within_tolerance, gap. repeat split; intros H; exact H.
  - intros e. unfold HierarchyValidator.validate_balance_sheet, bind.
    destruct (_validate_required_columns df _) as [u|e'] eqn:E; [discriminate |].
    intros [= <-]. exact (validate_required_columns_Raise _ _ _ E).
  - intros col Hr Hc. unfold HierarchyValidator.validate_balance_sheet, bind.
    pose proof (validate_required_columns_missing df _ col Hr Hc) as H.
    destruct (_validate_required_columns df _); [discriminate | reflexivity].
Qed.

End WithPandas.

(** *** Exceeding the tolerance *)

(** For a difference that is a number, to exceed the tolerance is to be
    greater than 0.02. *)
Lemma exceeds_tolerance_gt d :
  PrimFloat.is_nan d = false ->
  (exceeds_tolerance d <-> PrimFloat.ltb _TOLERANCE d = true).
Proof.
  intros Hn. unfold exceeds_tolerance. rewrite leb_spec, ltb_spec.
  assert (Hd : Prim2SF d <> S754_nan).
  { intros E. apply is_nan_spec in E. congruence. }
  change (Prim2SF _TOLERANCE)
    with (S754_finite false 5764607523034235 (-58)).
  destruct (Prim2SF d) as [s|s| |s m e]; [| | congruence |].
  - cbn. split; discriminate.
  - destruct s; cbn; split; (discriminate || reflexivity).
  - destruct s; [cbn; split; discriminate |].
    unfold SFleb, SFltb, SFcompare.
    rewrite (Z.compare_antisym e (-58)).
    destruct (e ?= -58) eqn:Ee; cbn [CompOpp];
      try (split; (discriminate || reflexivity)).
    change (PosDef.Pos.compare_cont Eq 5764607523034235 m)
      with (Pos.compare_cont (CompOpp Eq) 5764607523034235 m).
    rewrite <- (Pos.compare_cont_antisym m 5764607523034235 Eq).
    change (PosDef.Pos.compare_cont Eq m 5764607523034235)
      with (Pos.compare_cont Eq m 5764607523034235).
    destruct (Pos.compare_cont Eq m 5764607523034235); cbn;
      split; (discriminate || reflexivity).
Qed.

(** *** The properties on the ledgers of the tests *)

Lemma validate_hierarchy_status_witness :
  exists findings,
    Pipeline.validate_hierarchy Examples.irregular_hierarchy = Ok findings
    /\ Forall2 (Spec.describes Pandas.series_sum Repr.round2 Repr.repr
                  Examples.irregular_hierarchy)
         (List.filter (fun r => (tipo r =? MACRO)%string)
            (rows Examples.irregular_hierarchy)) findings
    /\ List.map conta_pai findings
       = List.map codigo_conta
           (List.filter (fun r => (tipo r =? MACRO)%string)
              (rows Examples.irregular_hierarchy)).
Proof.
  apply (validate_hierarchy_status Pandas.series_sum Repr.round2 Repr.repr
           Examples.irregular_hierarchy).
  intros col H. cbn in H. cbn.
  repeat (destruct H as [<- | H]; [tauto |]). contradiction.
Defined.

Lemma validate_balance_sheet_checks_witness :
  exists bs,
    Pipeline.validate_balance_sheet Examples.balanced_sheet = Ok bs
    /\ bp_equilibrio (checks bs) = true
    /\ ativo_decomposicao (checks bs) = true
    /\ passivo_decomposicao (checks bs) = true.
Proof.
  destruct (validate_balance_sheet_checks Repr.round2 Examples.balanced_sheet)
    as (_ & _ & H & _).
  destruct H as (bs & E & _ & Hbp & Ha & Hp); [cbn; tauto | cbn; tauto |].
  exists bs. split; [exact E |]. split; [| split].
  - apply Hbp. vm_compute. reflexivity.
  - apply Ha. vm_compute. reflexivity.
  - apply Hp. vm_compute. reflexivity.
Defined.

End HierarchyValidatorProps.

(* ================================================================== *)
(** ** More facts about strings *)

Module StrMore.
Import Str StrFacts.

Lemma lstrip_by_snoc blank s c :
  blank c = false ->
  lstrip_by blank (s ++ String c "") = lstrip_by blank s ++ String c "".
Proof.
  intros Hc. induction s as [| a s IH]; cbn.
  - now rewrite Hc.
  - destruct (blank a); [exact IH | reflexivity].
Qed.

Lemma rstrip_by_snoc blank s c :
  blank c = false ->
  rstrip_by blank (s ++ String c "") = s ++ String c "".
Proof.
  intros Hc. induction s as [| a s IH]; cbn.
  - now rewrite Hc.
  - rewrite IH, is_empty_snoc, andb_false_r. reflexivity.
Qed.

Lemma strip_by_snoc blank s c :
  blank c = false ->
  strip_by blank (s ++ String c "") = lstrip_by blank s ++ String c "".
Proof.
  intros Hc. unfold strip_by.
  now rewrite lstrip_by_snoc, rstrip_by_snoc.
Qed.

Lemma is_empty_eq s : is_empty s = true <-> s = "".
Proof. destruct s; cbn; split; congruence. Qed.

Lemma is_empty_false s : is_empty s = false <-> s <> "".
Proof. destruct s; cbn; split; congruence. Qed.

Lemma forallb_replace p o n s :
  forallb p n = true -> forallb p s = true -> forallb p (replace o n s) = true.
Proof.
  intros Hn. induction s as [| c s IH]; cbn; [reflexivity |].
  intros H. apply andb_true_iff in H as [Hc Hs].
  destruct (c =? o)%char.
  - rewrite forallb_app, Hn. now apply IH.
  - cbn. rewrite Hc. now apply IH.
Qed.

Lemma forallb_drop_last p s : forallb p s = true -> forallb p (drop_last s) = true.
Proof.
  induction s as [| c s IH]; cbn; [reflexivity |].
  intros H. apply andb_true_iff in H as [Hc Hs].
  destruct (is_empty s); [reflexivity |]. cbn. rewrite Hc. now apply IH.
Qed.

Lemma forallb_filter_weak p keep s :
  forallb p s = true -> forallb p (filter keep s) = true.
Proof.
  induction s as [| c s IH]; cbn; [reflexivity |].
  intros H. apply andb_true_iff in H as [Hc Hs].
  destruct (keep c); cbn; [rewrite Hc |]; now apply IH.
Qed.

Lemma forallb_and p q s :
  forallb p s = true -> forallb q s = true ->
  forallb (fun c => p c && q c) s = true.
Proof.
  induction s as [| c s IH]; cbn; [reflexivity |].
  intros H1 H2. apply andb_true_iff in H1 as [-> H1], H2 as [-> H2].
  cbn. now apply IH.
Qed.

Lemma map_lstrip_by f blank s :
  (forall c, blank (f c) = blank c) ->
  map f (lstrip_by blank s) = lstrip_by blank (map f s).
Proof.
  intros H. induction s as [| c s IH]; cbn; [reflexivity |].
  rewrite H. destruct (blank c); [exact IH | reflexivity].
Qed.

Lemma is_empty_map f s : is_empty (map f s) = is_empty s.
Proof. now destruct s. Qed.

Lemma map_rstrip_by f blank s :
  (forall c, blank (f c) = blank c) ->
  map f (rstrip_by blank s) = rstrip_by blank (map f s).
Proof.
  intros H. induction s as [| c s IH]; cbn; [reflexivity |].
  rewrite <- IH, H, is_empty_map.
  destruct (blank c && is_empty (rstrip_by blank s)); reflexivity.
Qed.

Lemma map_strip_by f blank s :
  (forall c, blank (f c) = blank c) ->
  map f (strip_by blank s) = strip_by blank (map f s).
Proof.
  intros H. unfold strip_by. now rewrite map_rstrip_by, map_lstrip_by.
Qed.

Lemma rstrip_by_idem blank s :
  rstrip_by blank (rstrip_by blank s) = rstrip_by blank s.
Proof.
  induction s as [| c s IH]; cbn; [reflexivity |].
  destruct (blank c && is_empty (rstrip_by blank s)) eqn:E; [reflexivity |].
  cbn. now rewrite IH, E.
Qed.

(** What is left of a text stripped on the left is empty or starts with a
    character that is not blank. *)
Lemma lstrip_by_head blank s :
  lstrip_by blank s = ""
  \/ exists c t, lstrip_by blank s = String c t /\ blank c = false.
Proof.
  induction s as [| c s IH]; cbn; [now left |].
  destruct (blank c) eqn:E; [exact IH |]. right. eauto.
Qed.

Lemma strip_by_head blank s :
  strip_by blank s = ""
  \/ exists c t, strip_by blank s = String c t /\ blank c = false.
Proof.
  unfold strip_by.
  destruct (lstrip_by_head blank s) as [-> | [c [t [-> Hc]]]]; [now left |].
  right. cbn. rewrite Hc. cbn. eauto.
Qed.

Lemma strip_by_idem blank s :
  strip_by blank (strip_by blank s) = strip_by blank s.
Proof.
  destruct (strip_by_head blank s) as [E | [c [t [E Hc]]]].
  - now rewrite E.
  - unfold strip_by at 1. rewrite E. cbn [lstrip_by]. rewrite Hc.
    rewrite <- E. unfold strip_by. apply rstrip_by_idem.
Qed.

Lemma upper_char_idem c : upper_char (upper_char c) = upper_char c.
Proof. destruct c as [[] [] [] [] [] [] [] []]; reflexivity. Qed.

Lemma is_space_upper_char c : is_space (upper_char c) = is_space c.
Proof. destruct c as [[] [] [] [] [] [] [] []]; reflexivity. Qed.

Lemma upper_idem s : upper (upper s) = upper s.
Proof.
  unfold upper. induction s as [| c s IH]; cbn; [reflexivity |].
  now rewrite upper_char_idem, IH.
Qed.

(** Putting in upper case and stripping, done twice, is done once. *)
Lemma strip_upper_idem s : strip (upper (strip (upper s))) = strip (upper s).
Proof.
  unfold strip, upper.
  rewrite (map_strip_by upper_char is_space) by apply is_space_upper_char.
  fold (upper s). fold (upper (upper s)). rewrite upper_idem.
  apply strip_by_idem.
Qed.

Lemma length_app_string a b :
  String.length (a ++ b) = (String.length a + String.length b)%nat.
Proof. induction a as [| c a IH]; cbn; [reflexivity | now rewrite IH]. Qed.

End StrMore.

(** ** More facts about binary64 numbers *)

Module FloatMore.

Lemma is_nan_false x : PrimFloat.is_nan x = false <-> Prim2SF x <> S754_nan.
Proof.
  rewrite <- is_nan_spec. destruct (PrimFloat.is_nan x); split; congruence.
Qed.

Lemma abs_not_nan x :
  PrimFloat.is_nan x = false -> PrimFloat.is_nan (PrimFloat.abs x) = false.
Proof.
  rewrite !is_nan_false, abs_spec. destruct (Prim2SF x); cbn; congruence.
Qed.

Lemma opp_not_nan x :
  PrimFloat.is_nan x = false -> PrimFloat.is_nan (PrimFloat.opp x) = false.
Proof.
  rewrite !is_nan_false, opp_spec. destruct (Prim2SF x); cbn; congruence.
Qed.

Lemma opp_abs_nonpos x :
  PrimFloat.is_nan x = false ->
  PrimFloat.leb (PrimFloat.opp (PrimFloat.abs x)) f0 = true.
Proof.
  rewrite is_nan_false, leb_spec, opp_spec, abs_spec.
  destruct (Prim2SF x) as [s | s | | s m e]; cbn; congruence.
Qed.

End FloatMore.

(* ================================================================== *)
(** ** value_converter.py: indicators and signs *)

Module ValueConverterMore.
Import Str StrFacts StrMore ValueConverter.

Lemma split_indicator_cases cleaned :
  (split_indicator cleaned = ("D", strip (drop_last cleaned))
   /\ endswith (upper cleaned) "D" = true)
  \/ (split_indicator cleaned = ("C", strip (drop_last cleaned))
      /\ endswith (upper cleaned) "C" = true)
  \/ split_indicator cleaned = ("", cleaned).
Proof.
  unfold split_indicator.
  destruct (endswith (upper cleaned) "D"); [now left |].
  destruct (endswith (upper cleaned) "C"); [right; now left |].
  right; now right.
Qed.

Lemma parse_str_indicator s :
  snd (parse_str s) = ""
  \/ (snd (parse_str s) = "D" \/ snd (parse_str s) = "C")
     /\ endswith (upper (strip s)) (snd (parse_str s)) = true.
Proof.
  unfold parse_str.
  destruct (is_empty (strip s)); [now left |].
  destruct (split_indicator_cases (strip s)) as [[E H] | [[E H] | E]]; rewrite E;
    destruct (is_empty (clean_number _)); try (now left);
    destruct (Num.float_of_str _); try (now left); cbn [snd].
  - right. split; [now left | exact H].
  - right. split; [now right | exact H].
Qed.

(** X1: whatever the cell holds, the indicator that [parse_brazilian_value]
    returns is empty, or it is D or C and the cell is a text that, once
    stripped and put in upper case, ends with that letter. *)
Theorem parse_brazilian_value_indicator v x i :
  parse_brazilian_value v = Ok (x, i) ->
  i = ""
  \/ exists s, v = PStr s /\ (i = "D" \/ i = "C")
               /\ endswith (upper (strip s)) i = true.
Proof.
  destruct v as [| b | z | y | s | r]; cbn [parse_brazilian_value].
  - intros [= _ <-]. now left.
  - intros [= _ <-]. now left.
  - destruct (Num.float_of_int z); [intros [= _ <-]; now left | discriminate].
  - destruct (PrimFloat.is_nan y); intros [= _ <-]; now left.
  - intros [= E]. pose proof (parse_str_indicator s) as H. rewrite E in H.
    cbn [snd] in H. destruct H as [H | [H1 H2]]; [now left |].
    right. exists s. auto.
  - intros [= _ <-]. now left.
Qed.

Lemma parse_brazilian_value_indicator_witness :
  "D" = ""
  \/ exists s, PStr "1.234,56 d" = PStr s /\ ("D" = "D" \/ "D" = "C")
               /\ endswith (upper (strip s)) "D" = true.
Proof.
  apply (parse_brazilian_value_indicator (PStr "1.234,56 d")
           0x1.34a3d70a3d70ap+10%float "D").
  vm_compute. reflexivity.
Defined.

Lemma split_indicator_snoc s c :
  split_indicator (s ++ String c "")
  = if (upper_char c =? "D")%char then ("D", strip s)
    else if (upper_char c =? "C")%char then ("C", strip s)
    else ("", s ++ String c "").
Proof.
  unfold split_indicator, upper. rewrite map_app. cbn [map].
  rewrite !endswith_snoc, drop_last_snoc. reflexivity.
Qed.

Lemma parse_str_letter s c d :
  is_space c = false -> is_space d = false ->
  upper_char c = upper_char d ->
  (upper_char c = "D"%char \/ upper_char c = "C"%char) ->
  parse_str (s ++ String c "") = parse_str (s ++ String d "").
Proof.
  intros Hc Hd E Hup. unfold parse_str, strip.
  rewrite !strip_by_snoc by assumption.
  rewrite !is_empty_snoc, !split_indicator_snoc, <- E.
  destruct Hup as [-> | ->]; reflexivity.
Qed.

(** X2: the indicator is read without regard to case: a text that ends with a
    small d (or c) is read as the same text with a capital D (or C). *)
Theorem parse_brazilian_value_indicator_case s :
  parse_brazilian_value (PStr (s ++ "d")) = parse_brazilian_value (PStr (s ++ "D"))
  /\ parse_brazilian_value (PStr (s ++ "c"))
     = parse_brazilian_value (PStr (s ++ "C")).
Proof.
  cbn [parse_brazilian_value]. split; f_equal.
  - apply parse_str_letter; try reflexivity. now left.
  - apply parse_str_letter; try reflexivity. now right.
Qed.

(** X3: [apply_sign] raises exactly when the indicator is not empty and the
    group number is not 1, 2, 3 or 4; the exception is then the
    ValueError that names the group number. *)
Theorem apply_sign_raises_iff value indicator g :
  (is_ok (apply_sign value indicator g) = false
   <-> indicator <> "" /\ ~ In g [1; 2; 3; 4])
  /\ (forall e, apply_sign value indicator g = Raise e ->
                e = ValueError (InvalidGroup g)).
Proof.
  unfold apply_sign.
  destruct (is_empty indicator) eqn:Ei.
  - apply is_empty_eq in Ei. subst. cbn. split; [| discriminate].
    split; [discriminate | now intros [H _]].
  - apply is_empty_false in Ei.
    destruct (existsb (Z.eqb g) [1; 2; 3; 4]) eqn:Eg; cbn [negb].
    + assert (Hin : In g [1; 2; 3; 4]).
      { apply existsb_exists in Eg as [y [Hy Hgy]].
        apply Z.eqb_eq in Hgy. now subst. }
      split.
      * destruct (String.eqb _ "D"); [| destruct (String.eqb _ "C")]; cbn;
          (split; [discriminate | now intros [_ H]]).
      * destruct (String.eqb _ "D"); [| destruct (String.eqb _ "C")]; discriminate.
    + split; [| now intros e [= <-]].
      cbn. split; [| reflexivity]. intros _. split; [exact Ei |].
      intros Hin. apply ValueConverterProps.valid_group_dec in Hin. congruence.
Qed.

(** X4: the indicator is compared after it is put in upper case and stripped:
    an indicator that is not blank stands for its normal form, whatever
    the value and the group number. *)
Theorem apply_sign_indicator_normal_form value indicator g :
  strip (upper indicator) <> "" ->
  apply_sign value indicator g = apply_sign value (strip (upper indicator)) g.
Proof.
  intros Hn. unfold apply_sign.
  assert (Hi : is_empty indicator = false).
  { destruct indicator; [now elim Hn | reflexivity]. }
  apply is_empty_false in Hn. rewrite Hi, Hn, strip_upper_idem. reflexivity.
Qed.

Lemma apply_sign_indicator_normal_form_witness :
  apply_sign 250%float " c " 2 = apply_sign 250%float (strip (upper " c ")) 2.
Proof.
  apply (apply_sign_indicator_normal_form 250%float " c " 2).
  vm_compute. discriminate.
Defined.

(** *** Amounts without a minus sign *)

Lemma round_ratio_unsigned num den :
  SFleb (S754_zero false) (Num.round_ratio false num den) = true.
Proof.
  unfold Num.round_ratio.
  destruct ((num <=? 0) || (den <=? 0)); [reflexivity |].
  destruct (Num.round_half_even _ _ =? 2 ^ 53).
  - cbn. destruct (_ >? 2045); reflexivity.
  - destruct (Num.round_half_even _ _); try reflexivity.
    destruct (_ >? 2045); reflexivity.
Qed.

Lemma float_of_decimal_unsigned m e :
  PrimFloat.leb f0 (Num.float_of_decimal false m e) = true.
Proof.
  rewrite leb_spec. unfold Num.float_of_decimal.
  destruct (e >=? 0); rewrite RoundingFacts.Prim2SF_round_ratio;
    apply round_ratio_unsigned.
Qed.

Lemma group_char_word s :
  forallb Spec.group_char s = true ->
  Num.split_sign s = (false, s)
  /\ (lower s =? "inf")%string = false
  /\ (lower s =? "infinity")%string = false
  /\ (lower s =? "nan")%string = false.
Proof.
  destruct s as [| c t]; [now cbn |].
  cbn [forallb]. intros H. apply andb_true_iff in H as [Hc _].
  destruct c as [[] [] [] [] [] [] [] []]; try discriminate Hc; now cbn.
Qed.

(** [float] of a text of digits and dots is not negative. *)
Lemma float_of_str_unsigned s v :
  forallb Spec.group_char s = true ->
  Num.float_of_str s = Some v -> PrimFloat.leb f0 v = true.
Proof.
  intros Hs. unfold Num.float_of_str.
  destruct (Num.strip_underscores false (strip_by Num.c_space s)) as [s1|] eqn:E1;
    [| discriminate].
  pose proof (ParsedAmount.forallb_strip_underscores _ _ _ _ E1
                (ParsedAmount.forallb_strip_by _ _ _ Hs)) as H1.
  destruct (group_char_word s1 H1) as [-> [-> [-> ->]]]. cbn [orb].
  destruct (Num.span_digits s1) as [ip r1].
  destruct (match r1 with
            | String "." t => Num.span_digits t
            | _ => (EmptyString, r1)
            end) as [fp r2].
  destruct (is_empty ip && is_empty fp); [discriminate |].
  destruct (Num.parse_exponent r2); [| discriminate].
  intros [= <-]. apply float_of_decimal_unsigned.
Qed.

Lemma no_minus_group_char c :
  numeric_char c && negb (c =? "-")%char = true -> Spec.group_char c = true.
Proof.
  unfold numeric_char, Spec.group_char.
  destruct (is_digit c), (c =? ".")%char, (c =? "-")%char; cbn; congruence.
Qed.

Lemma parse_str_unsigned s :
  forallb (fun c => negb (c =? "-")%char) s = true ->
  PrimFloat.leb f0 (fst (parse_str s)) = true.
Proof.
  intros Hs. unfold parse_str.
  destruct (is_empty (strip s)); [reflexivity |].
  assert (H1 : forallb (fun c => negb (c =? "-")%char) (strip s) = true)
    by now apply ParsedAmount.forallb_strip_by.
  assert (H2 : forallb (fun c => negb (c =? "-")%char)
                 (snd (split_indicator (strip s))) = true).
  { destruct (split_indicator_cases (strip s)) as [[E _] | [[E _] | E]];
      rewrite E; cbn [snd]; try assumption;
      now apply ParsedAmount.forallb_strip_by, forallb_drop_last. }
  destruct (split_indicator (strip s)) as [indicator cleaned]. cbn [snd] in H2.
  destruct (is_empty (clean_number cleaned)); [reflexivity |].
  destruct (Num.float_of_str (clean_number cleaned)) as [v|] eqn:E; [| reflexivity].
  cbn [fst]. apply (float_of_str_unsigned (clean_number cleaned) v); [| exact E].
  unfold clean_number.
  apply (forallb_impl (fun c => numeric_char c && negb (c =? "-")%char));
    [apply no_minus_group_char |].
  apply forallb_and; [apply ParsedAmount.forallb_filter |].
  apply forallb_filter_weak, forallb_replace; [reflexivity |].
  now apply forallb_replace.
Qed.

(** X5: a text without a minus sign is never read as a negative amount: the
    value returned is at least zero, and it is a number. *)
Theorem parse_brazilian_value_unsigned s x i :
  forallb (fun c => negb (c =? "-")%char) s = true ->
  parse_brazilian_value (PStr s) = Ok (x, i) ->
  PrimFloat.leb f0 x = true /\ PrimFloat.is_nan x = false.
Proof.
  intros Hs [= E]. split.
  - pose proof (parse_str_unsigned s Hs) as H. now rewrite E in H.
  - pose proof (ParsedAmount.parse_str_not_nan s) as H. now rewrite E in H.
Qed.

Lemma parse_brazilian_value_unsigned_witness :
  PrimFloat.leb f0 0x1.34a3d70a3d70ap+10%float = true
  /\ PrimFloat.is_nan 0x1.34a3d70a3d70ap+10%float = false.
Proof.
  apply (parse_brazilian_value_unsigned "R$ 1.234,56 C" _ "C");
    vm_compute; reflexivity.
Defined.

End ValueConverterMore.

(* ================================================================== *)
(** ** header_extractor.py: what a header holds *)

Module HeaderExtractorProps.
Import Str StrFacts StrMore HeaderExtractor HeaderShape.

Lemma length_app a r :
  String.length (a ++ r) = (String.length a + String.length r)%nat.
Proof. induction a as [| c a IH]; cbn; [reflexivity | now rewrite IH]. Qed.

Lemma take_app_length a r :
  take (String.length (a ++ r) - String.length r) (a ++ r) = a.
Proof.
  replace (String.length (a ++ r) - String.length r)%nat with (String.length a)
    by (rewrite length_app; lia).
  induction a as [| c a IH]; cbn; [now destruct r | now rewrite IH].
Qed.

Lemma span_spec p s :
  s = fst (span p s) ++ snd (span p s) /\ forallb p (fst (span p s)) = true.
Proof.
  induction s as [| c s [IH1 IH2]]; cbn; [now split |].
  destruct (p c) eqn:E; [| now split].
  destruct (span p s) as [a r]. cbn in *. rewrite E, IH2. split; [congruence | reflexivity].
Qed.

Lemma prefix_char c s :
  String.prefix (String c "") s = true -> exists t, s = String c t.
Proof.
  destruct s as [| b t]; cbn; [discriminate |].
  destruct (ascii_dec c b) as [-> |]; [eauto | discriminate].
Qed.

Lemma find_char c s :
  List.find (fun a => String.prefix a s) [String c ""]
  = if String.prefix (String c "") s then Some (String c "") else None.
Proof. reflexivity. Qed.

Lemma digits_2 s :
  digits 2 s <-> exists a b, s = String a (String b "")
                             /\ is_digit a = true /\ is_digit b = true.
Proof.
  unfold digits. split.
  - intros [Hl Hd]. destruct s as [| a [| b [| c s]]]; try discriminate Hl.
    cbn in Hd. apply andb_true_iff in Hd as [Ha Hb].
    rewrite andb_true_r in Hb. eauto.
  - intros [a [b [-> [Ha Hb]]]]. cbn. now rewrite Ha, Hb.
Qed.

Lemma digits_4 s :
  digits 4 s <-> exists a b c d,
      s = String a (String b (String c (String d "")))
      /\ is_digit a = true /\ is_digit b = true
      /\ is_digit c = true /\ is_digit d = true.
Proof.
  unfold digits. split.
  - intros [Hl Hd].
    destruct s as [| a [| b [| c [| d [| e s]]]]]; try discriminate Hl.
    cbn in Hd. rewrite andb_true_r in Hd.
    apply andb_true_iff in Hd as [Ha Hd]. apply andb_true_iff in Hd as [Hb Hd].
    apply andb_true_iff in Hd as [Hc Hd]. exists a, b, c, d. auto.
  - intros [a [b [c [d [-> [Ha [Hb [Hc Hd]]]]]]]]. cbn.
    now rewrite Ha, Hb, Hc, Hd.
Qed.

Ltac match_step :=
  rewrite find_char
  || match goal with
     | |- context [match ?s with "" => None | String _ _ => _ end] =>
         is_var s; destruct s; [discriminate |]
     | |- context [if is_digit ?c then _ else None] =>
         destruct (is_digit c) eqn:?; [| discriminate]
     | |- context [if String.prefix ?p ?s then _ else _] =>
         let H := fresh "H" in
         destruct (String.prefix p s) eqn:H; [| discriminate];
         apply prefix_char in H as [? ->]; cbn [drop String.length]
     end.

(** The pattern of a date, between the marks of a group, matches the text
    of a date and nothing else. *)
Lemma match_items_date_inv rest s opened groups out :
  match_items (date_items ++ GroupClose :: rest) s (s :: opened) groups
  = Some out ->
  exists d tail,
    date_digits d /\ s = br_date d ++ tail
    /\ match_items rest tail opened (br_date d :: groups) = Some out.
Proof.
  unfold date_items. cbn [app match_items].
  repeat match_step.
  match goal with
  | |- context [take (?n - ?m) ?t] =>
      replace (n - m)%nat with 10%nat by (cbn [String.length]; lia)
  end.
  cbn [take]. intros H.
  match goal with
  | H : match_items _ ?tail _
          (String ?a (String ?b (String _ (String ?c (String ?d (String _ ?y)))))
           :: _) = _ |- _ =>
      exists (mkDate (String a (String b "")) (String c (String d "")) y), tail
  end.
  unfold date_digits, br_date. cbn [day_text month_text year_text append].
  split; [| split; [reflexivity | exact H]].
  split; [| split]; [apply digits_2 | apply digits_2 | apply digits_4]; eauto 10.
Qed.

Lemma match_items_time_inv rest s opened groups out :
  match_items (time_items ++ GroupClose :: rest) s (s :: opened) groups
  = Some out ->
  exists h m sec tail,
    digits 2 h /\ digits 2 m /\ digits 2 sec
    /\ s = (h ++ ":" ++ m ++ ":" ++ sec) ++ tail
    /\ match_items rest tail opened ((h ++ ":" ++ m ++ ":" ++ sec) :: groups)
       = Some out.
Proof.
  unfold time_items. cbn [app match_items].
  repeat match_step.
  match goal with
  | |- context [take (?n - ?m) ?t] =>
      replace (n - m)%nat with 8%nat by (cbn [String.length]; lia)
  end.
  cbn [take]. intros H.
  match goal with
  | H : match_items _ ?tail _
          (String ?a (String ?b (String _ (String ?c (String ?d
             (String _ (String ?e (String ?f _))))))) :: _) = _ |- _ =>
      exists (String a (String b "")), (String c (String d "")),
        (String e (String f "")), tail
  end.
  cbn [append].
  repeat split; try apply digits_2; eauto.
Qed.

Lemma match_items_tax_inv rest s opened groups out :
  match_items (TaxChars :: GroupClose :: rest) s (s :: opened) groups
  = Some out ->
  exists c tail,
    tax_number c /\ s = c ++ tail
    /\ match_items rest tail opened (c :: groups) = Some out.
Proof.
  cbn [match_items].
  pose proof (span_spec tax_char s) as [Hs Hc].
  destruct (span tax_char s) as [c tail]. cbn [fst snd] in Hs, Hc.
  destruct c as [| x c]; [discriminate |].
  rewrite Hs at 1 2. rewrite take_app_length. intros H.
  exists (String x c), tail. repeat split; [discriminate | assumption ..].
Qed.

Lemma search_inv items s gs :
  search items s = Some gs ->
  exists t, match_items items t [] [] = Some gs.
Proof.
  induction s as [| c s IH]; cbn [search].
  - destruct (match_items items "" [] []) eqn:E; [| discriminate].
    intros [= <-]. eauto.
  - destruct (match_items items (String c s) [] []) eqn:E; [| exact IH].
    intros [= <-]. eauto.
Qed.

Ltac spelling :=
  match goal with
  | |- context [List.find ?f ?l] => destruct (List.find f l); [| discriminate]
  end.

(** What the three patterns capture. *)
Lemma search_periodo_inv s gs :
  search periodo_re s = Some gs ->
  exists d1 d2,
    gs = [br_date d1; br_date d2] /\ date_digits d1 /\ date_digits d2.
Proof.
  intros H. apply search_inv in H as [t H]. revert H.
  unfold periodo_re, ci, any_i, any_a. cbn [app match_items].
  repeat spelling.
  intros H. apply match_items_date_inv in H as [d1 [tail [H1 [_ H]]]].
  revert H. cbn [match_items]. spelling.
  intros H. apply match_items_date_inv in H as [d2 [tail' [H2 [_ H]]]].
  cbn in H. injection H as <-. eauto.
Qed.

Lemma search_cnpj_inv s gs :
  search cnpj_re s = Some gs -> exists c, gs = [c] /\ tax_number c.
Proof.
  intros H. apply search_inv in H as [t H]. revert H.
  unfold cnpj_re, ci.
  set (tl := [TaxChars; GroupClose]). cbn [match_items].
  repeat spelling.
  subst tl. intros H. apply match_items_tax_inv in H as [c [tail [H1 [_ H]]]].
  cbn in H. injection H as <-. eauto.
Qed.

Lemma search_emissao_inv s gs :
  search emissao_re s = Some gs ->
  exists d h m sec,
    gs = [br_date d; h ++ ":" ++ m ++ ":" ++ sec] /\ date_digits d
    /\ digits 2 h /\ digits 2 m /\ digits 2 sec.
Proof.
  intros H. apply search_inv in H as [t H]. revert H.
  unfold emissao_re, ci, any_i, any_s, any_a. cbn [app match_items].
  repeat spelling.
  intros H. apply match_items_date_inv in H as [d [tail [H1 [_ H]]]].
  revert H. cbn [match_items].
  destruct tail as [| c tail]; [discriminate |].
  destruct (is_space c); [| discriminate].
  intros H. apply match_items_time_inv in H
    as [h [m [sec [tail' [Hh [Hm [Hsec [_ H]]]]]]]].
  cbn in H. injection H as <-. exists d, h, m, sec. auto.
Qed.

(** *** Dates *)

Lemma strptime_date_br d0 d :
  date_digits d0 -> strptime_date (br_date d0) = Ok d ->
  d = d0 /\ in_calendar d0.
Proof.
  intros [Hd [Hm Hy]].
  apply digits_2 in Hd as [a [b [Ed _]]]. apply digits_2 in Hm as [c [e [Em _]]].
  destruct d0 as [dd mm yy]. cbn [day_text month_text year_text] in *. subst dd mm.
  unfold strptime_date, br_date. cbn [day_text month_text year_text append take drop].
  set (d1 := mkDate _ _ _).
  destruct ((1 <=? year d1) && (1 <=? month d1) && (month d1 <=? 12)
            && (1 <=? day d1) && (day d1 <=? days_in_month (year d1) (month d1)))
    eqn:E; [| discriminate].
  intros [= <-]. split; [reflexivity |].
  repeat (apply andb_true_iff in E as [E ?]). unfold in_calendar. lia.
Qed.

Lemma strptime_date_br_Ok d0 :
  date_digits d0 -> in_calendar d0 -> strptime_date (br_date d0) = Ok d0.
Proof.
  intros [Hd [Hm Hy]] [H1 [H2 H3]].
  apply digits_2 in Hd as [a [b [Ed _]]]. apply digits_2 in Hm as [c [e [Em _]]].
  destruct d0 as [dd mm yy]. cbn [day_text month_text year_text] in *. subst dd mm.
  unfold strptime_date, br_date. cbn [day_text month_text year_text append take drop].
  set (d1 := mkDate _ _ _) in *.
  replace ((1 <=? year d1) && (1 <=? month d1) && (month d1 <=? 12)
           && (1 <=? day d1) && (day d1 <=? days_in_month (year d1) (month d1)))
    with true; [reflexivity |].
  symmetry. repeat (apply andb_true_iff; split); lia.
Qed.

Lemma strptime_time_clock h m s text :
  digits 2 h -> digits 2 m -> digits 2 s ->
  strptime_time (h ++ ":" ++ m ++ ":" ++ s) = Ok text ->
  text = h ++ ":" ++ m ++ ":" ++ s /\ clock text.
Proof.
  intros Hh Hm Hs.
  pose proof Hh as Hh'. pose proof Hm as Hm'. pose proof Hs as Hs'.
  apply digits_2 in Hh' as [a [b [-> _]]]. apply digits_2 in Hm' as [c [d [-> _]]].
  apply digits_2 in Hs' as [e [g [-> _]]].
  unfold strptime_time. cbn [append take drop].
  destruct (_ && _ && _) eqn:E; [| discriminate].
  intros [= <-]. split; [reflexivity |].
  repeat (apply andb_true_iff in E as [E ?]).
  exists (String a (String b "")), (String c (String d "")), (String e (String g "")).
  repeat split; try assumption; try apply Hh; try apply Hm; try apply Hs; lia.
Qed.

Lemma tax_char_not_blank c : tax_char c = true -> is_space c = false.
Proof. destruct c as [[] [] [] [] [] [] [] []]; try reflexivity; discriminate. Qed.

Lemma strip_tax_number c : tax_number c -> strip c = c.
Proof.
  intros [_ H]. apply RoundTrip.strip_by_none.
  apply (forallb_impl tax_char); [| exact H].
  intros x Hx. now rewrite (tax_char_not_blank x Hx).
Qed.

(** A header that [extract_header] returns, field by field. *)
Lemma extract_header_inv float_repr f h :
  extract_header float_repr f = Ok h ->
  exists row0 row1 rest inicio fim emitido hora c,
    _read_header_rows f = Ok (row0 :: row1 :: rest)
    /\ date_digits inicio /\ in_calendar inicio
    /\ date_digits fim /\ in_calendar fim
    /\ date_digits emitido /\ in_calendar emitido
    /\ clock hora /\ tax_number c
    /\ is_empty (field float_repr row0 0) = false
    /\ h = mkHeader (field float_repr row0 0) c (iso_date inicio) (iso_date fim)
             (iso_date emitido ++ "T" ++ hora) (iso_month fim)
             (if (month inicio =? 1) && (day inicio =? 1)
                 && (month fim =? 12) && (day fim =? 31)
              then "anual" else "mensal").
Proof.
  unfold extract_header.
  destruct (_read_header_rows f) as [rows | e]; [| discriminate]. cbn [bind].
  destruct rows as [| row0 [| row1 rest]]; try discriminate.
  destruct (is_empty (field float_repr row0 0)) eqn:Eemp; [discriminate |].
  destruct (search periodo_re _) as [gs |] eqn:Ep; [| discriminate].
  apply search_periodo_inv in Ep as [d1 [d2 [-> [Hd1 Hd2]]]].
  destruct (strptime_date (br_date d1)) as [x1 |] eqn:E1; [| discriminate].
  apply (strptime_date_br _ _ Hd1) in E1 as [-> Hc1]. cbn [bind].
  destruct (strptime_date (br_date d2)) as [x2 |] eqn:E2; [| discriminate].
  apply (strptime_date_br _ _ Hd2) in E2 as [-> Hc2]. cbn [bind].
  destruct (search cnpj_re _) as [gs |] eqn:Ec; [| discriminate].
  apply search_cnpj_inv in Ec as [c [-> Hc]].
  destruct (search emissao_re _) as [gs |] eqn:Ee; [| discriminate].
  apply search_emissao_inv in Ee as [d3 [hh [mm [ss [-> [Hd3 [Hh [Hm Hs]]]]]]]].
  destruct (strptime_date (br_date d3)) as [x3 |] eqn:E3; [| discriminate].
  apply (strptime_date_br _ _ Hd3) in E3 as [-> Hc3]. cbn [bind].
  destruct (strptime_time _) as [t |] eqn:Et; [| discriminate].
  apply (strptime_time_clock _ _ _ _ Hh Hm Hs) in Et as [Et Hclock].
  cbn [bind]. intros [= <-]. rewrite (strip_tax_number c Hc).
  exists row0, row1, rest, d1, d2, d3, t, c. repeat split; try assumption.
  all: try apply Hc1; try apply Hc2; try apply Hc3; try apply Hd1; try apply Hd2;
    try apply Hd3; try apply Hc.
Qed.

(** X6: a header that [extract_header] returns has a company name, a tax
    number written with digits, dots, slashes and hyphens, and three dates
    of the calendar in ISO form, the issue date with a time of day; the
    reference month is the end of the period without its day. *)
Theorem extract_header_shape float_repr f h :
  extract_header float_repr f = Ok h ->
  empresa h <> "" /\ tax_number (cnpj h)
  /\ (exists inicio fim emitido hora,
         periodo_inicio h = iso_date inicio /\ periodo_fim h = iso_date fim
         /\ emissao h = iso_date emitido ++ "T" ++ hora
         /\ date_digits inicio /\ in_calendar inicio
         /\ date_digits fim /\ in_calendar fim
         /\ date_digits emitido /\ in_calendar emitido /\ clock hora)
  /\ String.length (periodo_fim h) = 10%nat
  /\ mes_referencia h = take 7 (periodo_fim h).
Proof.
  intros H. apply extract_header_inv in H
    as (row0 & row1 & rest & d1 & d2 & d3 & t & c & _ & Hd1 & Hc1 & Hd2 & Hc2
        & Hd3 & Hc3 & Ht & Hc & He & ->).
  cbn [empresa cnpj periodo_inicio periodo_fim emissao mes_referencia].
  split; [now apply is_empty_false |]. split; [exact Hc |].
  split; [exists d1, d2, d3, t; repeat split; try assumption;
          try apply Hd1; try apply Hd2; try apply Hd3;
          try apply Hc1; try apply Hc2; try apply Hc3 |].
  destruct Hd2 as [Hd [Hm Hy]].
  apply digits_2 in Hd as [a [b [Ed _]]]. apply digits_2 in Hm as [m1 [m2 [Em _]]].
  apply digits_4 in Hy as [y1 [y2 [y3 [y4 [Ey _]]]]].
  unfold iso_date, iso_month. rewrite Ed, Em, Ey. split; reflexivity.
Qed.

Lemma extract_header_shape_witness :
  empresa Examples.sample_header <> "" /\ tax_number (cnpj Examples.sample_header)
  /\ (exists inicio fim emitido hora,
         periodo_inicio Examples.sample_header = iso_date inicio
         /\ periodo_fim Examples.sample_header = iso_date fim
         /\ emissao Examples.sample_header = iso_date emitido ++ "T" ++ hora
         /\ date_digits inicio /\ in_calendar inicio
         /\ date_digits fim /\ in_calendar fim
         /\ date_digits emitido /\ in_calendar emitido /\ clock hora)
  /\ String.length (periodo_fim Examples.sample_header) = 10%nat
  /\ mes_referencia Examples.sample_header
     = take 7 (periodo_fim Examples.sample_header).
Proof.
  apply (extract_header_shape Repr.repr Examples.sample_file).
  vm_compute. reflexivity.
Defined.

(** *** Annual and monthly trial balances *)

Lemma is_digit_code c :
  is_digit c = true -> 48 <= Z.of_N (code c) <= 57.
Proof.
  unfold is_digit, in_range. intros H. apply andb_true_iff in H as [H1 H2].
  apply N.leb_le in H1, H2. lia.
Qed.

Lemma code_inj a b : code a = code b -> a = b.
Proof.
  unfold code. intros H.
  rewrite <- (ascii_N_embedding a), <- (ascii_N_embedding b). now rewrite H.
Qed.

(** Two texts of two digits with one value are one text. *)
Lemma number_2_inj s t :
  digits 2 s -> digits 2 t -> number s = number t -> s = t.
Proof.
  intros Hs Ht.
  apply digits_2 in Hs as [a [b [-> [Ha Hb]]]].
  apply digits_2 in Ht as [c [d [-> [Hc Hd]]]].
  unfold number. cbn [Num.digits_value].
  apply is_digit_code in Ha, Hb, Hc, Hd. intros H.
  assert (Z.of_N (code a) = Z.of_N (code c)) by lia.
  assert (Z.of_N (code b) = Z.of_N (code d)) by lia.
  f_equal; [| f_equal]; apply code_inj; lia.
Qed.

Lemma number_is s t :
  digits 2 s -> digits 2 t -> (number s =? number t) = true <-> s = t.
Proof.
  intros Hs Ht. rewrite Z.eqb_eq. split; [now apply number_2_inj | now intros ->].
Qed.

Lemma digits_2_text a b : is_digit a = true -> is_digit b = true ->
  digits 2 (String a (String b "")).
Proof. intros. apply digits_2. eauto. Qed.

Lemma drop_iso_date d a b c e :
  date_digits d ->
  drop 4 (iso_date d)
  = String "-" (String a (String b (String "-" (String c (String e "")))))
  <-> month_text d = String a (String b "") /\ day_text d = String c (String e "").
Proof.
  intros [Hd [Hm Hy]].
  apply digits_4 in Hy as [y1 [y2 [y3 [y4 [Ey _]]]]].
  apply digits_2 in Hm as [m1 [m2 [Em _]]].
  apply digits_2 in Hd as [x1 [x2 [Ed _]]].
  unfold iso_date. rewrite Ey, Em, Ed. cbn [append drop]. split.
  - intros [= -> -> -> ->]. auto.
  - intros [[= -> ->] [= -> ->]]. reflexivity.
Qed.

(** X7: a trial balance is annual exactly when its period runs from a first
    of January to a thirty-first of December; the two years are not
    compared.  Every other trial balance is monthly. *)
Theorem extract_header_tipo float_repr f h :
  extract_header float_repr f = Ok h ->
  (tipo_balancete h = "anual"
   <-> drop 4 (periodo_inicio h) = "-01-01" /\ drop 4 (periodo_fim h) = "-12-31")
  /\ (tipo_balancete h <> "anual" -> tipo_balancete h = "mensal").
Proof.
  intros H. apply extract_header_inv in H
    as (row0 & row1 & rest & d1 & d2 & d3 & t & c & _ & Hd1 & _ & Hd2 & _ & _
        & _ & _ & _ & _ & ->).
  cbn [tipo_balancete periodo_inicio periodo_fim].
  rewrite (drop_iso_date d1 "0" "1" "0" "1" Hd1),
    (drop_iso_date d2 "1" "2" "3" "1" Hd2).
  assert (H01 : digits 2 "01") by now apply digits_2_text.
  assert (H12 : digits 2 "12") by now apply digits_2_text.
  assert (H31 : digits 2 "31") by now apply digits_2_text.
  pose proof (number_is (month_text d1) "01" (proj1 (proj2 Hd1)) H01) as M1.
  pose proof (number_is (day_text d1) "01" (proj1 Hd1) H01) as D1.
  pose proof (number_is (month_text d2) "12" (proj1 (proj2 Hd2)) H12) as M2.
  pose proof (number_is (day_text d2) "31" (proj1 Hd2) H31) as D2.
  change (number "01") with 1 in M1, D1. change (number "12") with 12 in M2.
  change (number "31") with 31 in D2.
  unfold month, day.
  destruct (number (month_text d1) =? 1), (number (day_text d1) =? 1),
    (number (month_text d2) =? 12), (number (day_text d2) =? 31); cbn [andb];
    (split; [split; [intros E | intros [[E1 E2] [E3 E4]]] | intros E]);
    try reflexivity; try discriminate E; try (now elim E);
    try (split; split; first [now apply M1 | now apply D1 | now apply M2 | now apply D2]);
    first [ apply M1 in E1; discriminate E1 | apply D1 in E2; discriminate E2
          | apply M2 in E3; discriminate E3 | apply D2 in E4; discriminate E4 ].
Qed.

Lemma extract_header_tipo_witness :
  (tipo_balancete Examples.sample_header = "anual"
   <-> drop 4 (periodo_inicio Examples.sample_header) = "-01-01"
       /\ drop 4 (periodo_fim Examples.sample_header) = "-12-31")
  /\ (tipo_balancete Examples.sample_header <> "anual" ->
      tipo_balancete Examples.sample_header = "mensal").
Proof.
  apply (extract_header_tipo Repr.repr Examples.sample_file).
  vm_compute. reflexivity.
Defined.

(** *** Headers of the documented layout *)

Lemma date_digits_chars d :
  date_digits d ->
  exists a b c e y1 y2 y3 y4,
    d = mkDate (String a (String b "")) (String c (String e ""))
          (String y1 (String y2 (String y3 (String y4 ""))))
    /\ is_digit a = true /\ is_digit b = true /\ is_digit c = true
    /\ is_digit e = true /\ is_digit y1 = true /\ is_digit y2 = true
    /\ is_digit y3 = true /\ is_digit y4 = true.
Proof.
  intros [Hd [Hm Hy]]. destruct d as [dd mm yy].
  cbn [day_text month_text year_text] in *.
  apply digits_2 in Hd as [a [b [-> [Ha Hb]]]].
  apply digits_2 in Hm as [c [e [-> [Hc He]]]].
  apply digits_4 in Hy as [y1 [y2 [y3 [y4 [-> [H1 [H2 [H3 H4]]]]]]]].
  exists a, b, c, e, y1, y2, y3, y4. auto 12.
Qed.

Lemma match_items_date rest d tail opened groups :
  date_digits d ->
  match_items (date_items ++ GroupClose :: rest) (br_date d ++ tail)
    ((br_date d ++ tail) :: opened) groups
  = match_items rest tail opened (br_date d :: groups).
Proof.
  intros H. apply date_digits_chars in H
    as (a & b & c & e & y1 & y2 & y3 & y4 & -> & Ha & Hb & Hc & He & H1 & H2
        & H3 & H4).
  unfold date_items, br_date.
  cbn [app match_items day_text month_text year_text append].
  rewrite Ha, Hb. rewrite find_char. cbn [String.prefix].
  destruct (ascii_dec "/" "/") as [_ | n]; [| now elim n].
  cbn [drop String.length]. rewrite Hc, He. rewrite find_char. cbn [String.prefix].
  destruct (ascii_dec "/" "/") as [_ | n]; [| now elim n].
  cbn [drop String.length]. rewrite H1, H2, H3, H4.
  replace (_ - _)%nat with 10%nat by (cbn [String.length]; lia).
  reflexivity.
Qed.

Lemma match_items_time rest h m s tail opened groups :
  digits 2 h -> digits 2 m -> digits 2 s ->
  match_items (time_items ++ GroupClose :: rest) ((h ++ ":" ++ m ++ ":" ++ s) ++ tail)
    (((h ++ ":" ++ m ++ ":" ++ s) ++ tail) :: opened) groups
  = match_items rest tail opened ((h ++ ":" ++ m ++ ":" ++ s) :: groups).
Proof.
  intros Hh Hm Hs.
  apply digits_2 in Hh as [a [b [-> [Ha Hb]]]].
  apply digits_2 in Hm as [c [e [-> [Hc He]]]].
  apply digits_2 in Hs as [x [y [-> [Hx Hy]]]].
  unfold time_items. cbn [app match_items append].
  rewrite Ha, Hb. rewrite find_char. cbn [String.prefix].
  destruct (ascii_dec ":" ":") as [_ | n]; [| now elim n].
  cbn [drop String.length]. rewrite Hc, He. rewrite find_char. cbn [String.prefix].
  destruct (ascii_dec ":" ":") as [_ | n]; [| now elim n].
  cbn [drop String.length]. rewrite Hx, Hy.
  replace (_ - _)%nat with 8%nat by (cbn [String.length]; lia).
  reflexivity.
Qed.

Lemma span_all p s : forallb p s = true -> span p s = (s, "").
Proof.
  induction s as [| c s IH]; cbn; [reflexivity |].
  intros H. apply andb_true_iff in H as [-> H]. now rewrite (IH H).
Qed.

Lemma match_items_tax c opened groups :
  tax_number c ->
  match_items [TaxChars; GroupClose] c (c :: opened) groups
  = Some (rev (c :: groups)).
Proof.
  intros [Hn Hc]. cbn [match_items]. rewrite (span_all _ _ Hc).
  destruct c as [| x c]; [now elim Hn |].
  cbn [String.length]. rewrite Nat.sub_0_r.
  replace (take (S (String.length c)) (String x c)) with (String x c);
    [reflexivity |].
  cbn [take]. f_equal. clear. induction c as [| y c IH]; cbn; congruence.
Qed.

Lemma lstrip_date d tail :
  date_digits d -> lstrip (br_date d ++ tail) = br_date d ++ tail.
Proof.
  intros H. apply date_digits_chars in H as (a & b & c & e & y1 & y2 & y3 & y4
                                             & -> & Ha & _).
  unfold br_date, lstrip. cbn [day_text append lstrip_by].
  now rewrite (proj1 (digit_classes a Ha)).
Qed.

Lemma search_here items s gs :
  match_items items s [] [] = Some gs -> search items s = Some gs.
Proof. intros H. destruct s; cbn [search]; now rewrite H. Qed.

Lemma search_periodo d1 d2 tail :
  date_digits d1 -> date_digits d2 ->
  search periodo_re ("Período: " ++ br_date d1 ++ " à " ++ br_date d2 ++ tail)
  = Some [br_date d1; br_date d2].
Proof.
  intros H1 H2. apply search_here.
  change (match_items periodo_re
            ("Período: " ++ br_date d1 ++ " à " ++ br_date d2 ++ tail) [] [])
    with (match_items
            (date_items ++ GroupClose :: Blanks0 :: Lit (any_a ++ ["à"; "À"])
               :: Blanks0 :: GroupOpen :: date_items ++ [GroupClose])
            (lstrip (String " " (br_date d1 ++ " à " ++ br_date d2 ++ tail)))
            [lstrip (String " " (br_date d1 ++ " à " ++ br_date d2 ++ tail))] []).
  change (lstrip (String " " (br_date d1 ++ " à " ++ br_date d2 ++ tail)))
    with (lstrip (br_date d1 ++ " à " ++ br_date d2 ++ tail)).
  rewrite (lstrip_date d1 _ H1), (match_items_date _ d1 _ _ _ H1).
  change (match_items _ (" à " ++ br_date d2 ++ tail) [] [br_date d1])
    with (match_items (date_items ++ [GroupClose])
            (lstrip (String " " (br_date d2 ++ tail)))
            [lstrip (String " " (br_date d2 ++ tail))] [br_date d1]).
  change (lstrip (String " " (br_date d2 ++ tail))) with (lstrip (br_date d2 ++ tail)).
  rewrite (lstrip_date d2 _ H2), (match_items_date _ d2 _ _ _ H2).
  reflexivity.
Qed.

Lemma search_cnpj c :
  tax_number c -> search cnpj_re ("CNPJ: " ++ c) = Some [c].
Proof.
  intros Hc. apply search_here.
  change (match_items cnpj_re ("CNPJ: " ++ c) [] [])
    with (match_items [TaxChars; GroupClose] (lstrip (String " " c))
            [lstrip (String " " c)] []).
  change (lstrip (String " " c)) with (lstrip c).
  replace (lstrip c) with c.
  - now rewrite match_items_tax.
  - destruct Hc as [Hn Hc]. destruct c as [| x c]; [now elim Hn |].
    cbn in Hc. apply andb_true_iff in Hc as [Hx _].
    unfold lstrip. cbn. now rewrite (tax_char_not_blank x Hx).
Qed.

Lemma search_emissao d h m s :
  date_digits d -> digits 2 h -> digits 2 m -> digits 2 s ->
  search emissao_re ("Emissão: " ++ br_date d ++ " " ++ h ++ ":" ++ m ++ ":" ++ s)
  = Some [br_date d; h ++ ":" ++ m ++ ":" ++ s].
Proof.
  intros Hd Hh Hm Hs. apply search_here.
  set (t := h ++ ":" ++ m ++ ":" ++ s).
  change (match_items emissao_re ("Emissão: " ++ br_date d ++ " " ++ t) [] [])
    with (match_items
            (date_items ++ GroupClose :: Blanks1 :: GroupOpen
               :: time_items ++ [GroupClose])
            (lstrip (String " " (br_date d ++ " " ++ t)))
            [lstrip (String " " (br_date d ++ " " ++ t))] []).
  change (lstrip (String " " (br_date d ++ " " ++ t)))
    with (lstrip (br_date d ++ " " ++ t)).
  rewrite (lstrip_date d _ Hd), (match_items_date _ d _ _ _ Hd).
  change (match_items _ (" " ++ t) [] [br_date d])
    with (match_items (time_items ++ [GroupClose]) (lstrip t) [lstrip t] [br_date d]).
  replace (lstrip t) with (t ++ "").
  - subst t. now rewrite (match_items_time _ h m s "" _ _ Hh Hm Hs).
  - rewrite append_nil_r. subst t.
    apply digits_2 in Hh as [a [b [-> [Ha _]]]].
    unfold lstrip. cbn. now rewrite (proj1 (digit_classes a Ha)).
Qed.

Lemma strptime_time_Ok hora : clock hora -> strptime_time hora = Ok hora.
Proof.
  intros (h & m & s & -> & Hh & Hm & Hs & H1 & H2 & H3).
  apply digits_2 in Hh as [a [b [-> _]]]. apply digits_2 in Hm as [c [d [-> _]]].
  apply digits_2 in Hs as [e [g [-> _]]].
  unfold strptime_time. cbn [append take drop].
  replace (_ && _ && _) with true; [reflexivity |].
  symmetry. repeat (apply andb_true_iff; split); lia.
Qed.

(** X8: a preamble of the documented layout is accepted, and every field of
    the header is read from it: the company name from the first cell, the
    two dates of the period and the issue date turned into ISO form, the
    tax number as written, the reference month from the end of the
    period. *)
Theorem extract_header_documented_layout
  float_repr f row0 row1 rest inicio fim emitido hora c :
  _read_header_rows f = Ok (row0 :: row1 :: rest) ->
  field float_repr row0 0 <> "" ->
  field float_repr row0 5 = "Período: " ++ br_date inicio ++ " à " ++ br_date fim ->
  field float_repr row1 0 = "CNPJ: " ++ c ->
  field float_repr row1 5 = "Emissão: " ++ br_date emitido ++ " " ++ hora ->
  date_digits inicio /\ in_calendar inicio ->
  date_digits fim /\ in_calendar fim ->
  date_digits emitido /\ in_calendar emitido ->
  clock hora -> tax_number c ->
  extract_header float_repr f
  = Ok (mkHeader (field float_repr row0 0) c (iso_date inicio) (iso_date fim)
          (iso_date emitido ++ "T" ++ hora) (iso_month fim)
          (if (month inicio =? 1) && (day inicio =? 1)
              && (month fim =? 12) && (day fim =? 31)
           then "anual" else "mensal")).
Proof.
  intros Hrows Hemp Hper Hcnpj Hemi [Hd1 Hc1] [Hd2 Hc2] [Hd3 Hc3] Hclock Hc.
  unfold extract_header. rewrite Hrows. cbn [bind].
  apply is_empty_false in Hemp. rewrite Hemp, Hper.
  rewrite <- (append_nil_r (br_date fim)) at 1.
  rewrite (search_periodo inicio fim "" Hd1 Hd2).
  rewrite (strptime_date_br_Ok _ Hd1 Hc1), (strptime_date_br_Ok _ Hd2 Hc2).
  cbn [bind]. rewrite Hcnpj, (search_cnpj c Hc), Hemi.
  pose proof Hclock as (h & m & s & -> & Hh & Hm & Hs & _).
  rewrite (search_emissao emitido h m s Hd3 Hh Hm Hs).
  rewrite (strptime_date_br_Ok _ Hd3 Hc3). cbn [bind].
  rewrite (strptime_time_Ok _ Hclock). cbn [bind].
  now rewrite (strip_tax_number c Hc).
Qed.

Lemma extract_header_documented_layout_witness :
  Pipeline.extract_header Examples.sample_file = Ok Examples.sample_header.
Proof.
  unfold Pipeline.extract_header.
  pose (row0 := nth 0 Examples.preamble []).
  pose (row1 := nth 1 Examples.preamble []).
  rewrite (extract_header_documented_layout Repr.repr Examples.sample_file
             row0 row1 [nth 2 Examples.preamble []]
             (mkDate "01" "01" "2025") (mkDate "31" "01" "2025")
             (mkDate "04" "02" "2025") "17:23:21" "23.313.200/0001-08");
    try reflexivity.
  - discriminate.
  - split; [repeat split | vm_compute; repeat split; discriminate].
  - split; [repeat split | vm_compute; repeat split; discriminate].
  - split; [repeat split | vm_compute; repeat split; discriminate].
  - exists "17", "23", "21". vm_compute. repeat split; discriminate.
  - split; [discriminate | reflexivity].
Defined.

End HeaderExtractorProps.

(* ================================================================== *)
(** ** balancete_parser.py: reading, errors and signs *)

Module BalanceteParserMore.
Import Str StrFacts StrMore ValueConverter BalanceteParser.

(** *** Exceptions *)

Lemma read_header_rows_Raise f e :
  HeaderExtractor._read_header_rows f = Raise e ->
  (isfile f = false /\ e = FileNotFoundError (filepath f))
  \/ (isfile f = true
      /\ e = ValueError (UnsupportedFormat (lower (OsPath.splitext_ext (filepath f))))).
Proof.
  unfold HeaderExtractor._read_header_rows.
  destruct (isfile f); cbn [negb]; [| intros [= <-]; now left].
  destruct (String.eqb _ ".xls"); [discriminate |].
  destruct (String.eqb _ ".xlsx"); [discriminate |].
  intros [= <-]. now right.
Qed.

Lemma read_data_rows_Ok float_repr f :
  isfile f = true ->
  (exists rows, HeaderExtractor._read_header_rows f = Ok rows) ->
  exists raw_rows, _read_data_rows float_repr f = Ok raw_rows.
Proof.
  unfold HeaderExtractor._read_header_rows, _read_data_rows.
  intros -> [rows H]. cbn [negb] in *.
  destruct (String.eqb _ ".xls"); [eauto |].
  destruct (String.eqb _ ".xlsx"); [eauto | discriminate].
Qed.

(** What the header stage can raise. *)
Lemma extract_header_Raise float_repr f e :
  HeaderExtractor.extract_header float_repr f = Raise e ->
  e = FileNotFoundError (filepath f)
  \/ exists why,
       e = ValueError why
       /\ match why with
          | UnsupportedFormat _ | HeaderTooShort _ | MissingEmpresa
          | BadPeriodo _ | BadCNPJ _ | BadEmissao _ | BadDate _ => True
          | _ => False
          end.
Proof.
  unfold HeaderExtractor.extract_header.
  destruct (HeaderExtractor._read_header_rows f) as [rows | e0] eqn:Er; cbn [bind].
  2: { intros [= <-]. apply read_header_rows_Raise in Er as [[_ ->] | [_ ->]];
       [now left | right; eexists; split; [reflexivity | exact I]]. }
  intros H. right. revert H.
  set (P := exists why,
              e = ValueError why
              /\ match why with
                 | UnsupportedFormat _ | HeaderTooShort _ | MissingEmpresa
                 | BadPeriodo _ | BadCNPJ _ | BadEmissao _ | BadDate _ => True
                 | _ => False
                 end).
  assert (Hd : forall text (k : HeaderExtractor.date -> result Header),
             (forall d, k d = Raise e -> P) ->
             bind (HeaderExtractor.strptime_date text) k = Raise e -> P).
  { intros text k Hk. unfold HeaderExtractor.strptime_date.
    destruct (_ && _); cbn [bind]; [apply Hk |].
    intros [= <-]. eexists; split; [reflexivity | exact I]. }
  destruct rows as [| row0 [| row1 rest]];
    try (intros [= <-]; eexists; split; [reflexivity | exact I]).
  destruct (is_empty _);
    [intros [= <-]; eexists; split; [reflexivity | exact I] |].
  destruct (HeaderExtractor.search HeaderExtractor.periodo_re _)
    as [[| g1 [| g2 [| g3 gs]]] |];
    try (intros [= <-]; eexists; split; [reflexivity | exact I]).
  apply Hd. intros d1. apply Hd. intros d2.
  destruct (HeaderExtractor.search HeaderExtractor.cnpj_re _)
    as [[| c [| c' cs]] |];
    try (intros [= <-]; eexists; split; [reflexivity | exact I]).
  destruct (HeaderExtractor.search HeaderExtractor.emissao_re _)
    as [[| e1 [| e2 [| e3 es]]] |];
    try (intros [= <-]; eexists; split; [reflexivity | exact I]).
  apply Hd. intros d3. unfold HeaderExtractor.strptime_time.
  destruct (_ && _ && _); cbn [bind]; [discriminate |].
  intros [= <-]. eexists; split; [reflexivity | exact I].
Qed.

(** X9: the exceptions of [parse_balancete]: those of the file system and of
    the header, the one for a file without rows, the one for an account
    of an unknown group, and two that the built-in conversions and
    indexing raise.  The parse never fails with the exceptions of
    [apply_sign] (invalid group number), of an empty account code or of
    missing columns. *)
Theorem parse_balancete_exceptions f e :
  Pipeline.parse_balancete f = Raise e ->
  e = FileNotFoundError (filepath f)
  \/ e = IndexError \/ e = OverflowError
  \/ exists why,
       e = ValueError why
       /\ match why with
          | EmptyAccountCode | InvalidGroup _ | MissingColumns _ _ => False
          | _ => True
          end.
Proof.
  unfold Pipeline.parse_balancete, parse_balancete, Pipeline.extract_header.
  destruct (HeaderExtractor.extract_header Repr.repr f) as [header | e0] eqn:Eh;
    cbn [bind].
  2: { intros [= <-]. apply extract_header_Raise in Eh as [-> | [why [-> Hw]]];
       [now left |]. right; right; right. exists why. split; [reflexivity |].
       destruct why; try exact I; contradiction. }
  destruct (_read_data_rows Repr.repr f) as [raw_rows | e0] eqn:Ed; cbn [bind].
  2: { unfold _read_data_rows in Ed. destruct (negb (isfile f));
       [injection Ed as <-; intros [= <-]; now left |].
       destruct (String.eqb _ ".xls"); [discriminate |].
       destruct (String.eqb _ ".xlsx"); [discriminate |].
       injection Ed as <-. intros [= <-]. right; right; right.
       eexists; split; [reflexivity | exact I]. }
  destruct raw_rows as [| row rest].
  { intros [= <-]. right; right; right. eexists; split; [reflexivity | exact I]. }
  destruct (parse_records Repr.repr (mes_referencia header) (row :: rest))
    as [records | e0] eqn:Ep; cbn [bind]; [discriminate |].
  intros [= <-].
  apply BalanceteParserProps.parse_records_Raise in Ep
    as [-> | [-> | [codigo [c ->]]]]; auto.
  right; right; right. eexists; split; [reflexivity | exact I].
Qed.

Lemma parse_balancete_exceptions_witness :
  exists e,
    Pipeline.parse_balancete Examples.unmapped_file = Raise e
    /\ (e = FileNotFoundError (filepath Examples.unmapped_file)
        \/ e = IndexError \/ e = OverflowError
        \/ exists why,
             e = ValueError why
             /\ match why with
                | EmptyAccountCode | InvalidGroup _ | MissingColumns _ _ => False
                | _ => True
                end).
Proof.
  exists (ValueError (UnknownAccountGroup "9.01" "9")).
  assert (H : Pipeline.parse_balancete Examples.unmapped_file
              = Raise (ValueError (UnknownAccountGroup "9.01" "9")))
    by (vm_compute; reflexivity).
  split; [exact H |].
  exact (parse_balancete_exceptions Examples.unmapped_file _ H).
Defined.

(** X10: a path that is not a file is reported as such, whatever its name; a
    file whose extension, in lower case, is neither .xls nor .xlsx is
    refused with that extension.  Both happen before any cell is read. *)
Theorem parse_balancete_file_errors f :
  (isfile f = false ->
   Pipeline.parse_balancete f = Raise (FileNotFoundError (filepath f)))
  /\ (isfile f = true ->
      lower (OsPath.splitext_ext (filepath f)) <> ".xls" ->
      lower (OsPath.splitext_ext (filepath f)) <> ".xlsx" ->
      Pipeline.parse_balancete f
      = Raise (ValueError
                 (UnsupportedFormat (lower (OsPath.splitext_ext (filepath f)))))).
Proof.
  unfold Pipeline.parse_balancete, parse_balancete, Pipeline.extract_header,
    HeaderExtractor.extract_header, HeaderExtractor._read_header_rows.
  split.
  - intros ->. reflexivity.
  - intros -> H1 H2. apply String.eqb_neq in H1, H2. cbn [negb].
    now rewrite H1, H2.
Qed.

(** *** The rows that are read *)

Lemma rows_until_total_spec float_repr rs :
  rows_until_total float_repr rs
  = firstn (List.length (rows_until_total float_repr rs)) rs
  /\ Forall (fun row => is_total_geral float_repr row = false)
       (rows_until_total float_repr rs)
  /\ (forall row,
         nth_error rs (List.length (rows_until_total float_repr rs)) = Some row ->
         is_total_geral float_repr row = true).
Proof.
  induction rs as [| r rs [IH1 [IH2 IH3]]]; cbn [rows_until_total].
  - repeat split; [constructor | intros row H; discriminate H].
  - destruct (is_total_geral float_repr r) eqn:E.
    + repeat split; [constructor | cbn; now intros row [= <-]].
    + cbn [List.length firstn nth_error]. repeat split.
      * now rewrite <- IH1.
      * now constructor.
      * exact IH3.
Qed.

Lemma is_total_geral_xls float_repr cells :
  is_total_geral float_repr (firstn 7 cells) = is_total_geral float_repr cells.
Proof. now destruct cells. Qed.

Lemma is_total_geral_xlsx float_repr cells :
  is_total_geral float_repr (firstn 7 (cells ++ repeat PNone 7))
  = is_total_geral float_repr cells.
Proof. now destruct cells. Qed.

Lemma firstn_xls (cells : list PyVal) :
  firstn (List.length cells) (firstn 7 cells) = firstn 7 cells
  /\ (List.length (firstn 7 cells) <= 7)%nat.
Proof.
  rewrite firstn_firstn, length_firstn. split; [| lia].
  destruct (Nat.le_ge_cases (List.length cells) 7) as [H | H].
  - rewrite Nat.min_l by lia.
    rewrite (firstn_all2 (n := List.length cells)) by lia.
    now rewrite (firstn_all2 (n := 7)) by lia.
  - now rewrite Nat.min_r by lia.
Qed.

Lemma firstn_xlsx (cells : list PyVal) :
  firstn (List.length cells) (firstn 7 (cells ++ repeat PNone 7)) = firstn 7 cells
  /\ List.length (firstn 7 (cells ++ repeat PNone 7)) = 7%nat.
Proof.
  split.
  - rewrite firstn_firstn.
    destruct (Nat.le_ge_cases (List.length cells) 7) as [H | H].
    + rewrite Nat.min_l by lia. rewrite firstn_app, Nat.sub_diag.
      rewrite firstn_O, app_nil_r.
      rewrite (firstn_all2 (n := List.length cells)) by lia.
      now rewrite (firstn_all2 (n := 7)) by lia.
    + rewrite Nat.min_r by lia. rewrite firstn_app.
      replace (7 - List.length cells)%nat with 0%nat by lia.
      now rewrite firstn_O, app_nil_r.
  - rewrite length_firstn, length_app, repeat_length. lia.
Qed.

(** X11: the rows that [_read_data_rows] returns are the rows of the sheet
    from the fourth on, cut to seven cells, up to the first row whose
    first cell contains the words total geral in any case; that row and
    the rows after it are left out, and a sheet without such a row is
    read to its end. *)
Theorem read_data_rows_until_total float_repr f raw_rows :
  _read_data_rows float_repr f = Ok raw_rows ->
  (forall i row,
      nth_error raw_rows i = Some row ->
      exists cells,
        nth_error (sheet f) (3 + i) = Some cells
        /\ firstn (List.length cells) row = firstn 7 cells
        /\ (List.length row <= 7)%nat
        /\ is_total_geral float_repr cells = false)
  /\ (forall cells,
         nth_error (sheet f) (3 + List.length raw_rows) = Some cells ->
         is_total_geral float_repr cells = true).
Proof.
  unfold _read_data_rows. destruct (negb (isfile f)); [discriminate |].
  assert (G : forall clip : list PyVal -> list PyVal,
             (forall cells,
                 is_total_geral float_repr (clip cells)
                 = is_total_geral float_repr cells) ->
             (forall cells,
                 firstn (List.length cells) (clip cells) = firstn 7 cells
                 /\ (List.length (clip cells) <= 7)%nat) ->
             raw_rows
             = rows_until_total float_repr (List.map clip (skipn 3 (sheet f))) ->
             (forall i row,
                 nth_error raw_rows i = Some row ->
                 exists cells,
                   nth_error (sheet f) (3 + i) = Some cells
                   /\ firstn (List.length cells) row = firstn 7 cells
                   /\ (List.length row <= 7)%nat
                   /\ is_total_geral float_repr cells = false)
             /\ (forall cells,
                    nth_error (sheet f) (3 + List.length raw_rows) = Some cells ->
                    is_total_geral float_repr cells = true)).
  { intros clip Ht Hc ->.
    set (rs := List.map clip (skipn 3 (sheet f))).
    destruct (rows_until_total_spec float_repr rs) as [H1 [H2 H3]].
    set (out := rows_until_total float_repr rs) in *. split.
    - intros i row Hi.
      assert (Hrow : is_total_geral float_repr row = false).
      { rewrite Forall_forall in H2. apply H2. eapply nth_error_In, Hi. }
      rewrite H1, nth_error_firstn in Hi.
      destruct (i <? List.length out)%nat; [| discriminate].
      unfold rs in Hi. rewrite nth_error_map, nth_error_skipn in Hi.
      destruct (nth_error (sheet f) (3 + i)) as [cells |]; [| discriminate].
      injection Hi as <-. exists cells. rewrite Ht in Hrow.
      destruct (Hc cells). auto.
    - intros cells Hn. rewrite <- (Ht cells). apply H3.
      unfold rs. now rewrite nth_error_map, nth_error_skipn, Hn. }
  destruct (String.eqb _ ".xls").
  - intros [= <-]. apply (G (firstn 7));
      [apply is_total_geral_xls | apply firstn_xls | reflexivity].
  - destruct (String.eqb _ ".xlsx"); [| discriminate].
    intros [= <-]. apply (G (fun row => firstn 7 (row ++ repeat PNone 7))).
    + apply is_total_geral_xlsx.
    + intros cells. destruct (firstn_xlsx cells) as [H1 H2]. split; [exact H1 | lia].
    + reflexivity.
Qed.

Lemma read_data_rows_until_total_witness :
  (forall i row,
      nth_error Examples.unmapped_rows i = Some row ->
      exists cells,
        nth_error (sheet Examples.unmapped_file) (3 + i) = Some cells
        /\ firstn (List.length cells) row = firstn 7 cells
        /\ (List.length row <= 7)%nat
        /\ is_total_geral Repr.repr cells = false)
  /\ (forall cells,
         nth_error (sheet Examples.unmapped_file)
           (3 + List.length Examples.unmapped_rows) = Some cells ->
         is_total_geral Repr.repr cells = true).
Proof.
  apply (read_data_rows_until_total Repr.repr Examples.unmapped_file).
  vm_compute. reflexivity.
Defined.

(** *** Levels *)

Lemma split_cons_length sep c s :
  List.length (split sep (String c s))
  = if (c =? sep)%char then S (List.length (split sep s))
    else List.length (split sep s).
Proof.
  cbn [split]. destruct (c =? sep)%char; [reflexivity |].
  destruct (split sep s) as [| h t] eqn:E; [| reflexivity].
  pose proof (BalanceteParserProps.split_length sep s) as H.
  rewrite E in H. cbn in H. lia.
Qed.

Lemma split_app_length sep a b :
  List.length (split sep (a ++ String sep b))
  = (List.length (split sep a) + List.length (split sep b))%nat.
Proof.
  induction a as [| c a IH].
  - cbn [append]. rewrite split_cons_length, Ascii.eqb_refl. reflexivity.
  - change (String c a ++ String sep b) with (String c (a ++ String sep b)).
    rewrite !split_cons_length, IH. destruct (c =? sep)%char; reflexivity.
Qed.

Lemma split_no_sep sep s :
  forallb (fun c => negb (c =? sep)%char) s = true ->
  List.length (split sep s) = 1%nat.
Proof.
  induction s as [| c s IH]; [reflexivity |].
  cbn [forallb]. intros H. apply andb_true_iff in H as [Hc Hs].
  rewrite split_cons_length. apply negb_true_iff in Hc. rewrite Hc. now apply IH.
Qed.

Lemma level_of_child parent seg :
  parent <> "" ->
  forallb (fun c => negb (c =? ".")%char) seg = true ->
  _determine_account_level (parent ++ "." ++ seg)
  = _determine_account_level parent + 1.
Proof.
  intros Hp Hs. unfold _determine_account_level.
  assert (E1 : is_empty parent = false) by now apply is_empty_false.
  assert (E2 : is_empty (parent ++ "." ++ seg) = false)
    by (destruct parent; [now elim Hp | reflexivity]).
  rewrite E1, E2. change ("." ++ seg) with (String "." seg).
  rewrite split_app_length, (split_no_sep "." seg Hs). lia.
Qed.

(** X12: the level of an account code grows by one with each segment: a code
    followed by a dot and a segment without dots lies one level below,
    and a code followed by a dot and another code lies as many levels
    below as that code has. *)
Theorem determine_account_level_child parent seg :
  parent <> "" ->
  (forallb (fun c => negb (c =? ".")%char) seg = true ->
   _determine_account_level (parent ++ "." ++ seg)
   = _determine_account_level parent + 1)
  /\ (seg <> "" ->
      _determine_account_level (parent ++ "." ++ seg)
      = _determine_account_level parent + _determine_account_level seg).
Proof.
  intros Hp. unfold _determine_account_level.
  assert (E1 : is_empty parent = false) by now apply is_empty_false.
  assert (E2 : is_empty (parent ++ "." ++ seg) = false)
    by (destruct parent; [now elim Hp | reflexivity]).
  split; [now apply level_of_child |].
  rewrite E1, E2. change ("." ++ seg) with (String "." seg).
  rewrite split_app_length.
  intros Hs. apply is_empty_false in Hs. rewrite Hs. lia.
Qed.

Lemma determine_account_level_child_witness :
  (forallb (fun c => negb (c =? ".")%char) "00004" = true ->
   _determine_account_level ("1.01.01.02" ++ "." ++ "00004")
   = _determine_account_level "1.01.01.02" + 1)
  /\ ("00004" <> "" ->
      _determine_account_level ("1.01.01.02" ++ "." ++ "00004")
      = _determine_account_level "1.01.01.02" + _determine_account_level "00004").
Proof.
  apply (determine_account_level_child "1.01.01.02" "00004"). discriminate.
Defined.

(** *** Step 4 *)

Lemma set_tipo_set_tipo rec t u : set_tipo (set_tipo rec t) u = set_tipo rec u.
Proof. reflexivity. Qed.

(** X13: step 4 of [parse_balancete] writes the type of each record and
    nothing else: it keeps the number and the order of the records and
    every other field, and run again on its own result it changes
    nothing. *)
Theorem assign_tipo_idempotent records :
  assign_tipo (assign_tipo records) = assign_tipo records
  /\ List.map (fun rec => set_tipo rec "") (assign_tipo records)
     = List.map (fun rec => set_tipo rec "") records.
Proof.
  split.
  - induction records as [| rec [| next rest] IH]; [reflexivity | reflexivity |].
    cbn [assign_tipo] in *. rewrite set_tipo_set_tipo. f_equal. exact IH.
  - induction records as [| rec rest IH]; [reflexivity |].
    cbn [assign_tipo List.map]. now rewrite set_tipo_set_tipo, IH.
Qed.

(** *** Signs *)

Lemma set_tipo_fields rec t :
  saldo_atual (set_tipo rec t) = saldo_atual rec
  /\ indicador_dc (set_tipo rec t) = indicador_dc rec
  /\ saldo_anterior (set_tipo rec t) = saldo_anterior rec
  /\ grupo_num (set_tipo rec t) = grupo_num rec.
Proof. now destruct rec. Qed.

Lemma apply_sign_parsed s g x :
  In g [1; 2; 3; 4] ->
  apply_sign (fst (parse_str s)) (snd (parse_str s)) g = Ok x ->
  PrimFloat.is_nan x = false
  /\ ((snd (parse_str s) = "D" /\ Spec.fle f0 x)
      \/ (snd (parse_str s) = "C" /\ Spec.fle x f0)
      \/ (snd (parse_str s) = "" /\ x = f0)).
Proof.
  intros Hg. pose proof (ParsedAmount.parse_str_not_nan s) as Hn.
  destruct (ValueConverterMore.parse_str_indicator s) as [E | [[E | E] _]];
    rewrite E.
  - cbn. intros [= <-]. split; [reflexivity | right; right; auto].
  - rewrite (ValueConverterProps.apply_sign_D _ g Hg). intros [= <-]. split.
    + now apply FloatMore.abs_not_nan.
    + left. split; [reflexivity | now apply abs_nonneg].
  - rewrite (ValueConverterProps.apply_sign_C _ g Hg). intros [= <-]. split.
    + now apply FloatMore.opp_not_nan, FloatMore.abs_not_nan.
    + right; left. split; [reflexivity | now apply FloatMore.opp_abs_nonpos].
Qed.

(** X14: in every row of the ledger the current balance is a number whose
    sign follows the indicator kept beside it: not negative with D, not
    positive with C, and 0.0 without indicator.  The indicator is one of
    these three. *)
Theorem parse_balancete_signed_balance float_repr extract_header f header df rec :
  parse_balancete float_repr extract_header f = Ok (header, df) ->
  In rec (rows df) ->
  PrimFloat.is_nan (saldo_atual rec) = false
  /\ ((indicador_dc rec = "D" /\ Spec.fle f0 (saldo_atual rec))
      \/ (indicador_dc rec = "C" /\ Spec.fle (saldo_atual rec) f0)
      \/ (indicador_dc rec = "" /\ saldo_atual rec = f0)).
Proof.
  intros Hp Hin.
  destruct (BalanceteParserProps.parse_balancete_row _ _ _ _ _ _ Hp Hin)
    as (row & rec0 & t & Hrow & -> & _).
  destruct (set_tipo_fields rec0 t) as [-> [-> _]].
  apply BalanceteParserProps.parse_row_Some in Hrow
    as (_ & _ & _ & Hg & _ & _ & Hs & -> & _).
  apply BalanceteParserProps.get_account_group_Ok in Hg as (c & tl & _ & Hg).
  apply (apply_sign_parsed _ (grupo_num rec0)); [| exact Hs].
  cbn [In]. destruct Hg as [[_ [_ ->]] | [[_ [_ ->]] | [[_ [_ ->]] | [_ [_ ->]]]]];
    auto.
Qed.

Lemma parse_balancete_signed_balance_witness :
  PrimFloat.is_nan (saldo_atual Examples.sample_last_row) = false
  /\ ((indicador_dc Examples.sample_last_row = "D"
       /\ Spec.fle f0 (saldo_atual Examples.sample_last_row))
      \/ (indicador_dc Examples.sample_last_row = "C"
          /\ Spec.fle (saldo_atual Examples.sample_last_row) f0)
      \/ (indicador_dc Examples.sample_last_row = ""
          /\ saldo_atual Examples.sample_last_row = f0)).
Proof.
  apply (parse_balancete_signed_balance Repr.repr Pipeline.extract_header
           Examples.sample_file Examples.sample_header Examples.sample_ledger).
  - vm_compute. reflexivity.
  - vm_compute. auto 10.
Defined.

End BalanceteParserMore.

(* ================================================================== *)
(** ** hierarchy_validator.py: findings, children and types *)

Module HierarchyValidatorMore.
Import Str StrFacts StrMore HierarchyValidator.

Lemma prefix_app p s : String.prefix p s = true <-> exists rest, s = p ++ rest.
Proof.
  revert s. induction p as [| a p IH]; intros s.
  - destruct s; cbn; split; eauto.
  - destruct s as [| b s]; cbn;
      [split; [discriminate | intros [r Hr]; discriminate Hr] |].
    destruct (ascii_dec a b) as [<- | n].
    + rewrite IH. split; intros [r Hr]; exists r; cbn in *; congruence.
    + split; [discriminate | intros [r [= E _]]; now elim n].
Qed.

Lemma startswith_app s p : startswith s p = true <-> exists rest, s = p ++ rest.
Proof. apply prefix_app. Qed.

Lemma append_inj_length_lt a b : a ++ String b "" <> "" .
Proof. destruct a; discriminate. Qed.

Lemma append_cancel_l a x y : a ++ x = a ++ y -> x = y.
Proof. induction a as [| c a IH]; cbn; [auto | intros [= H]; auto]. Qed.

(** A text does not start with itself and one more character. *)
Lemma startswith_longer s c t : startswith s (s ++ String c t) = false.
Proof.
  destruct (startswith s (s ++ String c t)) eqn:E; [| reflexivity].
  apply startswith_app in E as [rest E].
  rewrite append_assoc in E. rewrite <- (append_nil_r s) in E at 1.
  apply append_cancel_l in E. discriminate E.
Qed.

Section WithPandas.

Variable series_sum : list float -> float.
Variable round2 : float -> float.
Variable float_repr : float -> string.

Notation "'check_macro'" :=
  (HierarchyValidator.check_macro series_sum round2 float_repr).
Notation "'validate_hierarchy'" :=
  (HierarchyValidator.validate_hierarchy series_sum round2 float_repr).

Lemma validate_hierarchy_Ok df findings :
  validate_hierarchy df = Ok findings ->
  findings
  = List.map (check_macro df)
      (List.filter (fun r => (tipo r =? MACRO)%string) (rows df)).
Proof.
  unfold HierarchyValidator.validate_hierarchy.
  destruct (_validate_required_columns df _); cbn [bind]; [| discriminate].
  now intros [= <-].
Qed.

Lemma check_macro_status df row :
  let fd := check_macro df row in
  (status fd = "OK" \/ status fd = "WARNING" \/ status fd = "ERROR")
  /\ (mensagem fd = None <-> status fd = "OK").
Proof.
  unfold HierarchyValidator.check_macro.
  destruct (PrimFloat.leb _ _TOLERANCE).
  - cbn. split; [auto | split; reflexivity].
  - destruct (List.filter _ (rows df)) as [| r l].
    + cbn. split; [auto | split; discriminate].
    + destruct (PrimFloat.leb _ _TOLERANCE); cbn;
        (split; [auto | split; discriminate]).
Qed.

Lemma check_macro_filhos df row :
  conta_pai (check_macro df row) = codigo_conta row
  /\ filhos (check_macro df row)
     = List.map codigo_conta
         (List.filter
            (fun r => startswith (codigo_conta r) (codigo_conta row ++ ".")
                      && (nivel r =? nivel row + 1))
            (rows df)).
Proof.
  unfold HierarchyValidator.check_macro.
  destruct (PrimFloat.leb _ _TOLERANCE); [now cbn |].
  destruct (List.filter _ (rows df)) as [| r l]; [now cbn |].
  destruct (PrimFloat.leb _ _TOLERANCE); now cbn.
Qed.

(** X15: every finding of [validate_hierarchy] has one of the three statuses,
    and it carries a message exactly when its status is not OK. *)
Theorem validate_hierarchy_findings df findings :
  validate_hierarchy df = Ok findings ->
  Forall (fun fd =>
            (status fd = "OK" \/ status fd = "WARNING" \/ status fd = "ERROR")
            /\ (mensagem fd = None <-> status fd = "OK"))
    findings.
Proof.
  intros H. rewrite (validate_hierarchy_Ok df findings H).
  apply Forall_forall. intros fd Hin. apply in_map_iff in Hin as [row [<- _]].
  apply check_macro_status.
Qed.

(** X16: the children that a finding lists are the codes, in row order, of
    the rows one level below the parent whose code starts with the code
    of the parent and a dot.  The parent is a Macro row of the ledger,
    and its own code is never among its children. *)
Theorem validate_hierarchy_children df findings :
  validate_hierarchy df = Ok findings ->
  Forall (fun fd =>
            exists parent,
              In parent (rows df) /\ tipo parent = MACRO
              /\ conta_pai fd = codigo_conta parent
              /\ filhos fd
                 = List.map codigo_conta
                     (List.filter
                        (fun r =>
                           startswith (codigo_conta r) (codigo_conta parent ++ ".")
                           && (nivel r =? nivel parent + 1))
                        (rows df))
              /\ ~ In (conta_pai fd) (filhos fd))
    findings.
Proof.
  intros H. rewrite (validate_hierarchy_Ok df findings H).
  apply Forall_forall. intros fd Hin. apply in_map_iff in Hin as [row [<- Hrow]].
  apply filter_In in Hrow as [Hrow Ht]. apply String.eqb_eq in Ht.
  destruct (check_macro_filhos df row) as [E1 E2].
  exists row. repeat split; try assumption.
  rewrite E1, E2. intros Hc. apply in_map_iff in Hc as [r [Er Hr]].
  apply filter_In in Hr as [_ Hr]. apply andb_true_iff in Hr as [Hr _].
  rewrite Er in Hr. now rewrite startswith_longer in Hr.
Qed.

End WithPandas.

Lemma validate_hierarchy_findings_witness :
  exists findings,
    Pipeline.validate_hierarchy Examples.hierarchy_error = Ok findings
    /\ Forall (fun fd =>
                 (status fd = "OK" \/ status fd = "WARNING" \/ status fd = "ERROR")
                 /\ (mensagem fd = None <-> status fd = "OK"))
         findings.
Proof.
  destruct (Pipeline.validate_hierarchy Examples.hierarchy_error)
    as [findings |] eqn:E; [| vm_compute in E; discriminate E].
  exists findings. split; [reflexivity |].
  exact (validate_hierarchy_findings Pandas.series_sum Repr.round2 Repr.repr
           Examples.hierarchy_error findings E).
Defined.

Lemma validate_hierarchy_children_witness :
  exists findings,
    Pipeline.validate_hierarchy Examples.irregular_hierarchy = Ok findings
    /\ Forall (fun fd =>
                 exists parent,
                   In parent (rows Examples.irregular_hierarchy)
                   /\ tipo parent = MACRO
                   /\ conta_pai fd = codigo_conta parent
                   /\ filhos fd
                      = List.map codigo_conta
                          (List.filter
                             (fun r =>
                                startswith (codigo_conta r)
                                  (codigo_conta parent ++ ".")
                                && (nivel r =? nivel parent + 1))
                             (rows Examples.irregular_hierarchy))
                   /\ ~ In (conta_pai fd) (filhos fd))
         findings.
Proof.
  destruct (Pipeline.validate_hierarchy Examples.irregular_hierarchy)
    as [findings |] eqn:E; [| vm_compute in E; discriminate E].
  exists findings. split; [reflexivity |].
  exact (validate_hierarchy_children Pandas.series_sum Repr.round2 Repr.repr
           Examples.irregular_hierarchy findings E).
Defined.

(** *** validate_level_classification *)

Section WithRepr.

Variable list_repr : list string -> string.

Notation "'check_leaf'" := (LevelClassification.check_leaf list_repr).
Notation "'collect'" := (LevelClassification.collect list_repr).
Notation "'validate_level_classification'" :=
  (LevelClassification.validate_level_classification list_repr).

Lemma check_leaf_Some df row e :
  check_leaf df row = Some e ->
  LevelClassification.conta e = codigo_conta row
  /\ LevelClassification.tipo_atual e = ULTIMO_NIVEL
  /\ LevelClassification.filhos_encontrados e
     = List.map codigo_conta
         (List.filter
            (fun r => startswith (codigo_conta r) (codigo_conta row ++ "."))
            (rows df))
  /\ LevelClassification.filhos_encontrados e <> [].
Proof.
  unfold LevelClassification.check_leaf.
  destruct (List.filter _ (rows df)) as [| r l]; [discriminate |].
  intros [= <-]. cbn. repeat split. discriminate.
Qed.

Lemma check_leaf_None df row :
  check_leaf df row = None <->
  forall r, In r (rows df) ->
            startswith (codigo_conta r) (codigo_conta row ++ ".") = false.
Proof.
  unfold LevelClassification.check_leaf.
  destruct (List.filter _ (rows df)) as [| r l] eqn:E.
  - split; [intros _ | reflexivity]. intros r Hr.
    destruct (startswith _ _) eqn:Es; [| reflexivity].
    assert (Hin : In r []) by (rewrite <- E; apply filter_In; auto).
    destruct Hin.
  - split; [discriminate |]. intros H.
    assert (Hin : In r (r :: l)) by now left.
    rewrite <- E in Hin. apply filter_In in Hin as [Hin Hs].
    rewrite (H r Hin) in Hs. discriminate Hs.
Qed.

Lemma collect_spec df leaves :
  List.map LevelClassification.conta (collect df leaves)
  = List.map codigo_conta
      (List.filter
         (fun row =>
            existsb
              (fun r => startswith (codigo_conta r) (codigo_conta row ++ "."))
              (rows df))
         leaves)
  /\ Forall (fun e => exists row, In row leaves /\ check_leaf df row = Some e)
       (collect df leaves).
Proof.
  induction leaves as [| row rest [IH1 IH2]]; [split; [reflexivity | constructor] |].
  cbn [LevelClassification.collect List.filter].
  destruct (check_leaf df row) as [e |] eqn:E.
  - assert (Hex : existsb
                    (fun r => startswith (codigo_conta r) (codigo_conta row ++ "."))
                    (rows df) = true).
    { destruct (existsb _ _) eqn:Ex; [reflexivity |].
      assert (Hn : check_leaf df row = None).
      { apply check_leaf_None. intros r Hr.
        destruct (startswith _ _) eqn:Es; [| reflexivity].
        assert (existsb
                  (fun r => startswith (codigo_conta r) (codigo_conta row ++ "."))
                  (rows df) = true) by (apply existsb_exists; eauto).
        congruence. }
      congruence. }
    rewrite Hex. cbn [List.map]. split.
    + f_equal; [apply (check_leaf_Some df row e E) | exact IH1].
    + constructor; [exists row; split; [now left | exact E] |].
      eapply Forall_impl; [| exact IH2]. intros x [r [Hr Hx]]. exists r.
      split; [now right | exact Hx].
  - assert (Hex : existsb
                    (fun r => startswith (codigo_conta r) (codigo_conta row ++ "."))
                    (rows df) = false).
    { destruct (existsb _ _) eqn:Ex; [| reflexivity].
      apply existsb_exists in Ex as [r [Hr Hs]].
      rewrite (proj1 (check_leaf_None df row) E r Hr) in Hs. discriminate Hs. }
    rewrite Hex. split; [exact IH1 |].
    eapply Forall_impl; [| exact IH2]. intros x [r [Hr Hx]]. exists r.
    split; [now right | exact Hx].
Qed.

(** X17: with its two columns present, [validate_level_classification]
    returns one entry for each row typed "Último Nível" that has a row
    under its prefix (a row whose code starts with its code and a dot),
    in row order.  The list is empty exactly when no such row has any. *)
Theorem validate_level_classification_reports df :
  In "codigo_conta" (columns df) -> In "tipo" (columns df) ->
  exists errors,
    validate_level_classification df = Ok errors
    /\ List.map LevelClassification.conta errors
       = List.map codigo_conta
           (List.filter
              (fun row =>
                 (tipo row =? ULTIMO_NIVEL)%string
                 && existsb
                      (fun r =>
                         startswith (codigo_conta r) (codigo_conta row ++ "."))
                      (rows df))
              (rows df))
    /\ (errors = [] <->
        forall row r,
          In row (rows df) -> tipo row = ULTIMO_NIVEL -> In r (rows df) ->
          startswith (codigo_conta r) (codigo_conta row ++ ".") = false).
Proof.
  intros H1 H2. unfold LevelClassification.validate_level_classification.
  rewrite HierarchyValidatorProps.validate_required_columns_Ok.
  2: { intros col [<- | [<- | []]]; assumption. }
  cbn [bind]. eexists. split; [reflexivity |].
  destruct (collect_spec df
              (List.filter (fun r => (tipo r =? ULTIMO_NIVEL)%string) (rows df)))
    as [Hc Hf].
  assert (Hff : forall (p q : Rec -> bool) l,
             List.filter q (List.filter p l)
             = List.filter (fun x => p x && q x) l).
  { intros p q l. induction l as [| x l IH]; [reflexivity |]. cbn.
    destruct (p x); cbn; [destruct (q x); now rewrite IH | exact IH]. }
  rewrite Hff in Hc. split; [exact Hc |]. split.
  - intros E row r Hrow Ht Hr.
    destruct (startswith _ _) eqn:Es; [| reflexivity].
    assert (Hin : In (codigo_conta row)
                    (List.map LevelClassification.conta
                       (collect df
                          (List.filter (fun r => (tipo r =? ULTIMO_NIVEL)%string)
                             (rows df))))).
    { rewrite Hc. apply in_map, filter_In. split; [exact Hrow |].
      apply andb_true_iff. split; [now apply String.eqb_eq |].
      apply existsb_exists. eauto. }
    rewrite E in Hin. destruct Hin.
  - intros H.
    destruct (collect df _) as [| e l] eqn:E; [reflexivity |].
    rewrite Forall_forall in Hf. destruct (Hf e (or_introl eq_refl)) as [row [Hrow He]].
    apply filter_In in Hrow as [Hrow Ht]. apply String.eqb_eq in Ht.
    assert (Hn : check_leaf df row = None)
      by (apply check_leaf_None; intros r Hr; now apply H).
    congruence.
Qed.

(** X18: an entry of [validate_level_classification] lists the codes, in row
    order, of all the rows whose code starts with the code of the account
    and a dot: one at least, and never the account itself, nor a row
    with the same code.  The type that the entry records is "Último
    Nível". *)
Theorem validate_level_classification_children df errors :
  validate_level_classification df = Ok errors ->
  Forall (fun e =>
            LevelClassification.filhos_encontrados e
            = List.map codigo_conta
                (List.filter
                   (fun r => startswith (codigo_conta r)
                               (LevelClassification.conta e ++ "."))
                   (rows df))
            /\ LevelClassification.filhos_encontrados e <> []
            /\ ~ In (LevelClassification.conta e)
                 (LevelClassification.filhos_encontrados e)
            /\ LevelClassification.tipo_atual e = ULTIMO_NIVEL)
    errors.
Proof.
  unfold LevelClassification.validate_level_classification.
  destruct (_validate_required_columns df _); cbn [bind]; [| discriminate].
  intros [= <-].
  destruct (collect_spec df
              (List.filter (fun r => (tipo r =? ULTIMO_NIVEL)%string) (rows df)))
    as [_ Hf].
  eapply Forall_impl; [| exact Hf]. intros e [row [_ He]].
  apply check_leaf_Some in He as (E1 & E2 & E3 & E4).
  rewrite E1. repeat split; try assumption.
  rewrite E3. intros Hc. apply in_map_iff in Hc as [r [Er Hr]].
  apply filter_In in Hr as [_ Hr]. rewrite Er in Hr.
  now rewrite startswith_longer in Hr.
Qed.

End WithRepr.

Lemma validate_level_classification_reports_witness :
  exists errors,
    LevelClassification.validate_level_classification MoreExamples.codes_repr
      MoreExamples.classification_error = Ok errors
    /\ List.map LevelClassification.conta errors
       = List.map codigo_conta
           (List.filter
              (fun row =>
                 (tipo row =? ULTIMO_NIVEL)%string
                 && existsb
                      (fun r =>
                         startswith (codigo_conta r) (codigo_conta row ++ "."))
                      (rows MoreExamples.classification_error))
              (rows MoreExamples.classification_error))
    /\ (errors = [] <->
        forall row r,
          In row (rows MoreExamples.classification_error) ->
          tipo row = ULTIMO_NIVEL ->
          In r (rows MoreExamples.classification_error) ->
          startswith (codigo_conta r) (codigo_conta row ++ ".") = false).
Proof.
  apply (validate_level_classification_reports MoreExamples.codes_repr
           MoreExamples.classification_error); cbn; auto.
Defined.

Lemma validate_level_classification_children_witness :
  exists errors,
    LevelClassification.validate_level_classification MoreExamples.codes_repr
      MoreExamples.classification_error = Ok errors
    /\ errors <> []
    /\ Forall (fun e =>
                 LevelClassification.filhos_encontrados e
                 = List.map codigo_conta
                     (List.filter
                        (fun r => startswith (codigo_conta r)
                                    (LevelClassification.conta e ++ "."))
                        (rows MoreExamples.classification_error))
                 /\ LevelClassification.filhos_encontrados e <> []
                 /\ ~ In (LevelClassification.conta e)
                      (LevelClassification.filhos_encontrados e)
                 /\ LevelClassification.tipo_atual e = ULTIMO_NIVEL)
         errors.
Proof.
  destruct (LevelClassification.validate_level_classification
              MoreExamples.codes_repr MoreExamples.classification_error)
    as [errors |] eqn:E; [| vm_compute in E; discriminate E].
  exists errors. split; [reflexivity |]. split.
  - vm_compute in E. injection E as <-. discriminate.
  - exact (validate_level_classification_children MoreExamples.codes_repr
             MoreExamples.classification_error errors E).
Defined.

End HierarchyValidatorMore.

(* ================================================================== *)
(** ** From the parser to the validators and to the upload *)

Module PipelineProps.
Import Str StrFacts StrMore BalanceteParser HierarchyValidator.

Section WithBuiltins.

Variable float_repr : float -> string.
Variable extract_header : ExcelFile -> result Header.
Variable series_sum : list float -> float.
Variable round2 : float -> float.
Variable list_repr : list string -> string.

Notation "'parse_balancete'" :=
  (BalanceteParser.parse_balancete float_repr extract_header).
Notation "'validate_hierarchy'" :=
  (HierarchyValidator.validate_hierarchy series_sum round2 float_repr).
Notation "'validate_balance_sheet'" :=
  (HierarchyValidator.validate_balance_sheet round2).
Notation "'validate_level_classification'" :=
  (LevelClassification.validate_level_classification list_repr).

Lemma parsed_columns f header df :
  parse_balancete f = Ok (header, df) ->
  (rows df <> [] /\ columns df = record_keys)
  \/ df = mkDataFrame [] [].
Proof.
  intros H. apply BalanceteParserProps.parse_balancete_Ok in H
    as (_ & raw_rows & records & _ & _ & _ & ->).
  unfold DataFrame_of_records.
  destruct (assign_tipo records) as [| r l]; [now right |].
  left. split; [discriminate | reflexivity].
Qed.

(** X19: a ledger with a row at least, as [parse_balancete] returns it, has
    every column that the three validators require: none of them raises
    on it.  The ledger without rows, which a file of blank rows gives, has
    no column at all: each validator raises the error of the missing
    columns on it. *)
Theorem parsed_ledger_columns f header df :
  parse_balancete f = Ok (header, df) ->
  (rows df <> [] ->
   is_ok (validate_hierarchy df) = true
   /\ is_ok (validate_balance_sheet df) = true
   /\ is_ok (validate_level_classification df) = true)
  /\ (rows df = [] ->
      validate_hierarchy df
      = Raise (ValueError
                 (MissingColumns
                    ["codigo_conta"; "titulo_conta"; "nivel"; "tipo"; "saldo_atual"]
                    []))
      /\ validate_balance_sheet df
         = Raise (ValueError (MissingColumns ["codigo_conta"; "saldo_atual"] []))
      /\ validate_level_classification df
         = Raise (ValueError (MissingColumns ["codigo_conta"; "tipo"] []))).
Proof.
  intros H. destruct (parsed_columns f header df H) as [[Hr Hc] | ->].
  - split; [intros _ | now intros E].
    unfold HierarchyValidator.validate_hierarchy,
      HierarchyValidator.validate_balance_sheet,
      LevelClassification.validate_level_classification.
    rewrite !HierarchyValidatorProps.validate_required_columns_Ok;
      [repeat split | | |];
      intros col Hcol; rewrite Hc; unfold record_keys; cbn in *; intuition.
  - split; [intros E; now elim E | intros _]. repeat split.
Qed.

Lemma split_one_no_sep sep s :
  List.length (split sep s) = 1%nat ->
  forallb (fun c => negb (c =? sep)%char) s = true.
Proof.
  induction s as [| c s IH]; [reflexivity |].
  rewrite BalanceteParserMore.split_cons_length. cbn [forallb].
  pose proof (BalanceteParserProps.split_length sep s) as Hl.
  destruct (c =? sep)%char; [lia |]. intros H. now rewrite (IH H).
Qed.

Lemma parsed_row_level f header df rec :
  parse_balancete f = Ok (header, df) -> In rec (rows df) ->
  codigo_conta rec <> ""
  /\ nivel rec = _determine_account_level (codigo_conta rec).
Proof.
  intros Hp Hin.
  destruct (BalanceteParserProps.parse_balancete_row _ _ _ _ _ _ Hp Hin)
    as (row & rec0 & t & Hrow & -> & _).
  apply BalanceteParserProps.parse_row_Some in Hrow
    as (Hret & Hc & Hn & _).
  destruct rec0; cbn in *. subst. split; [| reflexivity].
  unfold Spec.retained in Hret. apply negb_true_iff in Hret.
  now apply is_empty_false.
Qed.

(** X20: in a ledger that [parse_balancete] returns, the rows that
    [validate_hierarchy] counts as the direct children of a row are the
    rows whose code is the code of that row, a dot and one more segment
    without dots. *)
Theorem parsed_ledger_direct_children f header df parent r :
  parse_balancete f = Ok (header, df) ->
  In parent (rows df) -> In r (rows df) ->
  startswith (codigo_conta r) (codigo_conta parent ++ ".")
  && (nivel r =? nivel parent + 1) = true
  <-> exists seg,
        codigo_conta r = codigo_conta parent ++ "." ++ seg
        /\ forallb (fun c => negb (c =? ".")%char) seg = true.
Proof.
  intros Hp Hparent Hr.
  destruct (parsed_row_level f header df parent Hp Hparent) as [Hne Hlp].
  destruct (parsed_row_level f header df r Hp Hr) as [_ Hlr].
  rewrite Hlp, Hlr. split.
  - intros H. apply andb_true_iff in H as [Hs Hl].
    apply HierarchyValidatorMore.startswith_app in Hs as [seg Hs].
    rewrite append_assoc in Hs. exists seg. split; [exact Hs |].
    apply Z.eqb_eq in Hl. rewrite Hs in Hl.
    unfold _determine_account_level in Hl.
    assert (E1 : is_empty (codigo_conta parent) = false) by now apply is_empty_false.
    assert (E2 : is_empty (codigo_conta parent ++ "." ++ seg) = false)
      by (destruct (codigo_conta parent); [now elim Hne | reflexivity]).
    rewrite E1, E2 in Hl. change ("." ++ seg) with (String "." seg) in Hl.
    rewrite BalanceteParserMore.split_app_length in Hl.
    apply split_one_no_sep. lia.
  - intros [seg [Hs Hd]]. apply andb_true_iff. split.
    + apply HierarchyValidatorMore.startswith_app. exists seg.
      now rewrite append_assoc.
    + apply Z.eqb_eq. rewrite Hs.
      now apply BalanceteParserMore.level_of_child.
Qed.

(** X21: the statement that [_infer_grupo_df] reads in the first digit of an
    account of the ledger follows its group: BP for ATIVO and PASSIVO,
    DRE for RECEITA, and for DESPESA it is DRE when the code starts with
    4 and empty when it starts with 5. *)
Theorem infer_grupo_df_of_ledger_row f header df rec :
  parse_balancete f = Ok (header, df) -> In rec (rows df) ->
  (grupo rec = "ATIVO" \/ grupo rec = "PASSIVO" ->
   AIClassifier._infer_grupo_df (codigo_conta rec) = "BP")
  /\ (grupo rec = "RECEITA" ->
      AIClassifier._infer_grupo_df (codigo_conta rec) = "DRE")
  /\ (grupo rec = "DESPESA" ->
      (exists t, codigo_conta rec = String "4" t
                 /\ AIClassifier._infer_grupo_df (codigo_conta rec) = "DRE")
      \/ (exists t, codigo_conta rec = String "5" t
                    /\ AIClassifier._infer_grupo_df (codigo_conta rec) = "")).
Proof.
  intros Hp Hin.
  destruct (BalanceteParserProps.parse_balancete_row _ _ _ _ _ _ Hp Hin)
    as (row & rec0 & t & Hrow & -> & _).
  apply BalanceteParserProps.parse_row_Some in Hrow as (_ & Hc & _ & Hg & _).
  apply BalanceteParserProps.get_account_group_Ok in Hg as (c & tl & Hs & Hg).
  rewrite <- Hc in Hs.
  replace (grupo (set_tipo rec0 t)) with (grupo rec0) by now destruct rec0.
  replace (codigo_conta (set_tipo rec0 t)) with (codigo_conta rec0)
    by now destruct rec0.
  rewrite Hs.
  destruct Hg as [[-> [-> _]] | [[-> [-> _]] | [[-> [-> _]] | [[-> | ->] [-> _]]]]];
    (split; [| split]); try (intros [E | E]; discriminate E);
    try (intros E; discriminate E); try reflexivity; intros _.
  - left. eauto.
  - right. eauto.
Qed.

End WithBuiltins.

Lemma infer_grupo_df_of_ledger_row_witness :
  (grupo Examples.sample_last_row = "ATIVO"
   \/ grupo Examples.sample_last_row = "PASSIVO" ->
   AIClassifier._infer_grupo_df (codigo_conta Examples.sample_last_row) = "BP")
  /\ (grupo Examples.sample_last_row = "RECEITA" ->
      AIClassifier._infer_grupo_df (codigo_conta Examples.sample_last_row) = "DRE")
  /\ (grupo Examples.sample_last_row = "DESPESA" ->
      (exists t, codigo_conta Examples.sample_last_row = String "4" t
                 /\ AIClassifier._infer_grupo_df
                      (codigo_conta Examples.sample_last_row) = "DRE")
      \/ (exists t, codigo_conta Examples.sample_last_row = String "5" t
                    /\ AIClassifier._infer_grupo_df
                         (codigo_conta Examples.sample_last_row) = "")).
Proof.
  apply (infer_grupo_df_of_ledger_row Repr.repr Pipeline.extract_header
           Examples.sample_file Examples.sample_header Examples.sample_ledger).
  - vm_compute. reflexivity.
  - vm_compute. auto 10.
Defined.

Lemma parsed_ledger_columns_witness :
  (rows (mkDataFrame [] []) <> [] ->
   is_ok (Pipeline.validate_hierarchy (mkDataFrame [] [])) = true
   /\ is_ok (Pipeline.validate_balance_sheet (mkDataFrame [] [])) = true
   /\ is_ok (LevelClassification.validate_level_classification
               MoreExamples.codes_repr (mkDataFrame [] [])) = true)
  /\ (rows (mkDataFrame [] []) = [] ->
      Pipeline.validate_hierarchy (mkDataFrame [] [])
      = Raise (ValueError
                 (MissingColumns
                    ["codigo_conta"; "titulo_conta"; "nivel"; "tipo"; "saldo_atual"]
                    []))
      /\ Pipeline.validate_balance_sheet (mkDataFrame [] [])
         = Raise (ValueError (MissingColumns ["codigo_conta"; "saldo_atual"] []))
      /\ LevelClassification.validate_level_classification
           MoreExamples.codes_repr (mkDataFrame [] [])
         = Raise (ValueError (MissingColumns ["codigo_conta"; "tipo"] []))).
Proof.
  apply (parsed_ledger_columns Repr.repr Pipeline.extract_header
           Pandas.series_sum Repr.round2 MoreExamples.codes_repr
           Examples.blank_file Examples.sample_header).
  vm_compute. reflexivity.
Defined.

Lemma parsed_ledger_direct_children_witness :
  startswith "1.01" ("1" ++ ".") && (2 =? 1 + 1) = true
  <-> exists seg,
        "1.01" = "1" ++ "." ++ seg
        /\ forallb (fun c => negb (c =? ".")%char) seg = true.
Proof.
  apply (parsed_ledger_direct_children Repr.repr Pipeline.extract_header
           Examples.sample_file Examples.sample_header Examples.sample_ledger
           Examples.sample_first_row
           (mkRec "1.01" "CIRCULANTE" None 2 "Macro" "ATIVO" 1 0%float 600%float
              0%float 600%float "D" "2025-01")).
  - vm_compute. reflexivity.
  - vm_compute. auto.
  - vm_compute. auto.
Defined.

End PipelineProps.

(* ================================================================== *)
(** ** upload.py: what the validation stage reports *)

Module UploadProps.
Import Str StrFacts StrMore HierarchyValidator Upload.

(** *** The extension of the saved file *)

Lemma rfind1_app c a b :
  OsPath.rfind1 c (a ++ b)
  = match OsPath.rfind1 c b with
    | O => OsPath.rfind1 c a
    | S k => (String.length a + S k)%nat
    end.
Proof.
  induction a as [| d a IH]; cbn [append OsPath.rfind1 String.length].
  - now destruct (OsPath.rfind1 c b).
  - rewrite IH. destruct (OsPath.rfind1 c b) as [| k]; [reflexivity |].
    replace (String.length a + S k)%nat with (S (String.length a + k)) by lia.
    f_equal. lia.
Qed.

Lemma rfind1_le c s : (OsPath.rfind1 c s <= String.length s)%nat.
Proof.
  induction s as [| d s IH]; cbn; [lia |].
  destruct (OsPath.rfind1 c s); [destruct (d =? c)%char; lia | lia].
Qed.

Lemma rfind1_snoc c a : OsPath.rfind1 c (a ++ String c "") = S (String.length a).
Proof.
  rewrite rfind1_app. cbn. rewrite Ascii.eqb_refl. lia.
Qed.

Lemma drop_app_length a b k :
  drop (String.length a + k) (a ++ b) = drop k b.
Proof. induction a as [| d a IH]; cbn; [reflexivity | exact IH]. Qed.

Lemma drop_app_length0 a b : drop (String.length a) (a ++ b) = b.
Proof.
  rewrite <- (Nat.add_0_r (String.length a)), drop_app_length. now destruct b.
Qed.

Lemma splitext_ext_after_sep y n :
  (OsPath.rfind1 "/" n <> 0%nat
   \/ OsPath.rfind1 "/" y = String.length y) ->
  OsPath.splitext_ext (y ++ n) = OsPath.splitext_ext n.
Proof.
  intros H. unfold OsPath.splitext_ext.
  rewrite !(rfind1_app _ y n).
  pose proof (rfind1_le "." y) as Hdy.
  pose proof (rfind1_le "/" y) as Hsy.
  destruct (OsPath.rfind1 "." n) as [| dn] eqn:Ed.
  - (* no dot in the name *)
    replace ((OsPath.rfind1 "/" n <? 0)%nat) with false
      by (symmetry; apply Nat.ltb_ge; lia).
    destruct (OsPath.rfind1 "/" n) as [| sn] eqn:Es.
    + destruct H as [H | H]; [now elim H |]. rewrite H.
      replace ((String.length y <? OsPath.rfind1 "." y)%nat) with false
        by (symmetry; apply Nat.ltb_ge; lia).
      reflexivity.
    + replace ((String.length y + S sn <? OsPath.rfind1 "." y)%nat) with false
        by (symmetry; apply Nat.ltb_ge; lia).
      reflexivity.
  - destruct (OsPath.rfind1 "/" n) as [| sn] eqn:Es.
    + destruct H as [H | H]; [now elim H |]. rewrite H.
      replace ((String.length y <? String.length y + S dn)%nat) with true
        by (symmetry; apply Nat.ltb_lt; lia).
      replace ((0 <? S dn)%nat) with true by (symmetry; apply Nat.ltb_lt; lia).
      replace (String.length y + S dn - 1 - String.length y)%nat
        with (S dn - 1 - 0)%nat by lia.
      rewrite (drop_app_length0 y n).
      replace (String.length y + S dn - 1)%nat
        with (String.length y + (S dn - 1))%nat by lia.
      rewrite drop_app_length. reflexivity.
    + replace ((String.length y + S sn <? String.length y + S dn)%nat)
        with ((S sn <? S dn)%nat).
      2: { destruct (Nat.ltb_spec (S sn) (S dn)); symmetry;
           [apply Nat.ltb_lt | apply Nat.ltb_ge]; lia. }
      replace (String.length y + S dn - 1 - (String.length y + S sn))%nat
        with (S dn - 1 - S sn)%nat by lia.
      rewrite drop_app_length.
      replace (String.length y + S dn - 1)%nat
        with (String.length y + (S dn - 1))%nat by lia.
      now rewrite drop_app_length.
Qed.

Lemma endswith_char a c :
  endswith a (String c "") = true -> exists x, a = x ++ String c "".
Proof.
  induction a as [| d a IH]; cbn [endswith]; [discriminate |].
  intros H. apply orb_true_iff in H as [H | H].
  - apply String.eqb_eq in H. exists "". exact H.
  - destruct (IH H) as [x ->]. exists (String d x). reflexivity.
Qed.

Lemma splitext_ext_join tmp_dir name :
  OsPath.splitext_ext (PosixPath.join tmp_dir name) = OsPath.splitext_ext name.
Proof.
  unfold PosixPath.join.
  destruct (startswith name "/"); [reflexivity |].
  destruct (is_empty tmp_dir) eqn:Ee.
  - apply is_empty_eq in Ee. now subst.
  - cbn [orb]. destruct (endswith tmp_dir "/") eqn:Es.
    + apply endswith_char in Es as [x ->].
      apply splitext_ext_after_sep.
      destruct (OsPath.rfind1 "/" name); [right | left; discriminate].
      rewrite rfind1_snoc, length_app_string. cbn. lia.
    + rewrite <- append_assoc. apply splitext_ext_after_sep.
      destruct (OsPath.rfind1 "/" name); [right | left; discriminate].
      rewrite rfind1_snoc, length_app_string. cbn. lia.
Qed.

(** X22: a file name that [upload_file] accepts is saved under a path with
    the same extension, whatever the directory: the readers of the
    parser find their format there, and neither raises the error of an
    unsupported format, nor the one of a missing file once the file is
    saved. *)
Theorem accepted_filename_has_a_reader float_repr tmp_dir name f :
  check_filename (Some name) = None ->
  filepath f = tmp_path tmp_dir name -> isfile f = true ->
  lower (OsPath.splitext_ext (filepath f)) = lower (OsPath.splitext_ext name)
  /\ is_ok (HeaderExtractor._read_header_rows f) = true
  /\ is_ok (BalanceteParser._read_data_rows float_repr f) = true.
Proof.
  unfold check_filename, tmp_path. intros Hc Hp Hf.
  destruct (is_empty name); [discriminate |].
  rewrite <- (splitext_ext_join tmp_dir name), <- Hp in Hc.
  rewrite Hp, splitext_ext_join, <- (splitext_ext_join tmp_dir name), <- Hp.
  split; [reflexivity |].
  unfold HeaderExtractor._read_header_rows, BalanceteParser._read_data_rows.
  rewrite Hf. cbn [negb].
  destruct (String.eqb _ ".xls"); [now split |].
  destruct (String.eqb _ ".xlsx"); [now split | discriminate Hc].
Qed.

Lemma accepted_filename_has_a_reader_witness :
  lower (OsPath.splitext_ext (filepath Examples.sample_file))
  = lower (OsPath.splitext_ext "balancete.xls")
  /\ is_ok (HeaderExtractor._read_header_rows Examples.sample_file) = true
  /\ is_ok (BalanceteParser._read_data_rows Repr.repr Examples.sample_file)
     = true.
Proof.
  apply (accepted_filename_has_a_reader Repr.repr "/tmp/upload" "balancete.xls"
           Examples.sample_file); reflexivity.
Defined.

Section WithBuiltins.

Variable series_sum : list float -> float.
Variable round2 : float -> float.
Variable float_repr : float -> string.
Variable list_repr : list string -> string.
Variable value_str : DictValue -> string.

Notation "'validation_messages'" :=
  (Upload.validation_messages series_sum round2 float_repr list_repr value_str).
Notation "'validate_hierarchy'" :=
  (HierarchyValidator.validate_hierarchy series_sum round2 float_repr).
Notation "'validate_level_classification'" :=
  (LevelClassification.validate_level_classification list_repr).

(** The lines that the stage writes for a list of findings. *)
Lemma hierarchy_messages_Done findings :
  Forall (fun fd => mensagem fd <> None) findings ->
  exists lines,
    hierarchy_messages findings = Done lines
    /\ Forall2 (fun fd line =>
                  exists m, mensagem fd = Some m /\ line = "Hierarquia: " ++ m)
         findings lines.
Proof.
  induction findings as [| fd rest IH]; intros H.
  - exists []. split; [reflexivity | constructor].
  - inversion H as [| x l Hfd Hrest]; subst.
    destruct (IH Hrest) as [lines [E HF]]. cbn [hierarchy_messages].
    destruct (mensagem fd) as [m |] eqn:Em; [| now elim Hfd].
    rewrite E. cbn [and_then]. eexists. split; [reflexivity |].
    constructor; [eauto | exact HF].
Qed.

Lemma findings_with_message df findings text :
  validate_hierarchy df = Ok findings -> text <> "OK" ->
  Forall (fun fd => mensagem fd <> None)
    (List.filter (fun r => (status r =? text)%string) findings).
Proof.
  intros H Ht. apply Forall_forall. intros fd Hin.
  apply filter_In in Hin as [Hin Hs]. apply String.eqb_eq in Hs.
  rewrite (HierarchyValidatorMore.validate_hierarchy_Ok
             series_sum round2 float_repr df findings H) in Hin.
  apply in_map_iff in Hin as [row [<- _]].
  destruct (HierarchyValidatorMore.check_macro_status
              series_sum round2 float_repr df row) as [_ Hm].
  intros Hn. apply Hm in Hn. congruence.
Qed.

(** X23: the validation stage of [upload_file] never fails on a subscript:
    every finding whose message it reads has one.  When the three
    validators return, its errors are the messages of the findings of
    [validate_hierarchy] with status ERROR, in order, and its warnings
    those of the findings with status WARNING followed by the entries of
    [validate_level_classification].  The result of
    [validate_balance_sheet] adds nothing to either list, whatever its
    checks say, since it has no key status: the answer has the status
    error exactly when a finding of the hierarchy has status ERROR. *)
Theorem validation_messages_sources df :
  (forall key, validation_messages df <> Failed (KeyError key))
  /\ (forall errors warnings,
         validation_messages df = Done (errors, warnings) ->
         exists findings levels hierarchy_warnings,
           validate_hierarchy df = Ok findings
           /\ validate_level_classification df = Ok levels
           /\ Forall2 (fun fd line =>
                         exists m, mensagem fd = Some m
                                   /\ line = "Hierarquia: " ++ m)
                (List.filter (fun r => (status r =? "ERROR")%string) findings)
                errors
           /\ Forall2 (fun fd line =>
                         exists m, mensagem fd = Some m
                                   /\ line = "Hierarquia: " ++ m)
                (List.filter (fun r => (status r =? "WARNING")%string) findings)
                hierarchy_warnings
           /\ warnings
              = (hierarchy_warnings
                 ++ List.map (fun e => ("Classificação nível: "
                                        ++ LevelClassification.mensagem e)%string)
                      levels)%list
           /\ (response_status errors = "error"
               <-> exists fd, In fd findings /\ status fd = "ERROR")).
Proof.
  unfold Upload.validation_messages.
  destruct (validate_hierarchy df) as [findings | e] eqn:Eh; cbn [call and_then].
  2: { split; [discriminate | discriminate]. }
  destruct (hierarchy_messages_Done _
              (findings_with_message df findings "ERROR" Eh ltac:(discriminate)))
    as [errs [-> HE]].
  destruct (hierarchy_messages_Done _
              (findings_with_message df findings "WARNING" Eh ltac:(discriminate)))
    as [warns [-> HW]].
  cbn [and_then].
  destruct (validate_balance_sheet round2 df) as [bs | e]; cbn [call and_then].
  2: { split; [discriminate | discriminate]. }
  change (is_text (dict_get "status" (balance_dict bs)) "ERROR") with false.
  change (is_text (dict_get "status" (balance_dict bs)) "WARNING") with false.
  cbv iota.
  destruct (validate_level_classification df) as [levels | e]; cbn [call and_then].
  2: { split; [discriminate | discriminate]. }
  split; [discriminate |].
  intros errors warnings [= <- <-].
  exists findings, levels, warns. repeat split; try assumption.
  - intros Hs. destruct errs as [| line errs]; [discriminate Hs |].
    inversion HE as [| fd line' l l' _ _ Hf]; subst.
    assert (Hin : In fd (List.filter (fun r => (status r =? "ERROR")%string)
                           findings)) by (rewrite <- Hf; now left).
    apply filter_In in Hin as [Hin Hst]. apply String.eqb_eq in Hst. eauto.
  - intros [fd [Hin Hst]].
    assert (Hf : In fd (List.filter (fun r => (status r =? "ERROR")%string)
                          findings))
      by (apply filter_In; split; [exact Hin | now apply String.eqb_eq]).
    destruct HE; [destruct Hf | reflexivity].
Qed.

End WithBuiltins.

End UploadProps.

(* ================================================================== *)
(** ** depara_manager.py and ai_classifier.py: classification *)

Module ClassifierProps.
Import Str StrFacts StrMore DefaultMapping DeparaManager.

(** *** Splitting and joining *)

Lemma split_nonempty sep s : split sep s <> [].
Proof.
  pose proof (BalanceteParserProps.split_length sep s) as H.
  destruct (split sep s); [cbn in H; lia | discriminate].
Qed.

Lemma concat_cons sep x xs :
  xs <> [] ->
  String.concat sep (x :: xs) = x ++ sep ++ String.concat sep xs.
Proof. destruct xs; [now intros H | reflexivity]. Qed.

Lemma concat_split sep s :
  String.concat (String sep "") (split sep s) = s.
Proof.
  induction s as [| c s IH]; [reflexivity |].
  cbn [split]. destruct (c =? sep)%char eqn:E.
  - apply Ascii.eqb_eq in E. subst c.
    rewrite concat_cons by apply split_nonempty. now rewrite IH.
  - destruct (split sep s) as [| h t] eqn:Es; [now elim (split_nonempty sep s) |].
    destruct t as [| h' t].
    + cbn in *. congruence.
    + rewrite concat_cons by discriminate.
      rewrite concat_cons in IH by discriminate.
      rewrite <- IH. reflexivity.
Qed.

Lemma split_segments sep s :
  Forall (fun seg => forallb (fun c => negb (c =? sep)%char) seg = true)
    (split sep s).
Proof.
  induction s as [| c s IH]; [repeat constructor |].
  cbn [split]. destruct (c =? sep)%char eqn:E.
  - constructor; [reflexivity | exact IH].
  - destruct (split sep s) as [| h t]; [repeat constructor; cbn; now rewrite E |].
    inversion IH; subst. constructor; [cbn; now rewrite E | assumption].
Qed.

Lemma split_segment_app sep seg rest :
  forallb (fun c => negb (c =? sep)%char) seg = true ->
  split sep (seg ++ String sep rest) = seg :: split sep rest.
Proof.
  induction seg as [| c seg IH]; cbn [append forallb].
  - intros _. cbn [split]. now rewrite Ascii.eqb_refl.
  - intros H. apply andb_true_iff in H as [Hc Hs]. apply negb_true_iff in Hc.
    cbn [split]. now rewrite Hc, (IH Hs).
Qed.

Lemma split_segment sep seg :
  forallb (fun c => negb (c =? sep)%char) seg = true -> split sep seg = [seg].
Proof.
  induction seg as [| c seg IH]; [reflexivity |]. cbn [forallb].
  intros H. apply andb_true_iff in H as [Hc Hs]. apply negb_true_iff in Hc.
  cbn [split]. now rewrite Hc, (IH Hs).
Qed.

Lemma split_concat sep parts :
  parts <> [] ->
  Forall (fun seg => forallb (fun c => negb (c =? sep)%char) seg = true) parts ->
  split sep (String.concat (String sep "") parts) = parts.
Proof.
  induction parts as [| x xs IH]; [now intros H |]. intros _ H.
  inversion H as [| y ys Hx Hxs]; subst. destruct xs as [| x' xs].
  - cbn. now apply split_segment.
  - rewrite concat_cons by discriminate. cbn [append].
    rewrite (split_segment_app sep x _ Hx). f_equal. apply IH; [discriminate | exact Hxs].
Qed.

Lemma concat_app sep (l1 l2 : list string) :
  l1 <> [] -> l2 <> [] ->
  String.concat sep (l1 ++ l2)
  = String.concat sep l1 ++ sep ++ String.concat sep l2.
Proof.
  induction l1 as [| x xs IH]; [now intros H |]. intros _ H2.
  destruct xs as [| x' xs].
  - cbn [app]. now rewrite concat_cons.
  - change ((x :: x' :: xs) ++ l2)%list with (x :: ((x' :: xs) ++ l2))%list.
    rewrite concat_cons by discriminate.
    rewrite (concat_cons sep x (x' :: xs)) by discriminate.
    rewrite IH by (discriminate || assumption).
    now rewrite !append_assoc.
Qed.

Lemma firstn_segments {A} (P : A -> Prop) n l : Forall P l -> Forall P (firstn n l).
Proof.
  revert l. induction n as [| n IH]; intros l H; [constructor |].
  destruct H; [constructor | cbn; constructor; auto].
Qed.

Lemma get_level4_prefix_cases codigo :
  BalanceteParser._determine_account_level (_get_level4_prefix codigo)
  = Z.min (BalanceteParser._determine_account_level codigo) 4
  /\ (_get_level4_prefix codigo = codigo
      \/ exists rest, codigo = _get_level4_prefix codigo ++ "." ++ rest)
  /\ _get_level4_prefix (_get_level4_prefix codigo) = _get_level4_prefix codigo.
Proof.
  unfold _get_level4_prefix, BalanceteParser._determine_account_level.
  destruct (is_empty codigo) eqn:Ee;
    [apply is_empty_eq in Ee; subst codigo; cbn; auto |].
  set (parts := split "." codigo).
  pose proof (split_segments "." codigo) as Hseg. fold parts in Hseg.
  pose proof (concat_split "." codigo) as Hcat. fold parts in Hcat.
  destruct (4 <=? List.length parts)%nat eqn:E4.
  - apply Nat.leb_le in E4.
    assert (Hf : firstn 4 parts <> [])
      by (destruct parts; [cbn in E4; lia | discriminate]).
    assert (Hs : split "." (String.concat "." (firstn 4 parts)) = firstn 4 parts)
      by (apply split_concat; [exact Hf | now apply firstn_segments]).
    assert (Hl : List.length (firstn 4 parts) = 4%nat)
      by (rewrite length_firstn; lia).
    assert (Hne : is_empty (String.concat "." (firstn 4 parts)) = false).
    { destruct (String.concat "." (firstn 4 parts)) eqn:Ec; [| reflexivity].
      rewrite <- Hs in Hl. discriminate Hl. }
    rewrite Hne, Hs, Hl. cbn [Nat.leb]. split; [lia |]. split.
    + destruct (skipn 4 parts) as [| y ys] eqn:Ek.
      * left. transitivity (String.concat "." parts); [| exact Hcat].
        pose proof (firstn_skipn 4 parts) as Hfs.
        rewrite Ek, app_nil_r in Hfs. now rewrite Hfs.
      * right. exists (String.concat "." (y :: ys)).
        transitivity (String.concat "." parts); [symmetry; exact Hcat |].
        rewrite <- (firstn_skipn 4 parts) at 1.
        rewrite Ek. apply concat_app; [exact Hf | discriminate].
    + now rewrite firstn_firstn.
  - apply Nat.leb_gt in E4. rewrite Ee. fold parts. split; [lia |].
    split; [now left |]. apply Nat.leb_gt in E4. now rewrite E4.
Qed.

(** X24: the prefix of level 4 of an account code: a code of at most four
    segments is its own prefix; a longer code is its prefix, a dot and
    the segments left.  The prefix has the first four segments, so its
    level is the level of the code or 4, whichever is less, and the
    prefix of a prefix is that prefix. *)
Theorem get_level4_prefix_spec codigo :
  BalanceteParser._determine_account_level (_get_level4_prefix codigo)
  = Z.min (BalanceteParser._determine_account_level codigo) 4
  /\ (_get_level4_prefix codigo = codigo
      \/ exists rest, codigo = _get_level4_prefix codigo ++ "." ++ rest)
  /\ _get_level4_prefix (_get_level4_prefix codigo) = _get_level4_prefix codigo.
Proof. exact (get_level4_prefix_cases codigo). Qed.

(** *** The built-in tables *)

Lemma lookup_In {V} key (d : list (string * V)) v :
  lookup key d = Some v -> In (key, v) d.
Proof.
  induction d as [| [k x] d IH]; cbn; [discriminate |].
  destruct (k =? key)%string eqn:E.
  - apply String.eqb_eq in E. intros [= <-]. left. congruence.
  - intros H. right. now apply IH.
Qed.

Lemma table_groups (table : list (string * string)) :
  List.forallb (fun kv =>
             (df_of (snd kv) =? AIClassifier._infer_grupo_df (fst kv))%string
             && ((df_of (snd kv) =? "BP")%string || (df_of (snd kv) =? "DRE")%string)
             && negb (snd kv =? "")%string
             && negb (snd kv =? "Pendente IA")%string
             && negb (is_empty (fst kv)))
    table = true ->
  forall key c,
    lookup key table = Some c ->
    df_of c = AIClassifier._infer_grupo_df key
    /\ (df_of c = "BP" \/ df_of c = "DRE")
    /\ c <> "" /\ c <> "Pendente IA" /\ key <> "".
Proof.
  intros H key c Hl. apply lookup_In in Hl.
  rewrite List.forallb_forall in H. specialize (H _ Hl). cbn [fst snd] in H.
  apply andb_true_iff in H as [H H5]. apply andb_true_iff in H as [H H4].
  apply andb_true_iff in H as [H H3]. apply andb_true_iff in H as [H1 H2].
  repeat split.
  - now apply String.eqb_eq.
  - apply orb_true_iff in H2 as [H2 | H2]; apply String.eqb_eq in H2; auto.
  - intros ->. discriminate.
  - intros ->. discriminate.
  - intros ->. discriminate.
Qed.

Lemma default_groups :
  forall key c,
    lookup key DEFAULT_MAPPING = Some c ->
    df_of c = AIClassifier._infer_grupo_df key
    /\ (df_of c = "BP" \/ df_of c = "DRE")
    /\ c <> "" /\ c <> "Pendente IA" /\ key <> "".
Proof. apply table_groups. vm_compute. reflexivity. Qed.

Lemma specific_groups :
  forall key c,
    lookup key SPECIFIC_ACCOUNT_MAPPING = Some c ->
    df_of c = AIClassifier._infer_grupo_df key
    /\ (df_of c = "BP" \/ df_of c = "DRE")
    /\ c <> "" /\ c <> "Pendente IA" /\ key <> "".
Proof. apply table_groups. vm_compute. reflexivity. Qed.

Lemma infer_grupo_df_prefix codigo :
  _get_level4_prefix codigo <> "" ->
  AIClassifier._infer_grupo_df codigo
  = AIClassifier._infer_grupo_df (_get_level4_prefix codigo).
Proof.
  intros Hne. destruct (get_level4_prefix_cases codigo) as [_ [[E | [rest E]] _]].
  - now rewrite E.
  - rewrite E at 1. destruct (_get_level4_prefix codigo); [now elim Hne | reflexivity].
Qed.

Lemma classify_by_default_cases codigo titulo c g novo :
  classify_by_default codigo titulo = (c, g, novo) ->
  novo = mkNewAccount codigo titulo c g (status_novo novo)
  /\ ((c = "Pendente IA" /\ g = "" /\ status_novo novo = "Pendente")
      \/ (c <> "Pendente IA" /\ c <> ""
          /\ g = AIClassifier._infer_grupo_df codigo
          /\ (g = "BP" \/ g = "DRE")
          /\ status_novo novo = "Auto")).
Proof.
  unfold classify_by_default.
  destruct (lookup codigo SPECIFIC_ACCOUNT_MAPPING) as [c1 |] eqn:E1.
  - intros [= <- <- <-]. split; [reflexivity |]. right.
    destruct (specific_groups _ _ E1) as (H1 & H2 & H3 & H4 & _). cbn. auto.
  - destruct (is_empty (_get_level4_prefix codigo)) eqn:Ee.
    + intros [= <- <- <-]. split; [reflexivity |]. left. cbn. auto.
    + destruct (lookup (_get_level4_prefix codigo) DEFAULT_MAPPING) as [c2 |] eqn:E2.
      * intros [= <- <- <-]. split; [reflexivity |]. right.
        destruct (default_groups _ _ E2) as (H1 & H2 & H3 & H4 & H5).
        rewrite (infer_grupo_df_prefix codigo H5). cbn. auto.
      * intros [= <- <- <-]. split; [reflexivity |]. left. cbn. auto.
Qed.


(** X25: an account that the built-in tables classify gets a classification
    of the tables and the statement of its first digit: BP for an
    account of group 1 or 2, DRE for one of group 3 or 4, which is the
    group that [_infer_grupo_df] gives it.  An account that they do not
    classify is left pending, without a statement. *)
Theorem classify_by_default_group codigo titulo c g novo :
  classify_by_default codigo titulo = (c, g, novo) ->
  novo = mkNewAccount codigo titulo c g (status_novo novo)
  /\ ((c = "Pendente IA" /\ g = "" /\ status_novo novo = "Pendente")
      \/ (c <> "Pendente IA" /\ c <> ""
          /\ g = AIClassifier._infer_grupo_df codigo
          /\ (g = "BP" \/ g = "DRE")
          /\ status_novo novo = "Auto")).
Proof. exact (classify_by_default_cases codigo titulo c g novo). Qed.

Lemma classify_by_default_group_witness :
  exists novo,
    novo = mkNewAccount "3.01.01.02.00004" "PIS" "(-) PIS" "DRE" (status_novo novo)
    /\ (("(-) PIS" = "Pendente IA" /\ "DRE" = "" /\ status_novo novo = "Pendente")
        \/ ("(-) PIS" <> "Pendente IA" /\ "(-) PIS" <> ""
            /\ "DRE" = AIClassifier._infer_grupo_df "3.01.01.02.00004"
            /\ ("DRE" = "BP" \/ "DRE" = "DRE")
            /\ status_novo novo = "Auto")).
Proof.
  eexists.
  apply (classify_by_default_group "3.01.01.02.00004" "PIS" "(-) PIS" "DRE").
  vm_compute. reflexivity.
Defined.

Section WithDepara.

Variable depara_map : string -> option (string * string).

Lemma classify_account_spec codigo titulo c g novo :
  classify_account depara_map codigo titulo = (c, g, novo) ->
  c <> ""
  /\ (forall c0 g0, depara_map codigo = Some (c0, g0) -> c0 <> "" ->
                    c = c0 /\ g = g0 /\ novo = None)
  /\ (novo <> None -> exists n, novo = Some n
                                /\ classify_by_default codigo titulo = (c, g, n))
  /\ List.map codigo_conta_novo (match novo with Some n => [n] | None => [] end)
     = if match depara_map codigo with
          | Some (c0, _) => negb (is_empty c0)
          | None => false
          end
       then [] else [codigo].
Proof.
  unfold classify_account.
  assert (Hk : forall n, classify_by_default codigo titulo = (c, g, n) ->
                         codigo_conta_novo n = codigo).
  { intros n H. apply classify_by_default_cases in H as [E _].
    rewrite E. reflexivity. }
  assert (Hd : forall n, classify_by_default codigo titulo = (c, g, n) -> c <> "").
  { intros n Hn. apply classify_by_default_cases in Hn as [_ [[-> _] | [_ [H _]]]];
      [discriminate | exact H]. }
  destruct (depara_map codigo) as [[c0 g0] |] eqn:Ed.
  - destruct (is_empty c0) eqn:Ee.
    + destruct (classify_by_default codigo titulo) as [[c1 g1] n1] eqn:E1.
      intros [= <- <- <-]. split; [now apply (Hd n1) |]. split; [| split].
      * intros c2 g2 [= <- <-] Hne. apply is_empty_eq in Ee. contradiction.
      * intros _. eauto.
      * cbn [negb List.map]. now rewrite (Hk n1).
    + intros [= <- <- <-]. split; [now apply is_empty_false |]. split; [| split].
      * intros c2 g2 [= <- <-] _. auto.
      * intros H. now elim H.
      * reflexivity.
  - destruct (classify_by_default codigo titulo) as [[c1 g1] n1] eqn:E1.
    intros [= <- <- <-]. split; [now apply (Hd n1) |]. split; [| split].
    + intros c2 g2 H. discriminate H.
    + intros _. eauto.
    + cbn [List.map]. now rewrite (Hk n1).
Qed.

(** X26: [classify_accounts] keeps the rows of the ledger and their order.
    Every row typed "Último Nível" gets a classification that is not
    empty: the one of the DEPARA of the sheet when the sheet has one for
    its code, with the group written there.  The other rows get an empty
    classification and an empty group.  The entries added to the sheet
    are those of the rows typed "Último Nível" for which the DEPARA has
    no classification, in row order, one for each such row, under the
    stripped code of the row. *)
Theorem classify_rows_total ledger classified novos :
  classify_rows depara_map ledger = (classified, novos) ->
  List.map account classified = ledger
  /\ Forall (fun row =>
               if (tipo (account row) =? ULTIMO_NIVEL)%string
               then classificacao_depara row <> ""
                    /\ forall c g,
                         depara_map (strip (codigo_conta (account row)))
                         = Some (c, g) ->
                         c <> "" ->
                         classificacao_depara row = c /\ grupo_df row = g
               else classificacao_depara row = "" /\ grupo_df row = "")
       classified
  /\ List.map codigo_conta_novo novos
     = List.map (fun r => strip (codigo_conta r))
         (List.filter
            (fun r =>
               (tipo r =? ULTIMO_NIVEL)%string
               && negb match depara_map (strip (codigo_conta r)) with
                       | Some (c, _) => negb (is_empty c)
                       | None => false
                       end)
            ledger).
Proof.
  revert classified novos. induction ledger as [| r rest IH]; intros classified novos.
  - intros [= <- <-]. repeat split; constructor.
  - cbn [classify_rows]. destruct (classify_rows depara_map rest) as [classified' novos'].
    destruct (IH classified' novos' eq_refl) as [IH1 [IH2 IH3]].
    cbn [List.filter]. destruct (tipo r =? ULTIMO_NIVEL)%string eqn:Et.
    + destruct (classify_account depara_map _ _) as [[c g] novo] eqn:Ec.
      intros [= <- <-].
      apply classify_account_spec in Ec as [Hc [Hd [_ Hn]]].
      cbn [List.map account]. split; [now rewrite IH1 |]. split.
      * constructor; [| exact IH2]. cbn [account classificacao_depara grupo_df].
        rewrite Et. split; [exact Hc |]. intros c0 g0 H0 Hne.
        destruct (Hd c0 g0 H0 Hne) as [-> [-> _]]. auto.
      * cbn [andb].
        destruct (match depara_map (strip (codigo_conta r)) with
                  | Some (c0, _) => negb (is_empty c0)
                  | None => false
                  end); cbn [negb].
        -- destruct novo; [discriminate Hn | exact IH3].
        -- destruct novo as [n |]; [| discriminate Hn].
           cbn [List.map] in Hn |- *. injection Hn as Hcode.
           now rewrite Hcode, IH3.
    + intros [= <- <-]. cbn [List.map account]. split; [now rewrite IH1 |]. split.
      * constructor; [| exact IH2]. cbn [account classificacao_depara grupo_df].
        rewrite Et. auto.
      * exact IH3.
Qed.

End WithDepara.

Lemma classify_rows_total_witness :
  exists classified novos,
    classify_rows (fun _ => None) (rows MoreExamples.classification_error)
    = (classified, novos)
    /\ List.map account classified = rows MoreExamples.classification_error
    /\ List.map codigo_conta_novo novos
       = List.map (fun r => strip (codigo_conta r))
           (List.filter (fun r => (tipo r =? ULTIMO_NIVEL)%string && negb false)
              (rows MoreExamples.classification_error)).
Proof.
  destruct (classify_rows (fun _ => None)
              (rows MoreExamples.classification_error))
    as [classified novos] eqn:E.
  exists classified, novos. split; [reflexivity |].
  destruct (classify_rows_total (fun _ => None) _ classified novos E) as [H1 [_ H3]].
  split; [exact H1 | exact H3].
Defined.

End ClassifierProps.

(* ================================================================== *)
(** ** dre_builder.py: columns and their titles *)

Module DREBuilderProps.
Import Str StrFacts StrMore DREBuilder ColumnName.

Lemma col_number_app acc w c :
  col_number acc (w ++ String c "")
  = 26 * col_number acc w + (Z.of_N (code c) - 64).
Proof.
  revert acc. induction w as [| a w IH]; intros acc; cbn; [reflexivity | apply IH].
Qed.

Lemma code_letter rem :
  0 <= rem < 26 ->
  Z.of_N (code (ascii_of_N (Z.to_N (65 + rem)))) = 65 + rem.
Proof.
  intros H. unfold code. rewrite N_ascii_embedding by lia. lia.
Qed.

Lemma col_letter_loop_spec fuel :
  forall n result,
    n <= Z.of_nat fuel ->
    col_letter_loop fuel n result = col_letter_loop fuel n "" ++ result
    /\ col_number 0 (col_letter_loop fuel n "") = Z.max n 0
    /\ forallb (in_range 65 90) (col_letter_loop fuel n "") = true
    /\ (col_letter_loop fuel n "" = "" <-> n <= 0).
Proof.
  induction fuel as [| fuel IH]; intros n result Hn.
  - cbn. repeat split; intros; try reflexivity; lia.
  - cbn [col_letter_loop]. destruct (n >? 0) eqn:E.
    + apply Z.gtb_lt in E.
      set (rem := (n - 1) mod 26). set (q := (n - 1) / 26).
      assert (Hrem : 0 <= rem < 26) by (apply Z.mod_pos_bound; lia).
      assert (Hdiv : n - 1 = 26 * q + rem) by (apply Z.div_mod; lia).
      assert (Hq : 0 <= q <= Z.of_nat fuel) by (unfold q; split;
        [apply Z.div_pos; lia | apply Z.le_trans with (n - 1);
          [apply Z.div_le_upper_bound; lia | lia]]).
      set (c := ascii_of_N (Z.to_N (65 + rem))).
      destruct (IH q (String c result) (proj2 Hq)) as [H1 _].
      destruct (IH q (String c "") (proj2 Hq)) as [H2 [H3 [H4 _]]].
      rewrite H1, H2. repeat split.
      * now rewrite append_assoc.
      * rewrite col_number_app, H3. unfold c. rewrite code_letter by exact Hrem.
        lia.
      * rewrite forallb_app, H4. cbn. unfold in_range, c.
        pose proof (code_letter rem Hrem) as Hc.
        replace ((65 <=? code (ascii_of_N (Z.to_N (65 + rem))))%N) with true
          by (symmetry; apply N.leb_le; lia).
        replace ((code (ascii_of_N (Z.to_N (65 + rem))) <=? 90)%N) with true
          by (symmetry; apply N.leb_le; lia).
        reflexivity.
      * intros H. destruct (col_letter_loop fuel q ""); discriminate H.
      * lia.
    + assert (n <= 0) by (destruct (Z.gtb_spec n 0); [discriminate | lia]).
      cbn. repeat split; intros; try reflexivity; lia.
Qed.

(** X27: column names: a number below 1 has the empty name; the name of a
    column from 1 on is made of capital letters, one at least, and two
    columns with one name are one column.  The loop is over before its
    turns run out: more turns give the same name. *)
Theorem col_letter_names n :
  forallb (in_range 65 90) (_col_letter n) = true
  /\ (_col_letter n = "" <-> n <= 0)
  /\ (forall m, 0 < n -> 0 < m -> _col_letter n = _col_letter m -> n = m)
  /\ (forall fuel, (Z.to_nat n <= fuel)%nat ->
                   col_letter_loop fuel n "" = _col_letter n).
Proof.
  unfold _col_letter.
  destruct (col_letter_loop_spec (Z.to_nat n) n "" ltac:(lia)) as [_ [H1 [H2 H3]]].
  repeat split; try assumption; try apply H3.
  - intros m Hn Hm E.
    destruct (col_letter_loop_spec (Z.to_nat m) m "" ltac:(lia)) as [_ [H4 _]].
    rewrite E in H1. lia.
  - intros fuel Hf.
    assert (G : forall f1 f2 k, k <= Z.of_nat f1 -> k <= Z.of_nat f2 ->
                                col_letter_loop f1 k "" = col_letter_loop f2 k "").
    { clear. induction f1 as [| f1 IH]; intros f2 k H1 H2.
      - destruct f2; cbn; [reflexivity |].
        replace (k >? 0) with false; [reflexivity |].
        symmetry. destruct (Z.gtb_spec k 0); [lia | reflexivity].
      - destruct f2 as [| f2]; cbn [col_letter_loop].
        + replace (k >? 0) with false; [reflexivity |].
          symmetry. destruct (Z.gtb_spec k 0); [lia | reflexivity].
        + destruct (k >? 0) eqn:E; [| reflexivity]. apply Z.gtb_lt in E.
          assert (Hq : (k - 1) / 26 <= k - 1)
            by (apply Z.div_le_upper_bound; lia).
          assert (Hb1 : (k - 1) / 26 <= Z.of_nat f1) by lia.
          assert (Hb2 : (k - 1) / 26 <= Z.of_nat f2) by lia.
          destruct (col_letter_loop_spec f1 ((k - 1) / 26)
                      (String (ascii_of_N (Z.to_N (65 + (k - 1) mod 26))) "") Hb1)
            as [-> _].
          destruct (col_letter_loop_spec f2 ((k - 1) / 26)
                      (String (ascii_of_N (Z.to_N (65 + (k - 1) mod 26))) "") Hb2)
            as [-> _].
          f_equal. now apply IH. }
    apply G; lia.
Qed.

(** *** Titles of the columns *)

Lemma digits_no_hyphen n s :
  HeaderShape.digits n s -> forallb (fun c => negb (c =? "-")%char) s = true.
Proof.
  intros [_ H]. apply (forallb_impl is_digit); [| exact H].
  intros c Hc. destruct (digit_classes c Hc) as (_ & _ & _ & _ & -> & _).
  reflexivity.
Qed.

Lemma month_text_cases mm :
  HeaderShape.digits 2 mm -> 1 <= HeaderExtractor.number mm <= 12 ->
  In mm (List.map fst _MONTH_ABBR).
Proof.
  intros Hd Hn.
  assert (Hk : forall k, HeaderShape.digits 2 k ->
                         HeaderExtractor.number mm = HeaderExtractor.number k ->
                         mm = k)
    by (intros k Hk; now apply HeaderExtractorProps.number_2_inj).
  assert (D : forall a b, is_digit a = true -> is_digit b = true ->
                          HeaderShape.digits 2 (String a (String b "")))
    by (intros; now apply HeaderExtractorProps.digits_2_text).
  assert (C : HeaderExtractor.number mm = 1 \/ HeaderExtractor.number mm = 2
              \/ HeaderExtractor.number mm = 3 \/ HeaderExtractor.number mm = 4
              \/ HeaderExtractor.number mm = 5 \/ HeaderExtractor.number mm = 6
              \/ HeaderExtractor.number mm = 7 \/ HeaderExtractor.number mm = 8
              \/ HeaderExtractor.number mm = 9 \/ HeaderExtractor.number mm = 10
              \/ HeaderExtractor.number mm = 11 \/ HeaderExtractor.number mm = 12)
    by lia.
  cbn [List.map _MONTH_ABBR fst In].
  repeat (destruct C as [C | C];
          [match type of C with
           | _ = 1 => rewrite (Hk "01")
           | _ = 2 => rewrite (Hk "02")
           | _ = 3 => rewrite (Hk "03")
           | _ = 4 => rewrite (Hk "04")
           | _ = 5 => rewrite (Hk "05")
           | _ = 6 => rewrite (Hk "06")
           | _ = 7 => rewrite (Hk "07")
           | _ = 8 => rewrite (Hk "08")
           | _ = 9 => rewrite (Hk "09")
           | _ = 10 => rewrite (Hk "10")
           | _ = 11 => rewrite (Hk "11")
           end; auto 14 |]).
  rewrite (Hk "12"); auto 14.
Qed.

(** X28: the title of the column of a reference month.  For the reference
    month of a header that [extract_header] returns, [_period_to_header]
    finds the month in its table: the title is one of the twelve
    abbreviations, a slash and the last two digits of the year.  A period
    without a hyphen makes it raise IndexError. *)
Theorem period_to_header_of_header float_repr f h :
  HeaderExtractor.extract_header float_repr f = Ok h ->
  (exists abbr,
      DeparaManager.lookup (drop 5 (mes_referencia h)) _MONTH_ABBR = Some abbr
      /\ _period_to_header (mes_referencia h)
         = Ok (abbr ++ "/" ++ take 2 (drop 2 (mes_referencia h))))
  /\ (forall period,
         forallb (fun c => negb (c =? "-")%char) period = true ->
         _period_to_header period = Raise IndexError).
Proof.
  intros H. split.
  - apply HeaderExtractorProps.extract_header_inv in H
      as (row0 & row1 & rest & d1 & d2 & d3 & t & c & _ & _ & _ & Hd2 & Hc2 & _
          & _ & _ & _ & _ & ->).
    cbn [mes_referencia]. destruct Hd2 as [Hd [Hm Hy]].
    destruct Hc2 as [_ [Hmonth _]].
    pose proof (month_text_cases _ Hm Hmonth) as Hin.
    pose proof (digits_no_hyphen _ _ Hm) as Hm'.
    pose proof (digits_no_hyphen _ _ Hy) as Hy'.
    unfold _period_to_header, HeaderExtractor.iso_month.
    change ("-" ++ HeaderExtractor.month_text d2)
      with (String "-" (HeaderExtractor.month_text d2)).
    rewrite (ClassifierProps.split_segment_app "-" _ _ Hy').
    rewrite (ClassifierProps.split_segment "-" _ Hm').
    apply HeaderExtractorProps.digits_4 in Hy as (y1 & y2 & y3 & y4 & -> & _).
    cbn [append drop take].
    assert (Hl : exists abbr,
               DeparaManager.lookup (HeaderExtractor.month_text d2) _MONTH_ABBR
               = Some abbr).
    { cbn [List.map _MONTH_ABBR fst In] in Hin.
      repeat (destruct Hin as [<- | Hin]; [eexists; reflexivity |]).
      destruct Hin. }
    destruct Hl as [abbr Hl]. exists abbr. rewrite Hl. split; reflexivity.
  - intros period Hp. unfold _period_to_header.
    now rewrite (ClassifierProps.split_segment "-" _ Hp).
Qed.

Lemma period_to_header_of_header_witness :
  (exists abbr,
      DeparaManager.lookup (drop 5 (mes_referencia Examples.sample_header))
        _MONTH_ABBR = Some abbr
      /\ _period_to_header (mes_referencia Examples.sample_header)
         = Ok (abbr ++ "/"
               ++ take 2 (drop 2 (mes_referencia Examples.sample_header))))
  /\ (forall period,
         forallb (fun c => negb (c =? "-")%char) period = true ->
         _period_to_header period = Raise IndexError).
Proof.
  apply (period_to_header_of_header Repr.repr Examples.sample_file).
  vm_compute. reflexivity.
Defined.

End DREBuilderProps.

(* ================================================================== *)
(** ** balancete_parser.py: the reduced code *)

Module ReducedCode.
Import Str StrFacts StrMore BalanceteParser.

(** *** The decimal text of an integer *)

Lemma string_of_uint_acc d :
  forall acc,
    Spec.digits_only (NilEmpty.string_of_uint d)
    /\ Num.digits_value (Z.pos acc) (NilEmpty.string_of_uint d)
       = Z.pos (Pos.of_uint_acc d acc).
Proof.
  unfold Spec.digits_only.
  induction d as [| d IH | d IH | d IH | d IH | d IH | d IH | d IH | d IH | d IH
                  | d IH]; intros acc;
    [split; reflexivity | ..];
    cbn [NilEmpty.string_of_uint Num.digits_value Pos.of_uint_acc forallb];
    (split; [apply (IH acc) |]);
    match goal with
    | |- Num.digits_value ?a _ = Z.pos (Pos.of_uint_acc _ ?b) =>
        replace a with (Z.pos b) by (vm_compute (Z.of_N (code _)); lia)
    end; apply IH.
Qed.

Lemma string_of_uint_value d :
  Spec.digits_only (NilEmpty.string_of_uint d)
  /\ Num.digits_value 0 (NilEmpty.string_of_uint d) = Z.of_N (Pos.of_uint d).
Proof.
  unfold Spec.digits_only.
  induction d as [| d IH | d IH | d IH | d IH | d IH | d IH | d IH | d IH | d IH
                  | d IH];
    [split; reflexivity | exact IH | ..];
    cbn [NilEmpty.string_of_uint Num.digits_value Pos.of_uint forallb];
    (split; [apply (string_of_uint_acc d 1) |]);
    match goal with
    | |- Num.digits_value ?a _ = Z.of_N (N.pos (Pos.of_uint_acc _ ?b)) =>
        replace a with (Z.pos b) by (vm_compute; reflexivity)
    end; apply string_of_uint_acc.
Qed.

(** The decimal text of an integer that is not negative: digits, one at
    least, with the value of the integer. *)
Lemma of_Z_digits z :
  0 <= z ->
  Spec.digits_only (of_Z z) /\ of_Z z <> ""
  /\ Num.digits_value 0 (of_Z z) = z.
Proof.
  intros Hz. unfold of_Z. destruct z as [| p | p]; [now cbn | | lia].
  cbn [Z.to_int NilZero.string_of_int NilZero.string_of_uint].
  pose proof (DecimalPos.Unsigned.of_to p) as Hp.
  destruct (string_of_uint_value (Pos.to_uint p)) as [H1 H2].
  rewrite Hp in H2.
  destruct (Pos.to_uint p) eqn:E; try (cbn in Hp; discriminate Hp);
    (split; [exact H1 | split; [discriminate | exact H2]]).
Qed.

(** *** [float] and [int] on a whole number *)

Lemma float_of_str_digits s :
  Spec.digits_only s -> s <> "" ->
  Num.float_of_str s = Some (Num.float_of_decimal false (Num.digits_value 0 s) 0).
Proof.
  intros Hd Hne.
  pose proof (RoundTrip.digits_group_chars s Hd) as Hg.
  unfold Num.float_of_str.
  rewrite RoundTrip.strip_by_none
    by (revert Hg; apply forallb_impl; intros c Hc;
        destruct (RoundTrip.group_char_classes c Hc) as (_ & _ & _ & _ & ->);
        reflexivity).
  rewrite RoundTrip.strip_underscores_absent
    by (revert Hg; apply forallb_impl; intros c Hc;
        destruct (RoundTrip.group_char_classes c Hc) as (_ & -> & _); reflexivity).
  destruct s as [| c s]; [congruence |].
  assert (Hc : is_digit c = true).
  { unfold Spec.digits_only in Hd. cbn in Hd. now apply andb_true_iff in Hd. }
  rewrite (RoundTrip.split_sign_digit c _ Hc).
  destruct (digit_classes c Hc) as (_ & _ & _ & _ & _ & _ & Hl & Hci & Hcn).
  cbn [lower map String.eqb]. rewrite Hl, Hci, Hcn. cbn [orb].
  rewrite <- (append_nil_r (String c s)) at 1.
  rewrite (RoundTrip.span_digits_app (String c s) "" Hd) by discriminate.
  cbn [is_empty andb Num.parse_exponent String.length Z.of_nat].
  now rewrite append_nil_r.
Qed.

(** A whole number below 2^53 is a float, and [int] gives it back. *)
Lemma int_of_float_of_decimal z :
  0 <= z < 2 ^ 53 ->
  Num.int_of_float (Num.float_of_decimal false z 0) = Num.IntOk z.
Proof.
  intros Hz. unfold Num.float_of_decimal, Num.int_of_float.
  change (0 >=? 0) with true. cbv iota. change (10 ^ 0) with 1.
  rewrite Z.mul_1_r, RoundingFacts.Prim2SF_round_ratio.
  unfold Num.round_ratio.
  destruct (Z.eq_dec z 0) as [-> | Hnz]; [reflexivity |].
  replace ((z <=? 0) || (1 <=? 0)) with false
    by (symmetry; apply orb_false_iff; split; apply Z.leb_gt; lia).
  set (x := Num.units z). set (s := Num.shift_of x 1).
  assert (Hx : 0 < x) by (unfold x, Num.units; lia).
  destruct (RoundingFacts.shift_of_bounds x 1 Hx ltac:(lia)) as [Hs0 [Hq1 Hq2]].
  fold s in Hs0, Hq1, Hq2. rewrite Z.mul_1_l in Hq1, Hq2 |- *.
  assert (H1074 : x = z * 2 ^ 1074) by reflexivity.
  clearbody s x.
  assert (Hspos : 0 < s).
  { destruct (Z.eq_dec s 0) as [E | E]; [| lia]. exfalso.
    rewrite E in Hq1. change (2 ^ 0) with 1 in Hq1. rewrite Z.div_1_r in Hq1.
    assert (2 ^ 53 <= 2 ^ 1074) by (apply Z.pow_le_mono_r; lia). nia. }
  specialize (Hq2 Hspos).
  assert (Hsle : s <= 1074).
  { destruct (Z_le_gt_dec s 1074) as [H | H]; [exact H | exfalso].
    assert (Hp : 2 ^ s = 2 ^ 1074 * 2 ^ (s - 1074))
      by (rewrite <- Z.pow_add_r by lia; f_equal; lia).
    assert (2 <= 2 ^ (s - 1074))
      by (change 2 with (2 ^ 1) at 1; apply Z.pow_le_mono_r; lia).
    assert (Hlt : x / 2 ^ s < 2 ^ 52).
    { apply Z.div_lt_upper_bound; [lia |]. rewrite Hp, H1074.
      assert (0 < 2 ^ 1074) by lia. nia. }
    lia. }
  assert (Hsplit : x = (z * 2 ^ (1074 - s)) * 2 ^ s).
  { rewrite H1074, <- Z.mul_assoc, <- Z.pow_add_r by lia. do 2 f_equal. lia. }
  assert (Hps : 0 < 2 ^ s) by lia.
  assert (Hdiv : x / 2 ^ s = z * 2 ^ (1074 - s))
    by (rewrite Hsplit; apply Z.div_mul; lia).
  assert (Hmod : x mod 2 ^ s = 0)
    by (rewrite Hsplit; apply Z.mod_mul; lia).
  assert (Hr : Num.round_half_even x (2 ^ s) = z * 2 ^ (1074 - s)).
  { unfold Num.round_half_even. rewrite Hmod, Hdiv.
    replace (2 * 0 <? 2 ^ s) with true by (symmetry; apply Z.ltb_lt; lia).
    reflexivity. }
  rewrite Hr. rewrite Hdiv in Hq1, Hq2.
  replace (z * 2 ^ (1074 - s) =? 2 ^ 53) with false
    by (symmetry; apply Z.eqb_neq; lia).
  destruct (z * 2 ^ (1074 - s)) as [| m | m] eqn:Em; try lia.
  replace (s >? 2045) with false
    by (symmetry; destruct (Z.gtb_spec s 2045); [lia | reflexivity]).
  f_equal. destruct (s - 1074 >=? 0) eqn:Ege.
  - assert (s = 1074) by (destruct (Z.geb_spec (s - 1074) 0); [lia | discriminate]).
    subst s. change (1074 - 1074) with 0 in *. change (2 ^ 0) with 1 in *. lia.
  - rewrite <- Em. replace (- (s - 1074)) with (1074 - s) by lia.
    apply Z.div_mul. assert (0 < 2 ^ (1074 - s)) by (apply Z.pow_pos_nonneg; lia).
    lia.
Qed.

Section WithBuiltins.

Variable float_repr : float -> string.

Lemma parse_red_digits v s :
  is_none v = false -> str float_repr v = s ->
  Spec.digits_only s -> s <> "" -> Num.digits_value 0 s < 2 ^ 53 ->
  parse_red float_repr v = Ok (Some (Num.digits_value 0 s)).
Proof.
  intros Hv Hstr Hd Hne Hlt. unfold parse_red. rewrite Hv, Hstr.
  unfold strip. rewrite RoundTrip.strip_by_none.
  2: { revert Hd. apply forallb_impl. intros c Hc.
       now rewrite (proj1 (digit_classes c Hc)). }
  apply is_empty_false in Hne. rewrite Hne.
  apply is_empty_false in Hne.
  rewrite (float_of_str_digits s Hd Hne).
  rewrite int_of_float_of_decimal; [reflexivity |].
  split; [| exact Hlt].
  clear -Hd. unfold Spec.digits_only in Hd.
  assert (G : forall acc, 0 <= acc -> 0 <= Num.digits_value acc s).
  { induction s as [| c s IH]; intros acc Ha; cbn [Num.digits_value]; [exact Ha |].
    cbn [forallb] in Hd. apply andb_true_iff in Hd as [Hc Hs]. apply IH; [exact Hs |].
    unfold is_digit, in_range in Hc. apply andb_true_iff in Hc as [Hc _].
    apply N.leb_le in Hc. lia. }
  now apply G.
Qed.

(** X29: a reduced code that the sheet holds as a whole number, from 0 to
    2^53 - 1, or as the decimal text of such a number, is kept as that
    number; a cell that holds nothing, or only blanks, gives no reduced
    code. *)
Theorem parse_red_whole_number z :
  0 <= z < 2 ^ 53 ->
  parse_red float_repr (PInt z) = Ok (Some z)
  /\ parse_red float_repr (PStr (of_Z z)) = Ok (Some z)
  /\ parse_red float_repr PNone = Ok None
  /\ (forall s, forallb is_space s = true ->
                parse_red float_repr (PStr s) = Ok None).
Proof.
  intros [Hz Hlt]. destruct (of_Z_digits z Hz) as [Hd [Hne Hv]].
  split; [| split; [| split]].
  - rewrite <- Hv at 2. apply parse_red_digits; auto. now rewrite Hv.
  - rewrite <- Hv at 2. apply parse_red_digits; auto. now rewrite Hv.
  - reflexivity.
  - intros s Hs. unfold parse_red. cbn [is_none str].
    replace (strip s) with ""; [reflexivity |]. symmetry.
    unfold strip, strip_by. replace (lstrip_by is_space s) with ""; [reflexivity |].
    symmetry. induction s as [| c s IH]; [reflexivity |]. cbn in *.
    apply andb_true_iff in Hs as [-> Hs]. now apply IH.
Qed.

End WithBuiltins.

Lemma parse_red_whole_number_witness :
  parse_red Repr.repr (PInt 1047) = Ok (Some 1047)
  /\ parse_red Repr.repr (PStr (of_Z 1047)) = Ok (Some 1047)
  /\ parse_red Repr.repr PNone = Ok None
  /\ (forall s, forallb is_space s = true ->
                parse_red Repr.repr (PStr s) = Ok None).
Proof.
  apply (parse_red_whole_number Repr.repr 1047). lia.
Defined.

End ReducedCode.
